(** * Monthly Bill Organizer backend: metrics and alert rules

    A shallow embedding of [src/main.py] and [src/schemas.py].

    - Amounts are Python [float]s in the source. Two embeddings are given.
      [Main] takes them as exact rationals ([Q]); it carries the results on
      dates, on the store, on the order and the shape of the output, and
      on the formulas and the signs of the metrics. [Binary64] takes them
      as binary64 numbers, added, subtracted, multiplied, divided and
      compared as the source does; it carries the results that depend on
      rounding: the alert thresholds, the totals by category and the
      effect of one more transaction.
    - [datetime.utcnow().date()] is an explicit argument of the handlers.
    - Handlers return [result]: a value, or the exception they raise. *)

From Stdlib Require Import ZArith QArith Qminmax Qabs List String Ascii Bool.
From Stdlib Require Import DecimalString Lia Lqa Sorted Permutation.
From Stdlib Require Import PrimFloat FloatOps FloatAxioms SpecFloat Uint63.
Import ListNotations.

Local Open Scope string_scope.
Local Open Scope Z_scope.

(** ** Python runtime pieces used by the handlers *)

Module Py.

(** Exceptions that the handlers raise or let through. [ValueError] stands
    for every [ValueError] of the runtime ([int], tuple unpacking, [date],
    [calendar.IllegalMonthError]). *)
Inductive exn : Type :=
| HTTPException (status_code : Z) (detail : string)
| ValueError.

Inductive result (A : Type) : Type :=
| Ok (a : A)
| Raise (e : exn).
Arguments Ok {A} a.
Arguments Raise {A} e.

Definition bind {A B : Type} (r : result A) (k : A -> result B) : result B :=
  match r with
  | Ok a => k a
  | Raise e => Raise e
  end.

(** [str.split(sep)] for a one-character separator. *)
Fixpoint split_from (sep : ascii) (s cur : string) : list string :=
  match s with
  | EmptyString => [cur]
  | String c s' =>
      if Ascii.eqb c sep then cur :: split_from sep s' EmptyString
      else split_from sep s' (cur ++ String c EmptyString)
  end.

Definition split (s : string) (sep : ascii) : list string :=
  split_from sep s EmptyString.

Definition is_digit (c : ascii) : bool :=
  (48 <=? Z.of_nat (nat_of_ascii c)) && (Z.of_nat (nat_of_ascii c) <=? 57).

Fixpoint int_digits (s : string) (acc : Z) : option Z :=
  match s with
  | EmptyString => Some acc
  | String c s' =>
      if is_digit c
      then int_digits s' (10 * acc + (Z.of_nat (nat_of_ascii c) - 48))
      else None
  end.

(** [int(s)] on a string of ASCII decimal digits, which is all the schema's
    pattern [^\d{4}-\d{2}$] lets through. Signs, blanks and underscores,
    which Python's [int] also reads, are taken as [ValueError] here. *)
Definition int (s : string) : result Z :=
  match s with
  | EmptyString => Raise ValueError
  | _ => match int_digits s 0 with
         | Some z => Ok z
         | None => Raise ValueError
         end
  end.

(** [builtins.max(a, b)]: the first argument is kept unless the second is
    strictly greater. *)
Definition max (a b : Q) : Q := if QMicromega.Qlt_bool a b then b else a.

(** [sum(xs)]: left-to-right accumulation from [0]. *)
Definition sum (xs : list Q) : Q := fold_left Qplus xs 0%Q.

(** [str(n)] for an [int]. *)
Definition str (n : Z) : string := NilZero.string_of_int (Z.to_int n).

(** Fixed-width decimal rendering, [%0wd] for [0 <= n < 10^w]. *)
Fixpoint zfill (w : nat) (n : Z) (acc : string) : string :=
  match w with
  | O => acc
  | S w' =>
      zfill w' (n / 10)
        (String (ascii_of_nat (Z.to_nat (48 + n mod 10))) acc)
  end.

(** Nearest integer of a non-negative rational, ties to even. *)
Definition round_half_even (x : Q) : Z :=
  let n := Qnum x in
  let d := Z.pos (Qden x) in
  let fl := n / d in
  match (2 * (n mod d)) ?= d with
  | Lt => fl
  | Gt => fl + 1
  | Eq => if Z.even fl then fl else fl + 1
  end.

(** [f"{x:.2f}"]. *)
Definition format_2f (x : Q) : string :=
  let c := round_half_even (Qabs x * 100) in
  (if QMicromega.Qlt_bool x 0 then "-" else "")
  ++ str (c / 100) ++ "." ++ zfill 2 (c mod 100) "".

End Py.

Notation "x <- c1 ;; c2" := (Py.bind c1 (fun x => c2))
  (at level 61, c1 at next level, right associativity).
Notation "' p <- c1 ;; c2" := (Py.bind c1 (fun p => c2))
  (at level 61, p pattern, c1 at next level, right associativity).

(** ** [datetime.date] and [calendar.monthrange] *)

Module Datetime.
Import Py.

Definition MINYEAR : Z := 1.
Definition MAXYEAR : Z := 9999.

Definition _is_leap (year : Z) : bool :=
  (year mod 4 =? 0) && (negb (year mod 100 =? 0) || (year mod 400 =? 0)).

Definition _days_before_year (year : Z) : Z :=
  let y := year - 1 in
  y * 365 + y / 4 - y / 100 + y / 400.

Definition _DAYS_IN_MONTH : list Z :=
  [-1; 31; 28; 31; 30; 31; 30; 31; 31; 30; 31; 30; 31].

Definition _DAYS_BEFORE_MONTH : list Z :=
  [-1; 0; 31; 59; 90; 120; 151; 181; 212; 243; 273; 304; 334].

Definition _days_in_month (year month : Z) : Z :=
  if (month =? 2) && _is_leap year then 29
  else nth (Z.to_nat month) _DAYS_IN_MONTH 0.

Definition _days_before_month (year month : Z) : Z :=
  nth (Z.to_nat month) _DAYS_BEFORE_MONTH 0
  + (if (2 <? month) && _is_leap year then 1 else 0).

Definition _ymd2ord (year month day : Z) : Z :=
  _days_before_year year + _days_before_month year month + day.

Record date : Type := mkdate { year : Z; month : Z; day : Z }.

(** [date(year, month, day)], with the range checks of the constructor. *)
Definition new_date (y m d : Z) : result date :=
  if (MINYEAR <=? y) && (y <=? MAXYEAR)
     && (1 <=? m) && (m <=? 12)
     && (1 <=? d) && (d <=? _days_in_month y m)
  then Ok (mkdate y m d)
  else Raise ValueError.

Definition toordinal (d : date) : Z := _ymd2ord (year d) (month d) (day d).

(** [a < b] on dates compares the triples (year, month, day). *)
Definition date_ltb (a b : date) : bool :=
  (year a <? year b)
  || ((year a =? year b)
      && ((month a <? month b)
          || ((month a =? month b) && (day a <? day b)))).

(** [(a - b).days]. *)
Definition sub_days (a b : date) : Z := toordinal a - toordinal b.

(** [d.isoformat()], [YYYY-MM-DD]. *)
Definition isoformat (d : date) : string :=
  Py.zfill 4 (year d)
    ("-" ++ Py.zfill 2 (month d) ("-" ++ Py.zfill 2 (day d) "")).

(** A [datetime]; only its [.date()] is read by the handlers. *)
Record datetime : Type := mkdatetime {
  dt_date : date; hour : Z; minute : Z; second : Z; microsecond : Z }.

Definition new_datetime (y m d hh mm ss us : Z) : result datetime :=
  dd <- new_date y m d ;; Ok (mkdatetime dd hh mm ss us).

End Datetime.

Module Calendar.
Import Py.

Definition isleap (year : Z) : bool :=
  (year mod 4 =? 0) && (negb (year mod 100 =? 0) || (year mod 400 =? 0)).

Definition mdays : list Z := [0; 31; 28; 31; 30; 31; 30; 31; 31; 30; 31; 30; 31].

Definition weekday (year month day : Z) : Z :=
  let year :=
    if (Datetime.MINYEAR <=? year) && (year <=? Datetime.MAXYEAR) then year
    else 2000 + year mod 400 in
  (Datetime._ymd2ord year month day + 6) mod 7.

(** [monthrange(year, month)]: weekday of the first day and number of days. *)
Definition monthrange (year month : Z) : result (Z * Z) :=
  if (1 <=? month) && (month <=? 12) then
    let day1 := weekday year month 1 in
    let ndays :=
      nth (Z.to_nat month) mdays 0
      + (if (month =? 2) && isleap year then 1 else 0) in
    Ok (day1, ndays)
  else Raise ValueError.

End Calendar.

(** ** [dict] with string keys and amounts as values

    Python dictionaries keep insertion order; [d[k] = v] overwrites in place
    when [k] is present and appends otherwise. *)

Module Dict.

Definition t : Type := list (string * Q).

Fixpoint get (d : t) (k : string) (default : Q) : Q :=
  match d with
  | [] => default
  | (k', v) :: d' => if String.eqb k k' then v else get d' k default
  end.

Fixpoint set (d : t) (k : string) (v : Q) : t :=
  match d with
  | [] => [(k, v)]
  | (k', v') :: d' =>
      if String.eqb k k' then (k', v) :: d' else (k', v') :: set d' k v
  end.

Definition items (d : t) : list (string * Q) := d.
Definition keys (d : t) : list string := map fst d.
Definition values (d : t) : list Q := map snd d.


End Dict.

(** ** [src/schemas.py] *)

Module PlannedExpense.
Record t : Type := mk {
  name : string;
  category : string;
  amount : Q;
  due_day : option Z;
  recurring : bool }.

(** [amount >= 0], [1 <= due_day <= 31] when given. *)
Definition valid (p : t) : bool :=
  Qle_bool 0 (amount p)
  && match due_day p with
     | None => true
     | Some d => (1 <=? d) && (d <=? 31)
     end.
End PlannedExpense.

Module BudgetMonth.
Record t : Type := mk {
  month : string;
  income : Q;
  notes : option string;
  planned_expenses : list PlannedExpense.t }.

(** The field pattern [^\d{4}-\d{2}$]. *)
Definition month_pattern (v : string) : bool :=
  match v with
  | String a (String b (String c (String d (String dash
      (String e (String f EmptyString)))))) =>
      Py.is_digit a && Py.is_digit b && Py.is_digit c && Py.is_digit d
      && Ascii.eqb dash "-" && Py.is_digit e && Py.is_digit f
  | _ => false
  end.

(** The validator [valid_month]. *)
Definition valid_month (v : string) : Py.result string :=
  match Py.split v "-" with
  | [a; b] =>
      y <- Py.int a ;;
      m <- Py.int b ;;
      if (m <? 1) || (12 <? m) then Py.Raise Py.ValueError else Py.Ok v
  | _ => Py.Raise Py.ValueError
  end.

Definition valid (b : t) : bool :=
  month_pattern (month b)
  && match valid_month (month b) with Py.Ok _ => true | Py.Raise _ => false end
  && Qle_bool 0 (income b)
  && forallb PlannedExpense.valid (planned_expenses b).
End BudgetMonth.

Module Transaction.
Record t : Type := mk {
  amount : Q;
  category : string;
  label : option string;
  tx_date : Datetime.date }.

(** [amount > 0]. *)
Definition valid (x : t) : bool := QMicromega.Qlt_bool 0 (amount x).
End Transaction.

Module Alert.
Record t : Type := mk {
  month : string;
  type : string;
  message : string;
  level : string }.
End Alert.

(** ** The document store

    [database.py] and the driver behind [db] are outside the sources; the
    collections are modelled on the calls the handlers make. Following the
    header of [schemas.py], the collection [budgetmonth] holds [BudgetMonth]
    documents and [transaction] holds [Transaction] documents, each with the
    [_id] the store adds; a stored transaction also has the ISO string
    [date] that the handlers query. *)

Module Storage.

Inductive ObjectId : Type := Oid (hex : string).

Record PlanDoc : Type := mkPlanDoc {
  plan_id : ObjectId;
  plan_body : BudgetMonth.t }.

Record TxDoc : Type := mkTxDoc {
  tx_id : ObjectId;
  tx_body : Transaction.t;
  date : string }.

Record Database : Type := mkDatabase {
  budgetmonth : list PlanDoc;
  transaction : list TxDoc }.

Definition month_is (month : string) (d : PlanDoc) : bool :=
  String.eqb (BudgetMonth.month (plan_body d)) month.

(** Modelled from the spec: the store's [findOne(collection, filter)]
    ([database.py] and the driver behind [db] are not among the sources),
    called with the filter [{"month": month}]: the first matching document,
    if any. *)
Definition find_one (coll : list PlanDoc) (month : string) : option PlanDoc :=
  List.find (month_is month) coll.

(** [payload.model_dump()]: the four fields of [BudgetMonth]. *)
Definition model_dump (payload : BudgetMonth.t) : BudgetMonth.t :=
  {| BudgetMonth.month := BudgetMonth.month payload;
     BudgetMonth.income := BudgetMonth.income payload;
     BudgetMonth.notes := BudgetMonth.notes payload;
     BudgetMonth.planned_expenses := BudgetMonth.planned_expenses payload |}.

(** [{"$set": fields}] on a stored document: every field of the dump is
    written over the stored one, [_id] stays. *)
Definition set_fields (fields : BudgetMonth.t) (d : PlanDoc) : PlanDoc :=
  {| plan_id := plan_id d; plan_body := fields |}.

Fixpoint update_first (coll : list PlanDoc) (month : string)
    (fields : BudgetMonth.t) : option (list PlanDoc) :=
  match coll with
  | [] => None
  | d :: coll' =>
      if month_is month d then Some (set_fields fields d :: coll')
      else option_map (cons d) (update_first coll' month fields)
  end.

(** Modelled from the spec: the store's
    [upsertByKey(collection, keyFilter, document)] (not among the sources),
    called as [update_one({"month": month}, {"$set": fields}, upsert=True)]:
    the first document with that month is overwritten; when there is none,
    a document is inserted under the fresh identifier [fresh], made of the
    [$set] fields (the filter's [month] is among them). *)
Definition update_one (coll : list PlanDoc) (month : string)
    (fields : BudgetMonth.t) (fresh : ObjectId) : list PlanDoc :=
  match update_first coll month fields with
  | Some coll' => coll'
  | None => coll ++ [{| plan_id := fresh; plan_body := fields |}]
  end.

(** Modelled from the spec: the store's [find(collection, filter)] (not
    among the sources), called with the filter
    [{"date": {"$gte": lo, "$lte": hi}}]: the documents whose [date] string
    lies between the bounds, in stored order. *)
Definition find (coll : list TxDoc) (lo hi : string) : list TxDoc :=
  List.filter (fun t => String.leb lo (date t) && String.leb (date t) hi) coll.

(** Modelled from the spec: the store's [insertOne(collection, document)]
    (not among the sources). *)
Definition insert_one (coll : list TxDoc) (d : TxDoc) : list TxDoc :=
  coll ++ [d].

(** Modelled from the spec: the store's [find(collection, filter)] (not
    among the sources) for the query [list_transactions] builds: the empty
    filter [{}] returns every document, a [date] range the documents
    within it. *)
Definition find_query (coll : list TxDoc) (query : option (string * string))
    : list TxDoc :=
  match query with
  | None => coll
  | Some (lo, hi) => find coll lo hi
  end.

Fixpoint insert_by_date (t : TxDoc) (docs : list TxDoc) : list TxDoc :=
  match docs with
  | [] => [t]
  | u :: docs' =>
      if String.leb (date t) (date u) then t :: docs
      else u :: insert_by_date t docs'
  end.

(** Modelled from the spec: the store's [sort] (not among the sources),
    called as [.sort("date", 1)]: ascending by the [date] string; documents
    with equal dates stay in stored order. *)
Definition sort_by_date (docs : list TxDoc) : list TxDoc :=
  fold_right insert_by_date [] docs.

End Storage.

(** ** [src/main.py] *)

Module Main.
Import Py.

(** The plan as returned to the client: [_id] turned into a string. *)
Record PlanJson : Type := mkPlanJson {
  _id : string;
  body : BudgetMonth.t }.

Definition oid_str (doc : Storage.PlanDoc) : PlanJson :=
  let 'Storage.Oid hex := Storage.plan_id doc in
  {| _id := hex; body := Storage.plan_body doc |}.

(** [year, m = map(int, month.split("-"))]. *)
Definition year_month (month : string) : result (Z * Z) :=
  match split month "-" with
  | [a; b] => y <- int a ;; m <- int b ;; Ok (y, m)
  | _ => Raise ValueError
  end.

Definition start_end_for_month (month : string)
    : result (Datetime.datetime * Datetime.datetime) :=
  '(year, m) <- year_month month ;;
  start <- Datetime.new_datetime year m 1 0 0 0 0 ;;
  '(_, last_day) <- Calendar.monthrange year m ;;
  end_ <- Datetime.new_datetime year m last_day 23 59 59 999000 ;;
  Ok (start, end_).

Record Metrics : Type := mkMetrics {
  income : Q;
  planned_total : Q;
  remaining_planned : Q;
  actual_spent : Q;
  remaining_actual : Q;
  days_left : Z;
  daily_limit : Q;
  weekly_limit : Q;
  planned_by_category : Dict.t;
  actual_by_category : Dict.t }.

Record Budget : Type := mkBudget {
  plan : PlanJson;
  metrics : Metrics }.

(** One turn of the loop that fills [planned_by_cat]. *)
Definition planned_step (planned_by_cat : Dict.t) (p : PlannedExpense.t)
    : Dict.t :=
  Dict.set planned_by_cat (PlannedExpense.category p)
    (Dict.get planned_by_cat (PlannedExpense.category p) 0
     + PlannedExpense.amount p)%Q.

(** One turn of the loop that fills [actual_by_cat]. *)
Definition actual_step (actual_by_cat : Dict.t) (t : Storage.TxDoc)
    : Dict.t :=
  let cat := Transaction.category (Storage.tx_body t) in
  Dict.set actual_by_cat cat
    (Dict.get actual_by_cat cat 0 + Transaction.amount (Storage.tx_body t))%Q.

(** [GET /api/budget/{month}]; [today] is [datetime.utcnow().date()]. *)
Definition get_budget (db : option Storage.Database) (today : Datetime.date)
    (month : string) : result Budget :=
  match db with
  | None => Raise (HTTPException 500 "Database not available")
  | Some db =>
    match Storage.find_one (Storage.budgetmonth db) month with
    | None => Raise (HTTPException 404 "No plan for this month")
    | Some plan =>
      let income := BudgetMonth.income (Storage.plan_body plan) in
      let expenses := BudgetMonth.planned_expenses (Storage.plan_body plan) in
      let planned_total := sum (map PlannedExpense.amount expenses) in
      '(start, end_) <- start_end_for_month month ;;
      let lo := Datetime.isoformat (Datetime.dt_date start) in
      let hi := Datetime.isoformat (Datetime.dt_date end_) in
      let actual_cursor := Storage.find (Storage.transaction db) lo hi in
      let actual_total :=
        sum (map (fun t => Transaction.amount (Storage.tx_body t))
               actual_cursor) in
      let remaining_actual := (income - actual_total)%Q in
      '(current_year, current_month) <- year_month month ;;
      '(_, last_day) <- Calendar.monthrange current_year current_month ;;
      last_date <- Datetime.new_date current_year current_month last_day ;;
      first_date <- Datetime.new_date current_year current_month 1 ;;
      let days_left :=
        if Datetime.date_ltb today first_date
        then Datetime.sub_days last_date first_date + 1
        else if Datetime.date_ltb last_date today
        then 0
        else Datetime.sub_days last_date today + 1 in
      let daily_limit :=
        if 0 <? days_left then (remaining_actual / inject_Z days_left)%Q
        else 0%Q in
      let weekly_limit := (daily_limit * 7)%Q in
      let planned_by_cat := fold_left planned_step expenses [] in
      let tx_cursor := Storage.find (Storage.transaction db) lo hi in
      let actual_by_cat := fold_left actual_step tx_cursor [] in
      Ok {| plan := oid_str plan;
            metrics :=
              {| income := income;
                 planned_total := planned_total;
                 remaining_planned := max (income - planned_total)%Q 0%Q;
                 actual_spent := actual_total;
                 remaining_actual := remaining_actual;
                 days_left := days_left;
                 daily_limit := daily_limit;
                 weekly_limit := weekly_limit;
                 planned_by_category := planned_by_cat;
                 actual_by_category := actual_by_cat |} |}
    end
  end.

(** [POST /api/budget/{month}]; [fresh] is the identifier the store gives
    to a document it inserts. The result is the reply together with the
    store after the call. *)
Definition upsert_budget (db : option Storage.Database)
    (fresh : Storage.ObjectId) (month : string) (payload : BudgetMonth.t)
    : result (option PlanJson * Storage.Database) :=
  if negb (String.eqb (BudgetMonth.month payload) month) then
    Raise (HTTPException 400 "Path month and payload month must match")
  else
    match db with
    | None => Raise (HTTPException 500 "Database not available")
    | Some db =>
        let db' :=
          {| Storage.budgetmonth :=
               Storage.update_one (Storage.budgetmonth db) month
                 (Storage.model_dump payload) fresh;
             Storage.transaction := Storage.transaction db |} in
        let doc := Storage.find_one (Storage.budgetmonth db') month in
        Ok (option_map oid_str doc, db')
    end.

(** [POST /api/transactions]: the dump of [tx] is stored with the ISO
    string [date] added, under the identifier [fresh]. *)
Definition add_transaction (db : option Storage.Database)
    (fresh : Storage.ObjectId) (tx : Transaction.t)
    : result Storage.Database :=
  match db with
  | None => Raise (HTTPException 500 "Database not available")
  | Some db =>
      let data :=
        {| Storage.tx_id := fresh;
           Storage.tx_body := tx;
           Storage.date := Datetime.isoformat (Transaction.tx_date tx) |} in
      Ok {| Storage.budgetmonth := Storage.budgetmonth db;
            Storage.transaction :=
              Storage.insert_one (Storage.transaction db) data |}
  end.

Record Summary : Type := mkSummary {
  s_month : string;
  s_income : Q;
  s_planned_total : Q;
  s_actual_spent : Q;
  s_remaining_actual : Q;
  s_daily_limit : Q;
  s_weekly_limit : Q;
  s_planned_by_category : Dict.t;
  s_actual_by_category : Dict.t }.

(** [GET /api/summary/{month}]: a 404 of [get_budget] is replaced by empty
    metrics, whose every [metrics.get(k, default)] yields the default. *)
Definition month_summary (db : option Storage.Database)
    (today : Datetime.date) (month : string) : result Summary :=
  match get_budget db today month with
  | Ok budget =>
      let metrics := metrics budget in
      Ok {| s_month := month;
            s_income := income metrics;
            s_planned_total := planned_total metrics;
            s_actual_spent := actual_spent metrics;
            s_remaining_actual := remaining_actual metrics;
            s_daily_limit := daily_limit metrics;
            s_weekly_limit := weekly_limit metrics;
            s_planned_by_category := planned_by_category metrics;
            s_actual_by_category := actual_by_category metrics |}
  | Raise (HTTPException status_code detail) =>
      if status_code =? 404 then
        Ok {| s_month := month;
              s_income := 0; s_planned_total := 0; s_actual_spent := 0;
              s_remaining_actual := 0; s_daily_limit := 0;
              s_weekly_limit := 0;
              s_planned_by_category := []; s_actual_by_category := [] |}
      else Raise (HTTPException status_code detail)
  | Raise e => Raise e
  end.

(** Body of the loop over [planned_by_category.items()]. *)
Definition overspend_step (month : string) (actual_by_category : Dict.t)
    (alerts : list Alert.t) (item : string * Q) : list Alert.t :=
  let '(cat, planned_amt) := item in
  let actual_amt := Dict.get actual_by_category cat 0 in
  if QMicromega.Qlt_bool planned_amt actual_amt
     && QMicromega.Qlt_bool 0 planned_amt
  then
    alerts ++
    [{| Alert.month := month;
        Alert.type := "overspend";
        Alert.message :=
          "Spending in " ++ cat ++ " is over plan (planned "
          ++ format_2f planned_amt ++ ", actual "
          ++ format_2f actual_amt ++ ").";
        Alert.level :=
          if Qle_bool actual_amt (planned_amt * (125 # 100))
          then "warning" else "danger" |}]
  else alerts.

(** The low-budget block. *)
Definition low_budget_step (month : string) (remaining income : Q)
    (alerts : list Alert.t) : list Alert.t :=
  if QMicromega.Qlt_bool 0 income then
    let remaining_ratio := (remaining / income)%Q in
    if Qle_bool remaining_ratio (1 # 10) then
      alerts ++
      [{| Alert.month := month;
          Alert.type := "low_budget";
          Alert.message :=
            "Remaining monthly budget is below 10% of income.";
          Alert.level :=
            if QMicromega.Qlt_bool 0 remaining then "warning" else "danger" |}]
    else alerts
  else alerts.

(** Body of the loop over [plan["planned_expenses"]]; [date(...)] may raise. *)
Definition due_soon_step (month : string) (today : Datetime.date)
    (year m last_day : Z) (alerts : list Alert.t) (p : PlannedExpense.t)
    : result (list Alert.t) :=
  match PlannedExpense.due_day p with
  | None => Ok alerts
  | Some due_day =>
      if due_day =? 0 then Ok alerts
      else
        let due_day := Z.min (Z.max due_day 1) last_day in
        due_date <- Datetime.new_date year m due_day ;;
        let days_until := Datetime.sub_days due_date today in
        if (0 <=? days_until) && (days_until <=? 5) then
          Ok (alerts ++
              [{| Alert.month := month;
                  Alert.type := "due_soon";
                  Alert.message :=
                    PlannedExpense.name p ++ " is due in "
                    ++ str days_until ++ " day(s).";
                  Alert.level :=
                    if 3 <=? days_until then "info" else "warning" |}])%list
        else Ok alerts
  end.

Fixpoint due_soon_loop (month : string) (today : Datetime.date)
    (year m last_day : Z) (ps : list PlannedExpense.t)
    (alerts : list Alert.t) : result (list Alert.t) :=
  match ps with
  | [] => Ok alerts
  | p :: ps' =>
      alerts' <- due_soon_step month today year m last_day alerts p ;;
      due_soon_loop month today year m last_day ps' alerts'
  end.

(** [GET /api/alerts/{month}]. The clock is read twice: [today_budget]
    inside [get_budget], [today] before the due-soon loop. *)
Definition get_alerts (db : option Storage.Database)
    (today_budget today : Datetime.date) (month : string)
    : result (list Alert.t) :=
  match db with
  | None => Raise (HTTPException 500 "Database not available")
  | Some _ =>
    let alerts : list Alert.t := [] in
    match get_budget db today_budget month with
    | Raise (HTTPException status_code detail) =>
        if status_code =? 404 then Ok []
        else Raise (HTTPException status_code detail)
    | Raise e => Raise e
    | Ok data =>
      let plan := plan data in
      let metrics := metrics data in
      let alerts :=
        fold_left (overspend_step month (actual_by_category metrics))
          (Dict.items (planned_by_category metrics)) alerts in
      let alerts :=
        low_budget_step month (remaining_actual metrics) (income metrics)
          alerts in
      match BudgetMonth.planned_expenses (body plan) with
      | [] => Ok alerts
      | expenses =>
          '(year, m) <- year_month month ;;
          '(_, last_day) <- Calendar.monthrange year m ;;
          due_soon_loop month today year m last_day expenses alerts
      end
    end
  end.

(** A transaction as returned to the client: [_id] turned into a string. *)
Record TxJson : Type := mkTxJson {
  tx_json_id : string;
  tx_json_body : Transaction.t;
  tx_json_date : string }.

(** [oid_str] on a transaction document. *)
Definition oid_str_tx (doc : Storage.TxDoc) : TxJson :=
  let 'Storage.Oid hex := Storage.tx_id doc in
  {| tx_json_id := hex;
     tx_json_body := Storage.tx_body doc;
     tx_json_date := Storage.date doc |}.

(** [GET /api/transactions]; [month] is the optional query parameter.
    [if month:] is false for [None] and for the empty string. *)
Definition list_transactions (db : option Storage.Database)
    (month : option string) : result (list TxJson) :=
  match db with
  | None => Raise (HTTPException 500 "Database not available")
  | Some db =>
      query <-
        match month with
        | None => Ok None
        | Some EmptyString => Ok None
        | Some month =>
            '(start, end_) <- start_end_for_month month ;;
            Ok (Some (Datetime.isoformat (Datetime.dt_date start),
                      Datetime.isoformat (Datetime.dt_date end_)))
        end ;;
      let docs :=
        Storage.sort_by_date
          (Storage.find_query (Storage.transaction db) query) in
      Ok (map oid_str_tx docs)
  end.

End Main.

(** * Notions used to state the properties *)

Module Notions.
Import Py Main.

(** The number of days [monthrange] reports for a month in 1..12. *)
Definition ndays (y m : Z) : Z := Datetime._days_in_month y m.

Definition date_lt (a b : Datetime.date) : Prop :=
  Datetime.date_ltb a b = true.

Definition first_date (y m : Z) : Datetime.date := Datetime.mkdate y m 1.
Definition last_date (y m : Z) : Datetime.date :=
  Datetime.mkdate y m (ndays y m).

(** The transactions the two queries of [get_budget] return. *)
Definition month_txs (db : Storage.Database) (y m : Z) : list Storage.TxDoc :=
  Storage.find (Storage.transaction db)
    (Datetime.isoformat (first_date y m)) (Datetime.isoformat (last_date y m)).

Definition tx_amount (t : Storage.TxDoc) : Q :=
  Transaction.amount (Storage.tx_body t).
Definition tx_category (t : Storage.TxDoc) : string :=
  Transaction.category (Storage.tx_body t).

(** A month string the handlers can work with: it reads as [y-m] with a
    year and a month that [date] accepts. *)
Definition month_reads (month : string) (y m : Z) : Prop :=
  year_month month = Ok (y, m) /\ 1 <= y <= 9999 /\ 1 <= m <= 12.

Definition days_left_of (today : Datetime.date) (y m : Z) : Z :=
  if Datetime.date_ltb today (first_date y m)
  then Datetime.sub_days (last_date y m) (first_date y m) + 1
  else if Datetime.date_ltb (last_date y m) today
  then 0
  else Datetime.sub_days (last_date y m) today + 1.



(** The two-digit renderings of the days up to [n] lie, as strings, between
    those of 1 and [n]. *)
Definition day_strings_ordered (n : Z) : bool :=
  forallb
    (fun d =>
       let d := Z.of_nat d in
       implb (d <=? n)
         (String.leb (zfill 2 1 "") (zfill 2 d "")
          && String.leb (zfill 2 d "") (zfill 2 n "")))
    (seq 1 31).

(** What one category, the low-budget block, or one planned expense adds
    to the alerts: the step of the handler run on an empty list. *)
Definition overspend_of (month : string) (actual_by_category : Dict.t)
    (item : string * Q) : list Alert.t :=
  overspend_step month actual_by_category [] item.

Definition low_budget_of (month : string) (remaining income : Q)
    : list Alert.t :=
  low_budget_step month remaining income [].

Definition due_soon_of (month : string) (today : Datetime.date)
    (year m last_day : Z) (p : PlannedExpense.t) : list Alert.t :=
  match due_soon_step month today year m last_day [] p with
  | Ok alerts => alerts
  | Raise _ => []
  end.

Definition has_type (ty : string) (a : Alert.t) : bool :=
  String.eqb (Alert.type a) ty.

(** Every alert of type [ty1] comes before every alert of type [ty2]. *)
Definition precedes (alerts : list Alert.t) (ty1 ty2 : string) : Prop :=
  forall (i j : nat) (a b : Alert.t),
    nth_error alerts i = Some a -> nth_error alerts j = Some b ->
    Alert.type a = ty1 -> Alert.type b = ty2 -> (i < j)%nat.

(** [db'] is [db] with one more stored transaction. *)
Definition adds_transaction (db : Storage.Database) (t : Storage.TxDoc)
    (db' : Storage.Database) : Prop :=
  Storage.budgetmonth db' = Storage.budgetmonth db
  /\ exists l1 l2,
       Storage.transaction db = (l1 ++ l2)%list
       /\ Storage.transaction db' = (l1 ++ t :: l2)%list.

(** No stored plan has this month. *)
Definition no_plan (db : Storage.Database) (month : string) : Prop :=
  forall d, In d (Storage.budgetmonth db) ->
            BudgetMonth.month (Storage.plan_body d) <> month.

(** Sample data: a plan for February 2024 and three stored transactions,
    one of them dated in March. *)
Definition rent : PlannedExpense.t :=
  PlannedExpense.mk "Rent" "rent" 1200 (Some 5) true.
Definition food : PlannedExpense.t :=
  PlannedExpense.mk "Groceries" "food" 300 None true.
Definition plan_feb : BudgetMonth.t :=
  BudgetMonth.mk "2024-02" 2000 None [rent; food].
Definition doc_feb : Storage.PlanDoc :=
  Storage.mkPlanDoc (Storage.Oid "65c0a1") plan_feb.
Definition tx_rent : Storage.TxDoc :=
  Storage.mkTxDoc (Storage.Oid "65c0b1")
    (Transaction.mk 1300 "rent" None (Datetime.mkdate 2024 2 10))
    "2024-02-10".
Definition tx_food : Storage.TxDoc :=
  Storage.mkTxDoc (Storage.Oid "65c0b2")
    (Transaction.mk (1255 # 10) "food" (Some "market")
       (Datetime.mkdate 2024 2 12))
    "2024-02-12".
Definition tx_march : Storage.TxDoc :=
  Storage.mkTxDoc (Storage.Oid "65c0b3")
    (Transaction.mk 40 "food" None (Datetime.mkdate 2024 3 1))
    "2024-03-01".
Definition db_feb : Storage.Database :=
  Storage.mkDatabase [doc_feb] [tx_rent; tx_march; tx_food].
Definition db_feb_before : Storage.Database :=
  Storage.mkDatabase [doc_feb] [tx_rent; tx_march].
Definition plan_revised : BudgetMonth.t :=
  BudgetMonth.mk "2024-02" 2500 (Some "revised") [food].
Definition feb_1 : Datetime.date := Datetime.mkdate 2024 2 1.

(** The two scenarios of the specification: income 1000, rent 1200 due on
    the 5th; then one transaction of 1300 on rent. *)
Definition plan_a : BudgetMonth.t := BudgetMonth.mk "2024-02" 1000 None [rent].
Definition db_a : Storage.Database :=
  Storage.mkDatabase [Storage.mkPlanDoc (Storage.Oid "65c0a2") plan_a] [].
Definition db_b : Storage.Database :=
  Storage.mkDatabase [Storage.mkPlanDoc (Storage.Oid "65c0a2") plan_a]
    [tx_rent].

(** A date that the [date] constructor accepts. *)
Definition valid_date (d : Datetime.date) : Prop :=
  1 <= Datetime.year d <= 9999
  /\ 1 <= Datetime.month d <= 12
  /\ 1 <= Datetime.day d <= ndays (Datetime.year d) (Datetime.month d).

(** A stored transaction as [add_transaction] writes it: its [date] string
    is the ISO form of its [tx_date]. *)
Definition well_dated (t : Storage.TxDoc) : Prop :=
  valid_date (Transaction.tx_date (Storage.tx_body t))
  /\ Storage.date t
     = Datetime.isoformat (Transaction.tx_date (Storage.tx_body t)).

(** The date falls in the month [y]-[m]. *)
Definition in_month (y m : Z) (d : Datetime.date) : bool :=
  (Datetime.year d =? y) && (Datetime.month d =? m).

Definition tx_in_month (y m : Z) (t : Storage.TxDoc) : bool :=
  in_month y m (Transaction.tx_date (Storage.tx_body t)).

(** The months of the stored plans. *)
Definition months_of (coll : list Storage.PlanDoc) : list string :=
  map (fun d => BudgetMonth.month (Storage.plan_body d)) coll.

(** At most one stored plan per month. *)
Definition unique_months (coll : list Storage.PlanDoc) : Prop :=
  NoDup (months_of coll).

(** The [date] strings never decrease along the list. *)
Definition dates_ascending (docs : list TxJson) : Prop :=
  forall (i j : nat) (a b : TxJson),
    (i <= j)%nat -> nth_error docs i = Some a -> nth_error docs j = Some b ->
    String.leb (tx_json_date a) (tx_json_date b) = true.


End Notions.

(** * The handlers over binary64

    The amounts of the source are Python [float]s, that is IEEE 754 binary64
    numbers. This part repeats the definitions above that compute with
    amounts, with Rocq's primitive binary64 floats in place of the
    rationals: every sum, difference, product, quotient and comparison
    rounds as it does in the source. Month strings, dates, the result type,
    identifiers and alerts are those above. *)

Module Binary64.
Import Py.

Abbreviation ObjectId := Storage.ObjectId (only parsing).
Abbreviation Oid := Storage.Oid (only parsing).
Abbreviation year_month := Main.year_month (only parsing).
Abbreviation start_end_for_month := Main.start_end_for_month (only parsing).

(** The literal [0.1] of [get_alerts]: the binary64 number nearest to one
    tenth, [(0.1).hex()] in Python. The other literals of the handlers
    ([0], [0.0], [1.25], [7]) are binary64 numbers themselves. *)
Definition tenth : float := 0x1.999999999999ap-4%float.

(** [float(n)], and the conversion of the [int] operand of a mixed
    operation, for [0 <= n < 2^53]. *)
Definition of_int (n : Z) : float := PrimFloat.of_uint63 (Uint63.of_Z n).

(** [builtins.max(a, b)]: the first argument is kept unless the second is
    strictly greater; a NaN first argument is kept. *)
Definition max (a b : float) : float := if (a <? b)%float then b else a.

(** [sum(xs)] over floats as CPython does it up to version 3.11: the items
    are added one by one, in order, to a running total that starts at 0,
    each addition rounding to binary64. (From 3.12 on [sum] also carries a
    correction term for floats; that variant is not modelled.) *)
Definition sum (xs : list float) : float := fold_left PrimFloat.add xs 0%float.

(** The rational that a finite binary64 number [(-1)^s * m * 2^e] is. *)
Definition SF2Q (s : bool) (m : positive) (e : Z) : Q :=
  let n := if s then Z.neg m else Z.pos m in
  match e with
  | Z0 => n # 1
  | Z.pos p => (n * 2 ^ Z.pos p) # 1
  | Z.neg p => n # (2 ^ p)
  end.

(** [f"{x:.2f}"]: the exact value of the float, rounded to two decimals
    with ties to even. *)
Definition format_2f (x : float) : string :=
  match Prim2SF x with
  | S754_zero s => if s then "-0.00" else "0.00"
  | S754_infinity s => if s then "-inf" else "inf"
  | S754_nan => "nan"
  | S754_finite s m e => Py.format_2f (SF2Q s m e)
  end.

(** The real number that a finite float is; 0 for an infinity and for a
    NaN. *)
Definition exact (x : float) : Q :=
  match Prim2SF x with
  | S754_finite s m e => SF2Q s m e
  | _ => 0
  end.

(** [dict] with string keys and [float] values, in insertion order. *)
Module Dict.

Definition t : Type := list (string * float).

Fixpoint get (d : t) (k : string) (default : float) : float :=
  match d with
  | [] => default
  | (k', v) :: d' => if String.eqb k k' then v else get d' k default
  end.

Fixpoint set (d : t) (k : string) (v : float) : t :=
  match d with
  | [] => [(k, v)]
  | (k', v') :: d' =>
      if String.eqb k k' then (k', v) :: d' else (k', v') :: set d' k v
  end.

Definition items (d : t) : list (string * float) := d.
Definition keys (d : t) : list string := map fst d.
Definition values (d : t) : list float := map snd d.

End Dict.

(** [src/schemas.py], with [float] amounts. *)
Module PlannedExpense.
Record t : Type := mk {
  name : string;
  category : string;
  amount : float;
  due_day : option Z;
  recurring : bool }.
End PlannedExpense.

Module BudgetMonth.
Record t : Type := mk {
  month : string;
  income : float;
  notes : option string;
  planned_expenses : list PlannedExpense.t }.
End BudgetMonth.

Module Transaction.
Record t : Type := mk {
  amount : float;
  category : string;
  label : option string;
  tx_date : Datetime.date }.
End Transaction.

(** The document store, as above, holding documents with [float]
    amounts. *)
Module Storage.

Record PlanDoc : Type := mkPlanDoc {
  plan_id : ObjectId;
  plan_body : BudgetMonth.t }.

Record TxDoc : Type := mkTxDoc {
  tx_id : ObjectId;
  tx_body : Transaction.t;
  date : string }.

Record Database : Type := mkDatabase {
  budgetmonth : list PlanDoc;
  transaction : list TxDoc }.

Definition month_is (month : string) (d : PlanDoc) : bool :=
  String.eqb (BudgetMonth.month (plan_body d)) month.

(** Modelled from the spec: the store's [findOne(collection, filter)]
    ([database.py] and the driver behind [db] are not among the sources),
    called with the filter [{"month": month}]: the first matching document,
    if any. *)
Definition find_one (coll : list PlanDoc) (month : string) : option PlanDoc :=
  List.find (month_is month) coll.

(** Modelled from the spec: the store's [find(collection, filter)] (not
    among the sources), called with the filter
    [{"date": {"$gte": lo, "$lte": hi}}]: the documents whose [date] string
    lies between the bounds, in stored order. *)
Definition find (coll : list TxDoc) (lo hi : string) : list TxDoc :=
  List.filter (fun t => String.leb lo (date t) && String.leb (date t) hi) coll.

(** Modelled from the spec: the store's [insertOne(collection, document)]
    (not among the sources): the document is stored after those already
    there. *)
Definition insert_one (coll : list TxDoc) (d : TxDoc) : list TxDoc :=
  coll ++ [d].

End Storage.

(** [src/main.py], with [float] amounts. *)
Module Main.

Record PlanJson : Type := mkPlanJson {
  _id : string;
  body : BudgetMonth.t }.

Definition oid_str (doc : Storage.PlanDoc) : PlanJson :=
  let 'Oid hex := Storage.plan_id doc in
  {| _id := hex; body := Storage.plan_body doc |}.

Record Metrics : Type := mkMetrics {
  income : float;
  planned_total : float;
  remaining_planned : float;
  actual_spent : float;
  remaining_actual : float;
  days_left : Z;
  daily_limit : float;
  weekly_limit : float;
  planned_by_category : Dict.t;
  actual_by_category : Dict.t }.

Record Budget : Type := mkBudget {
  plan : PlanJson;
  metrics : Metrics }.

(** One turn of the loop that fills [planned_by_cat]. *)
Definition planned_step (planned_by_cat : Dict.t) (p : PlannedExpense.t)
    : Dict.t :=
  Dict.set planned_by_cat (PlannedExpense.category p)
    (Dict.get planned_by_cat (PlannedExpense.category p) 0
     + PlannedExpense.amount p)%float.

(** One turn of the loop that fills [actual_by_cat]. *)
Definition actual_step (actual_by_cat : Dict.t) (t : Storage.TxDoc)
    : Dict.t :=
  let cat := Transaction.category (Storage.tx_body t) in
  Dict.set actual_by_cat cat
    (Dict.get actual_by_cat cat 0
     + Transaction.amount (Storage.tx_body t))%float.

(** [GET /api/budget/{month}]; [today] is [datetime.utcnow().date()]. *)
Definition get_budget (db : option Storage.Database) (today : Datetime.date)
    (month : string) : result Budget :=
  match db with
  | None => Raise (HTTPException 500 "Database not available")
  | Some db =>
    match Storage.find_one (Storage.budgetmonth db) month with
    | None => Raise (HTTPException 404 "No plan for this month")
    | Some plan =>
      let income := BudgetMonth.income (Storage.plan_body plan) in
      let expenses := BudgetMonth.planned_expenses (Storage.plan_body plan) in
      let planned_total := sum (map PlannedExpense.amount expenses) in
      '(start, end_) <- start_end_for_month month ;;
      let lo := Datetime.isoformat (Datetime.dt_date start) in
      let hi := Datetime.isoformat (Datetime.dt_date end_) in
      let actual_cursor := Storage.find (Storage.transaction db) lo hi in
      let actual_total :=
        sum (map (fun t => Transaction.amount (Storage.tx_body t))
               actual_cursor) in
      let remaining_actual := (income - actual_total)%float in
      '(current_year, current_month) <- year_month month ;;
      '(_, last_day) <- Calendar.monthrange current_year current_month ;;
      last_date <- Datetime.new_date current_year current_month last_day ;;
      first_date <- Datetime.new_date current_year current_month 1 ;;
      let days_left :=
        if Datetime.date_ltb today first_date
        then Datetime.sub_days last_date first_date + 1
        else if Datetime.date_ltb last_date today
        then 0
        else Datetime.sub_days last_date today + 1 in
      let daily_limit :=
        if 0 <? days_left then (remaining_actual / of_int days_left)%float
        else 0%float in
      let weekly_limit := (daily_limit * 7)%float in
      let planned_by_cat := fold_left planned_step expenses [] in
      let tx_cursor := Storage.find (Storage.transaction db) lo hi in
      let actual_by_cat := fold_left actual_step tx_cursor [] in
      Ok {| plan := oid_str plan;
            metrics :=
              {| income := income;
                 planned_total := planned_total;
                 remaining_planned := max (income - planned_total)%float 0%float;
                 actual_spent := actual_total;
                 remaining_actual := remaining_actual;
                 days_left := days_left;
                 daily_limit := daily_limit;
                 weekly_limit := weekly_limit;
                 planned_by_category := planned_by_cat;
                 actual_by_category := actual_by_cat |} |}
    end
  end.

(** Body of the loop over [planned_by_category.items()]. *)
Definition overspend_step (month : string) (actual_by_category : Dict.t)
    (alerts : list Alert.t) (item : string * float) : list Alert.t :=
  let '(cat, planned_amt) := item in
  let actual_amt := Dict.get actual_by_category cat 0%float in
  if (planned_amt <? actual_amt)%float && (0 <? planned_amt)%float
  then
    alerts ++
    [{| Alert.month := month;
        Alert.type := "overspend";
        Alert.message :=
          "Spending in " ++ cat ++ " is over plan (planned "
          ++ format_2f planned_amt ++ ", actual "
          ++ format_2f actual_amt ++ ").";
        Alert.level :=
          if (actual_amt <=? planned_amt * 1.25)%float
          then "warning" else "danger" |}]
  else alerts.

(** The low-budget block. *)
Definition low_budget_step (month : string) (remaining income : float)
    (alerts : list Alert.t) : list Alert.t :=
  if (0 <? income)%float then
    let remaining_ratio := (remaining / income)%float in
    if (remaining_ratio <=? tenth)%float then
      alerts ++
      [{| Alert.month := month;
          Alert.type := "low_budget";
          Alert.message :=
            "Remaining monthly budget is below 10% of income.";
          Alert.level :=
            if (0 <? remaining)%float then "warning" else "danger" |}]
    else alerts
  else alerts.

(** Body of the loop over [plan["planned_expenses"]]; [date(...)] may raise. *)
Definition due_soon_step (month : string) (today : Datetime.date)
    (year m last_day : Z) (alerts : list Alert.t) (p : PlannedExpense.t)
    : result (list Alert.t) :=
  match PlannedExpense.due_day p with
  | None => Ok alerts
  | Some due_day =>
      if due_day =? 0 then Ok alerts
      else
        let due_day := Z.min (Z.max due_day 1) last_day in
        due_date <- Datetime.new_date year m due_day ;;
        let days_until := Datetime.sub_days due_date today in
        if (0 <=? days_until) && (days_until <=? 5) then
          Ok (alerts ++
              [{| Alert.month := month;
                  Alert.type := "due_soon";
                  Alert.message :=
                    PlannedExpense.name p ++ " is due in "
                    ++ str days_until ++ " day(s).";
                  Alert.level :=
                    if 3 <=? days_until then "info" else "warning" |}])%list
        else Ok alerts
  end.

Fixpoint due_soon_loop (month : string) (today : Datetime.date)
    (year m last_day : Z) (ps : list PlannedExpense.t)
    (alerts : list Alert.t) : result (list Alert.t) :=
  match ps with
  | [] => Ok alerts
  | p :: ps' =>
      alerts' <- due_soon_step month today year m last_day alerts p ;;
      due_soon_loop month today year m last_day ps' alerts'
  end.

(** [GET /api/alerts/{month}]. The clock is read twice: [today_budget]
    inside [get_budget], [today] before the due-soon loop. *)
Definition get_alerts (db : option Storage.Database)
    (today_budget today : Datetime.date) (month : string)
    : result (list Alert.t) :=
  match db with
  | None => Raise (HTTPException 500 "Database not available")
  | Some _ =>
    let alerts : list Alert.t := [] in
    match get_budget db today_budget month with
    | Raise (HTTPException status_code detail) =>
        if status_code =? 404 then Ok []
        else Raise (HTTPException status_code detail)
    | Raise e => Raise e
    | Ok data =>
      let plan := plan data in
      let metrics := metrics data in
      let alerts :=
        fold_left (overspend_step month (actual_by_category metrics))
          (Dict.items (planned_by_category metrics)) alerts in
      let alerts :=
        low_budget_step month (remaining_actual metrics) (income metrics)
          alerts in
      match BudgetMonth.planned_expenses (body plan) with
      | [] => Ok alerts
      | expenses =>
          '(year, m) <- year_month month ;;
          '(_, last_day) <- Calendar.monthrange year m ;;
          due_soon_loop month today year m last_day expenses alerts
      end
    end
  end.

End Main.

Import Main.

(** The transactions the two queries of [get_budget] return. *)
Definition month_txs (db : Storage.Database) (y m : Z) : list Storage.TxDoc :=
  Storage.find (Storage.transaction db)
    (Datetime.isoformat (Notions.first_date y m))
    (Datetime.isoformat (Notions.last_date y m)).

Definition tx_amount (t : Storage.TxDoc) : float :=
  Transaction.amount (Storage.tx_body t).
Definition tx_category (t : Storage.TxDoc) : string :=
  Transaction.category (Storage.tx_body t).


Definition planned_amounts (cat : string) (ps : list PlannedExpense.t)
    : list float :=
  map PlannedExpense.amount
    (filter (fun p => String.eqb (PlannedExpense.category p) cat) ps).

(** What one category, the low-budget block, or one planned expense adds
    to the alerts: the step of the handler run on an empty list. *)
Definition overspend_of (month : string) (actual_by_category : Dict.t)
    (item : string * float) : list Alert.t :=
  overspend_step month actual_by_category [] item.

Definition low_budget_of (month : string) (remaining income : float)
    : list Alert.t :=
  low_budget_step month remaining income [].

Definition due_soon_of (month : string) (today : Datetime.date)
    (year m last_day : Z) (p : PlannedExpense.t) : list Alert.t :=
  match due_soon_step month today year m last_day [] p with
  | Ok alerts => alerts
  | Raise _ => []
  end.

(** [db'] is [db] with the transaction [t] stored after the others, as an
    insert leaves it. *)
Definition appends_transaction (db : Storage.Database) (t : Storage.TxDoc)
    (db' : Storage.Database) : Prop :=
  Storage.budgetmonth db' = Storage.budgetmonth db
  /\ Storage.transaction db'
     = Storage.insert_one (Storage.transaction db) t.


(** Sample data. The amounts that are not binary64 numbers are written as
    the binary64 numbers Python reads them as ([x.hex()]). *)
Definition plan_of (income : float) (ps : list PlannedExpense.t)
    : Storage.PlanDoc :=
  Storage.mkPlanDoc (Oid "65c0a1")
    (BudgetMonth.mk "2024-02" income None ps).

Definition tx_on (day : Z) (cat : string) (amount : float) : Transaction.t :=
  Transaction.mk amount cat None (Datetime.mkdate 2024 2 day).

Definition stored (id : string) (tx : Transaction.t) : Storage.TxDoc :=
  Storage.mkTxDoc (Oid id) tx
    (Datetime.isoformat (Transaction.tx_date tx)).

(** Income 1000; coffee planned at 50.4, and 63.0 spent on it. *)
Definition coffee : PlannedExpense.t :=
  PlannedExpense.mk "Coffee" "coffee" 0x1.9333333333333p+5 (Some 20) true.
Definition db_coffee : Storage.Database :=
  Storage.mkDatabase [plan_of 1000 [coffee]]
    [stored "65c0b1" (tx_on 10 "coffee" 63)].

(** Coffee planned at 0.36, and 0.45 spent on it. *)
Definition espresso : PlannedExpense.t :=
  PlannedExpense.mk "Espresso" "coffee" 0x1.70a3d70a3d70ap-2 None true.
Definition db_espresso : Storage.Database :=
  Storage.mkDatabase [plan_of 1000 [espresso]]
    [stored "65c0b1" (tx_on 10 "coffee" 0x1.ccccccccccccdp-2)].

(** Income 14.9, of which 13.41 is spent. *)
Definition db_tight : Storage.Database :=
  Storage.mkDatabase [plan_of 0x1.dcccccccccccdp+3 []]
    [stored "65c0b1" (tx_on 10 "food" 0x1.ad1eb851eb852p+3)].



(** Income 1000 with 0.01 spent; one more transaction of 0.06. *)
Definition db_cents : Storage.Database :=
  Storage.mkDatabase [plan_of 1000 []]
    [stored "65c0b1" (tx_on 2 "food" 0x1.47ae147ae147bp-7)].
Definition tx_six_cents : Storage.TxDoc :=
  stored "65c0b2" (tx_on 12 "food" 0x1.eb851eb851eb8p-5).
Definition db_cents_after : Storage.Database :=
  Storage.mkDatabase (Storage.budgetmonth db_cents)
    (Storage.insert_one (Storage.transaction db_cents) tx_six_cents).

(** Income 2000; rent planned at 1200, groceries at 300 and snacks at 45.5,
    both on food; 1300 spent on rent and 125.5 on food in February, 40 on
    food in March. *)
Definition doc_home : Storage.PlanDoc :=
  plan_of 2000
    [PlannedExpense.mk "Rent" "rent" 1200 (Some 5) true;
     PlannedExpense.mk "Groceries" "food" 300 None true;
     PlannedExpense.mk "Snacks" "food" 45.5 None false].
Definition db_home : Storage.Database :=
  Storage.mkDatabase [doc_home]
    [stored "65c0b1" (tx_on 10 "rent" 1300);
     stored "65c0b2"
       (Transaction.mk 40 "food" None (Datetime.mkdate 2024 3 1));
     stored "65c0b3" (tx_on 12 "food" 125.5)].


Definition feb_1 : Datetime.date := Datetime.mkdate 2024 2 1.

End Binary64.

(** * Properties *)

(** ** Calendar and dates *)

Module CalendarFacts.
Import Py Notions.

Ltac month_cases m :=
  let H := fresh "Hm" in
  assert (H : m = 1 \/ m = 2 \/ m = 3 \/ m = 4 \/ m = 5 \/ m = 6 \/ m = 7
              \/ m = 8 \/ m = 9 \/ m = 10 \/ m = 11 \/ m = 12) by lia;
  repeat (destruct H as [H | H]; [subst m | ]); [.. | subst m].

Lemma ndays_bounds (y m : Z) : 1 <= m <= 12 -> 28 <= ndays y m <= 31.
Proof.
  intros Hm. unfold ndays, Datetime._days_in_month.
  month_cases m; destruct (Datetime._is_leap y); vm_compute;
    split; discriminate.
Qed.

Lemma monthrange_ok (y m : Z) :
  1 <= m <= 12 ->
  Calendar.monthrange y m = Ok (Calendar.weekday y m 1, ndays y m).
Proof.
  intros Hm. unfold Calendar.monthrange.
  replace ((1 <=? m) && (m <=? 12)) with true
    by (symmetry; apply andb_true_iff; split; apply Z.leb_le; lia).
  do 2 f_equal. unfold ndays, Datetime._days_in_month, Calendar.isleap,
    Datetime._is_leap.
  month_cases m;
    destruct ((y mod 4 =? 0) && (negb (y mod 100 =? 0) || (y mod 400 =? 0)));
    reflexivity.
Qed.

Lemma monthrange_inv (y m w n : Z) :
  Calendar.monthrange y m = Ok (w, n) -> 1 <= m <= 12 /\ n = ndays y m.
Proof.
  intros H.
  assert (Hm : 1 <= m <= 12).
  { unfold Calendar.monthrange in H.
    destruct ((1 <=? m) && (m <=? 12)) eqn:E; [ | discriminate].
    apply andb_true_iff in E. destruct E as [E1 E2].
    apply Z.leb_le in E1. apply Z.leb_le in E2. lia. }
  split; [exact Hm | ].
  rewrite (monthrange_ok y m Hm) in H. congruence.
Qed.

Lemma new_date_ok (y m d : Z) :
  1 <= y <= 9999 -> 1 <= m <= 12 -> 1 <= d <= ndays y m ->
  Datetime.new_date y m d = Ok (Datetime.mkdate y m d).
Proof.
  intros Hy Hm Hd. unfold Datetime.new_date, Datetime.MINYEAR,
    Datetime.MAXYEAR. unfold ndays in Hd.
  replace (1 <=? y) with true by (symmetry; apply Z.leb_le; lia).
  replace (y <=? 9999) with true by (symmetry; apply Z.leb_le; lia).
  replace (1 <=? m) with true by (symmetry; apply Z.leb_le; lia).
  replace (m <=? 12) with true by (symmetry; apply Z.leb_le; lia).
  replace (1 <=? d) with true by (symmetry; apply Z.leb_le; lia).
  replace (d <=? Datetime._days_in_month y m) with true
    by (symmetry; apply Z.leb_le; lia).
  reflexivity.
Qed.

Lemma new_date_inv (y m d : Z) (x : Datetime.date) :
  Datetime.new_date y m d = Ok x ->
  x = Datetime.mkdate y m d /\ 1 <= y <= 9999 /\ 1 <= m <= 12
  /\ 1 <= d <= ndays y m.
Proof.
  unfold Datetime.new_date, Datetime.MINYEAR, Datetime.MAXYEAR, ndays.
  destruct ((1 <=? y) && (y <=? 9999) && (1 <=? m) && (m <=? 12)
            && (1 <=? d) && (d <=? Datetime._days_in_month y m)) eqn:E;
    [ | discriminate].
  repeat (apply andb_true_iff in E; destruct E as [E ?]).
  repeat match goal with H : (_ <=? _) = true |- _ => apply Z.leb_le in H end.
  intros Heq; inversion Heq; subst. repeat split; lia.
Qed.

(** Dates of one month are as far apart as their days. *)
Lemma sub_days_same_month (y m d1 d2 : Z) :
  Datetime.sub_days (Datetime.mkdate y m d1) (Datetime.mkdate y m d2)
  = d1 - d2.
Proof. unfold Datetime.sub_days, Datetime.toordinal, Datetime._ymd2ord. cbn. lia. Qed.

Lemma date_ltb_spec (a b : Datetime.date) :
  Datetime.date_ltb a b = true <->
  Datetime.year a < Datetime.year b
  \/ (Datetime.year a = Datetime.year b
      /\ (Datetime.month a < Datetime.month b
          \/ (Datetime.month a = Datetime.month b
              /\ Datetime.day a < Datetime.day b))).
Proof.
  unfold Datetime.date_ltb.
  rewrite !orb_true_iff, !andb_true_iff, !orb_true_iff, !andb_true_iff.
  rewrite !Z.ltb_lt, !Z.eqb_eq. tauto.
Qed.

Lemma date_ltb_false (a b : Datetime.date) :
  Datetime.date_ltb a b = false <-> ~ date_lt a b.
Proof. unfold date_lt. destruct (Datetime.date_ltb a b); split; congruence. Qed.

Lemma date_lt_trans (a b c : Datetime.date) :
  date_lt a b -> date_lt b c -> date_lt a c.
Proof. unfold date_lt. rewrite !date_ltb_spec. lia. Qed.

Lemma date_lt_asym (a b : Datetime.date) : date_lt a b -> ~ date_lt b a.
Proof. unfold date_lt. rewrite !date_ltb_spec. lia. Qed.

End CalendarFacts.

(** ** What [get_budget] returns *)

Module BudgetFacts.
Import Py Main Notions CalendarFacts.

Ltac reads_month :=
  unfold month_reads; repeat split; try reflexivity; lia.

Lemma start_end_ok (month : string) (y m : Z) :
  month_reads month y m ->
  start_end_for_month month
  = Ok (Datetime.mkdatetime (first_date y m) 0 0 0 0,
        Datetime.mkdatetime (last_date y m) 23 59 59 999000).
Proof.
  intros (Hym & Hy & Hm). unfold start_end_for_month.
  rewrite Hym. cbn [bind]. unfold Datetime.new_datetime.
  pose proof (ndays_bounds y m Hm) as Hn.
  rewrite (new_date_ok y m 1) by lia. cbn [bind].
  rewrite (monthrange_ok y m Hm). cbn [bind].
  rewrite (new_date_ok y m (ndays y m)) by lia. reflexivity.
Qed.

Lemma get_budget_ok (db : Storage.Database) (today : Datetime.date)
    (month : string) (doc : Storage.PlanDoc) (y m : Z) :
  Storage.find_one (Storage.budgetmonth db) month = Some doc ->
  month_reads month y m ->
  exists b,
    get_budget (Some db) today month = Ok b
    /\ plan b = oid_str doc
    /\ income (metrics b) = BudgetMonth.income (Storage.plan_body doc)
    /\ planned_total (metrics b)
       = sum (map PlannedExpense.amount
                (BudgetMonth.planned_expenses (Storage.plan_body doc)))
    /\ remaining_planned (metrics b)
       = max (income (metrics b) - planned_total (metrics b))%Q 0%Q
    /\ actual_spent (metrics b) = sum (map tx_amount (month_txs db y m))
    /\ remaining_actual (metrics b)
       = (income (metrics b) - actual_spent (metrics b))%Q
    /\ days_left (metrics b) = days_left_of today y m
    /\ daily_limit (metrics b)
       = (if 0 <? days_left (metrics b)
          then (remaining_actual (metrics b)
                / inject_Z (days_left (metrics b)))%Q
          else 0%Q)
    /\ weekly_limit (metrics b) = (daily_limit (metrics b) * 7)%Q
    /\ planned_by_category (metrics b)
       = fold_left planned_step
           (BudgetMonth.planned_expenses (Storage.plan_body doc)) []
    /\ actual_by_category (metrics b)
       = fold_left actual_step (month_txs db y m) [].
Proof.
  intros Hfind Hreads.
  pose proof (start_end_ok month y m Hreads) as Hse.
  destruct Hreads as (Hym & Hy & Hm).
  pose proof (ndays_bounds y m Hm) as Hn.
  unfold get_budget. rewrite Hfind, Hse. cbn [bind].
  rewrite Hym. cbn [bind].
  rewrite (monthrange_ok y m Hm). cbn [bind].
  rewrite (new_date_ok y m (ndays y m)) by lia. cbn [bind].
  rewrite (new_date_ok y m 1) by lia. cbn [bind].
  eexists. split; [reflexivity | ].
  cbn [plan metrics income planned_total remaining_planned actual_spent
       remaining_actual days_left daily_limit weekly_limit
       planned_by_category actual_by_category Datetime.dt_date].
  repeat split; reflexivity.
Qed.

Lemma get_budget_inv (db : option Storage.Database) (today : Datetime.date)
    (month : string) (b : Budget) :
  get_budget db today month = Ok b ->
  exists db' doc y m,
    db = Some db'
    /\ Storage.find_one (Storage.budgetmonth db') month = Some doc
    /\ month_reads month y m.
Proof.
  unfold get_budget. destruct db as [db' | ]; [ | discriminate].
  destruct (Storage.find_one (Storage.budgetmonth db') month) as [doc | ]
    eqn:Hfind; [ | discriminate].
  destruct (start_end_for_month month) as [[s e] | ex] eqn:Hse;
    [ | discriminate].
  cbn [bind].
  destruct (year_month month) as [[y m] | ex] eqn:Hym; [ | discriminate].
  cbn [bind].
  destruct (Calendar.monthrange y m) as [[w n] | ex] eqn:Hmr;
    [ | discriminate].
  cbn [bind].
  destruct (Datetime.new_date y m n) as [ld | ex] eqn:Hld; [ | discriminate].
  intros _. exists db', doc, y, m.
  apply new_date_inv in Hld. unfold month_reads. intuition.
Qed.

End BudgetFacts.

(** ** Sums and per-category totals *)

Module SumFacts.
Import Py Main Notions.






End SumFacts.

(** ** Metrics *)

Module MetricsProps.
Import Py Main Notions CalendarFacts BudgetFacts SumFacts.






End MetricsProps.

(** ** ISO date strings of one month *)

Module IsoFacts.
Import Py Notions CalendarFacts.

Lemma append_assoc (a b c : string) :
  ((a ++ b) ++ c = a ++ (b ++ c))%string.
Proof. induction a as [ | x a IH]; cbn; [reflexivity | rewrite IH; reflexivity]. Qed.

Lemma zfill_app (w : nat) (n : Z) (acc : string) :
  zfill w n acc = (zfill w n "" ++ acc)%string.
Proof.
  revert n acc. induction w as [ | w IH]; intros n acc; cbn [zfill].
  - reflexivity.
  - rewrite IH. rewrite (IH _ (String _ "")).
    rewrite append_assoc. reflexivity.
Qed.

Lemma ascii_compare_refl (c : ascii) : Ascii.compare c c = Eq.
Proof.
  pose proof (Ascii.compare_antisym c c) as H.
  destruct (Ascii.compare c c); cbn in H; congruence.
Qed.

Lemma leb_common_prefix (p a b : string) :
  String.leb (p ++ a) (p ++ b) = String.leb a b.
Proof.
  unfold String.leb. induction p as [ | c p IH]; cbn.
  - reflexivity.
  - rewrite ascii_compare_refl. exact IH.
Qed.

(** The ISO form of a date: a prefix for year and month, then the day. *)
Lemma isoformat_split (y m d : Z) :
  Datetime.isoformat (Datetime.mkdate y m d)
  = ((zfill 4 y "" ++ "-" ++ zfill 2 m "" ++ "-") ++ zfill 2 d "")%string.
Proof.
  unfold Datetime.isoformat. cbn [Datetime.year Datetime.month Datetime.day].
  rewrite (zfill_app 4), (zfill_app 2 m).
  rewrite !append_assoc. reflexivity.
Qed.

Lemma day_strings (n d : Z) :
  28 <= n <= 31 -> 1 <= d <= n ->
  String.leb (zfill 2 1 "") (zfill 2 d "") = true
  /\ String.leb (zfill 2 d "") (zfill 2 n "") = true.
Proof.
  intros Hn Hd.
  assert (Hall : day_strings_ordered n = true).
  { assert (Hc : n = 28 \/ n = 29 \/ n = 30 \/ n = 31) by lia.
    destruct Hc as [-> | [-> | [-> | ->]]]; vm_compute; reflexivity. }
  unfold day_strings_ordered in Hall. rewrite forallb_forall in Hall.
  specialize (Hall (Z.to_nat d)). cbv zeta in Hall.
  rewrite Z2Nat.id in Hall by lia.
  replace (d <=? n) with true in Hall by (symmetry; apply Z.leb_le; lia).
  cbn [implb] in Hall. apply andb_true_iff. apply Hall.
  apply in_seq. lia.
Qed.

(** A date of the month lies within the bounds the queries use. *)
Lemma in_month_passes (y m d : Z) :
  1 <= m <= 12 -> 1 <= d <= ndays y m ->
  String.leb (Datetime.isoformat (first_date y m))
    (Datetime.isoformat (Datetime.mkdate y m d))
  && String.leb (Datetime.isoformat (Datetime.mkdate y m d))
       (Datetime.isoformat (last_date y m)) = true.
Proof.
  intros Hm Hd. pose proof (ndays_bounds y m Hm) as Hn.
  unfold first_date, last_date. rewrite !isoformat_split.
  rewrite !leb_common_prefix. apply andb_true_iff.
  apply day_strings; lia.
Qed.

End IsoFacts.

(** ** The stored plan: absence and upsert *)

Module StoreProps.
Import Py Main Notions.

Lemma find_one_absent (db : Storage.Database) (month : string) :
  no_plan db month ->
  Storage.find_one (Storage.budgetmonth db) month = None.
Proof.
  intros Hno. unfold Storage.find_one.
  destruct (find (Storage.month_is month) (Storage.budgetmonth db))
    as [d | ] eqn:E; [ | reflexivity].
  apply find_some in E. destruct E as [Hin Hd].
  unfold Storage.month_is in Hd. apply String.eqb_eq in Hd.
  exfalso. exact (Hno d Hin Hd).
Qed.

(** C7. When no plan is stored for the month, [get_budget] fails with
    status 404, [month_summary] returns the all-zero summary with empty
    category maps, and [get_alerts] returns the empty list. *)
Theorem absent_plan_asymmetry (db : Storage.Database)
    (today today' : Datetime.date) (month : string) :
  no_plan db month ->
  get_budget (Some db) today month
  = Raise (HTTPException 404 "No plan for this month")
  /\ month_summary (Some db) today month
     = Ok {| s_month := month;
             s_income := 0; s_planned_total := 0; s_actual_spent := 0;
             s_remaining_actual := 0; s_daily_limit := 0;
             s_weekly_limit := 0;
             s_planned_by_category := []; s_actual_by_category := [] |}
  /\ get_alerts (Some db) today today' month = Ok [].
Proof.
  intros Hno.
  assert (H404 : get_budget (Some db) today month
                 = Raise (HTTPException 404 "No plan for this month")).
  { unfold get_budget. rewrite (find_one_absent db month Hno). reflexivity. }
  split; [exact H404 | ]. split.
  - unfold month_summary. rewrite H404. reflexivity.
  - unfold get_alerts. rewrite H404. reflexivity.
Qed.

Lemma absent_plan_asymmetry_witness :
  no_plan db_feb "2099-01"
  /\ get_budget (Some db_feb) feb_1 "2099-01"
     = Raise (HTTPException 404 "No plan for this month")
  /\ month_summary (Some db_feb) feb_1 "2099-01"
     = Ok {| s_month := "2099-01";
             s_income := 0; s_planned_total := 0; s_actual_spent := 0;
             s_remaining_actual := 0; s_daily_limit := 0;
             s_weekly_limit := 0;
             s_planned_by_category := []; s_actual_by_category := [] |}
  /\ get_alerts (Some db_feb) feb_1 feb_1 "2099-01" = Ok [].
Proof.
  assert (Hno : no_plan db_feb "2099-01").
  { intros d [<- | []]. cbn. discriminate. }
  split; [exact Hno | ].
  exact (absent_plan_asymmetry db_feb feb_1 feb_1 "2099-01" Hno).
Defined.

Lemma model_dump_id (payload : BudgetMonth.t) :
  Storage.model_dump payload = payload.
Proof. destruct payload. reflexivity. Qed.

Lemma update_first_found (coll : list Storage.PlanDoc)
    (fields : BudgetMonth.t) (old : Storage.PlanDoc) :
  Storage.find_one coll (BudgetMonth.month fields) = Some old ->
  exists coll',
    Storage.update_first coll (BudgetMonth.month fields) fields = Some coll'
    /\ Storage.find_one coll' (BudgetMonth.month fields)
       = Some (Storage.set_fields fields old).
Proof.
  unfold Storage.find_one.
  induction coll as [ | d coll IH]; cbn [find Storage.update_first].
  - discriminate.
  - destruct (Storage.month_is (BudgetMonth.month fields) d) eqn:E.
    + intros H. inversion H; subst old. eexists. split; [reflexivity | ].
      cbn [find]. unfold Storage.month_is at 1. cbn [Storage.set_fields
        Storage.plan_body]. rewrite String.eqb_refl. reflexivity.
    + intros H. destruct (IH H) as (coll' & Hu & Hf).
      exists (d :: coll'). rewrite Hu. split; [reflexivity | ].
      cbn [find]. rewrite E. exact Hf.
Qed.

Lemma update_first_absent (coll : list Storage.PlanDoc) (month : string)
    (payload : BudgetMonth.t) :
  Storage.find_one coll month = None ->
  Storage.update_first coll month payload = None.
Proof.
  unfold Storage.find_one.
  induction coll as [ | d coll IH]; cbn [find Storage.update_first].
  - reflexivity.
  - destruct (Storage.month_is month d); [discriminate | ].
    intros H. rewrite (IH H). reflexivity.
Qed.

Lemma find_one_app_absent (coll : list Storage.PlanDoc) (month : string)
    (d : Storage.PlanDoc) :
  Storage.find_one coll month = None ->
  Storage.month_is month d = true ->
  Storage.find_one (coll ++ [d]) month = Some d.
Proof.
  unfold Storage.find_one.
  induction coll as [ | d' coll IH]; cbn [find app]; intros Hn Hd.
  - rewrite Hd. reflexivity.
  - destruct (Storage.month_is month d'); [discriminate | auto].
Qed.

(** C8. After an upsert, the document stored for the month has exactly the
    submitted [BudgetMonth] as its fields, whatever was stored before; the
    reply carries that document. Only [_id] is the store's: the one of the
    document that was there, or the fresh one. *)
Theorem upsert_replaces_plan (db : Storage.Database)
    (fresh : Storage.ObjectId) (month : string) (payload : BudgetMonth.t) :
  BudgetMonth.month payload = month ->
  exists doc db',
    upsert_budget (Some db) fresh month payload
    = Ok (Some (oid_str doc), db')
    /\ Storage.find_one (Storage.budgetmonth db') month = Some doc
    /\ Storage.plan_body doc = payload
    /\ Storage.plan_id doc
       = match Storage.find_one (Storage.budgetmonth db) month with
         | Some old => Storage.plan_id old
         | None => fresh
         end
    /\ Storage.transaction db' = Storage.transaction db.
Proof.
  intros <-. unfold upsert_budget. rewrite String.eqb_refl. cbn [negb].
  cbn [Storage.budgetmonth Storage.transaction]. unfold Storage.update_one.
  rewrite model_dump_id.
  destruct (Storage.find_one (Storage.budgetmonth db)
              (BudgetMonth.month payload)) as [old | ] eqn:Hold.
  - destruct (update_first_found _ payload old Hold) as (coll' & Hu & Hf).
    rewrite Hu, Hf. cbn [option_map].
    exists (Storage.set_fields payload old). eexists.
    split; [reflexivity | ]. cbn [Storage.budgetmonth Storage.transaction].
    split; [exact Hf | ]. repeat split.
  - rewrite (update_first_absent _ _ payload Hold).
    match goal with
    | |- context [(_ ++ [?d])%list] =>
        assert (Hf : Storage.find_one (Storage.budgetmonth db ++ [d])
                       (BudgetMonth.month payload) = Some d)
    end.
    { apply find_one_app_absent; [exact Hold | ].
      unfold Storage.month_is. apply String.eqb_refl. }
    rewrite Hf. cbn [option_map]. eexists. eexists.
    split; [reflexivity | ]. cbn [Storage.budgetmonth Storage.transaction].
    split; [exact Hf | ]. repeat split.
Qed.

Lemma upsert_replaces_plan_witness :
  BudgetMonth.month plan_revised = "2024-02"
  /\ exists doc db',
       upsert_budget (Some db_feb) (Storage.Oid "65c0ff") "2024-02"
         plan_revised
       = Ok (Some (oid_str doc), db')
       /\ Storage.find_one (Storage.budgetmonth db') "2024-02" = Some doc
       /\ Storage.plan_body doc = plan_revised
       /\ Storage.plan_id doc
          = match Storage.find_one (Storage.budgetmonth db_feb) "2024-02" with
            | Some old => Storage.plan_id old
            | None => Storage.Oid "65c0ff"
            end
       /\ Storage.transaction db' = Storage.transaction db_feb.
Proof.
  split; [reflexivity | ].
  apply (upsert_replaces_plan db_feb (Storage.Oid "65c0ff") "2024-02"
           plan_revised).
  reflexivity.
Defined.

End StoreProps.

(** ** Alerts: what each block adds *)

Module AlertFacts.
Import Py Main Notions CalendarFacts BudgetFacts.
Local Open Scope list_scope.

Lemma overspend_step_app (month : string) (ab : Dict.t)
    (alerts : list Alert.t) (item : string * Q) :
  overspend_step month ab alerts item
  = alerts ++ overspend_of month ab item.
Proof.
  unfold overspend_of, overspend_step. destruct item as [cat planned].
  destruct (QMicromega.Qlt_bool planned (Dict.get ab cat 0)
            && QMicromega.Qlt_bool 0 planned).
  - reflexivity.
  - rewrite app_nil_r. reflexivity.
Qed.

Lemma overspend_loop (month : string) (ab : Dict.t)
    (items : list (string * Q)) (alerts : list Alert.t) :
  fold_left (overspend_step month ab) items alerts
  = alerts ++ List.concat (map (overspend_of month ab) items).
Proof.
  revert alerts. induction items as [ | it items IH]; intros alerts;
    cbn [fold_left map List.concat].
  - rewrite app_nil_r. reflexivity.
  - rewrite IH, overspend_step_app, app_assoc. reflexivity.
Qed.

Lemma low_budget_step_app (month : string) (remaining income : Q)
    (alerts : list Alert.t) :
  low_budget_step month remaining income alerts
  = alerts ++ low_budget_of month remaining income.
Proof.
  unfold low_budget_of, low_budget_step.
  destruct (QMicromega.Qlt_bool 0 income);
    [destruct (Qle_bool (remaining / income) (1 # 10)) | ];
    try reflexivity; rewrite app_nil_r; reflexivity.
Qed.

(** In a month that [date] accepts, the clamped due day is a day of the
    month, so the step does not raise. *)
Lemma due_soon_step_app (month : string) (today : Datetime.date)
    (y m : Z) (alerts : list Alert.t) (p : PlannedExpense.t) :
  1 <= y <= 9999 -> 1 <= m <= 12 ->
  due_soon_step month today y m (ndays y m) alerts p
  = Ok (alerts ++ due_soon_of month today y m (ndays y m) p).
Proof.
  intros Hy Hm. pose proof (ndays_bounds y m Hm) as Hn.
  unfold due_soon_of, due_soon_step.
  destruct (PlannedExpense.due_day p) as [d | ].
  - destruct (d =? 0).
    + rewrite app_nil_r. reflexivity.
    + rewrite (new_date_ok y m (Z.min (Z.max d 1) (ndays y m))) by lia.
      cbn [bind].
      match goal with |- context [if ?c then _ else _] => destruct c end.
      * reflexivity.
      * rewrite app_nil_r. reflexivity.
  - rewrite app_nil_r. reflexivity.
Qed.

Lemma due_soon_loop_ok (month : string) (today : Datetime.date)
    (y m : Z) (ps : list PlannedExpense.t) (alerts : list Alert.t) :
  1 <= y <= 9999 -> 1 <= m <= 12 ->
  due_soon_loop month today y m (ndays y m) ps alerts
  = Ok (alerts
        ++ List.concat (map (due_soon_of month today y m (ndays y m)) ps)).
Proof.
  intros Hy Hm. revert alerts.
  induction ps as [ | p ps IH]; intros alerts;
    cbn [due_soon_loop map List.concat].
  - rewrite app_nil_r. reflexivity.
  - rewrite (due_soon_step_app month today y m alerts p Hy Hm).
    cbn [bind]. rewrite IH, app_assoc. reflexivity.
Qed.

(** The alerts of a stored plan, block by block. *)
Lemma get_alerts_ok (db : Storage.Database)
    (today_budget today : Datetime.date) (month : string)
    (doc : Storage.PlanDoc) (y m : Z) :
  Storage.find_one (Storage.budgetmonth db) month = Some doc ->
  month_reads month y m ->
  exists b,
    get_budget (Some db) today_budget month = Ok b
    /\ get_alerts (Some db) today_budget today month
       = Ok (List.concat (map (overspend_of month (actual_by_category (metrics b)))
                       (Dict.items (planned_by_category (metrics b))))
             ++ low_budget_of month (remaining_actual (metrics b))
                  (income (metrics b))
             ++ List.concat (map (due_soon_of month today y m (ndays y m))
                          (BudgetMonth.planned_expenses
                             (Storage.plan_body doc)))).
Proof.
  intros Hfind Hreads.
  destruct (get_budget_ok db today_budget month doc y m Hfind Hreads)
    as (b & Hb & Hplan & _).
  destruct Hreads as (Hym & Hy & Hm).
  exists b. split; [exact Hb | ].
  unfold get_alerts. rewrite Hb.
  rewrite overspend_loop, low_budget_step_app. cbn [app].
  rewrite Hplan.
  replace (body (oid_str doc)) with (Storage.plan_body doc)
    by (unfold oid_str; destruct (Storage.plan_id doc); reflexivity).
  destruct (BudgetMonth.planned_expenses (Storage.plan_body doc))
    as [ | p ps] eqn:Hps.
  - cbn [map List.concat]. rewrite app_nil_r. reflexivity.
  - rewrite Hym. cbn [bind]. rewrite (monthrange_ok y m Hm). cbn [bind].
    rewrite (due_soon_loop_ok month today y m (p :: ps) _ Hy Hm).
    rewrite app_assoc. reflexivity.
Qed.

End AlertFacts.

(** ** Alerts: the rules *)

Module AlertProps.
Import Py Main Notions CalendarFacts BudgetFacts AlertFacts.
Local Open Scope list_scope.


Lemma overspend_of_type (month : string) (ab : Dict.t) (item : string * Q)
    (a : Alert.t) :
  In a (overspend_of month ab item) -> Alert.type a = "overspend".
Proof.
  unfold overspend_of, overspend_step. destruct item as [cat planned].
  destruct (QMicromega.Qlt_bool planned (Dict.get ab cat 0)
            && QMicromega.Qlt_bool 0 planned); cbn.
  - intros [<- | []]. reflexivity.
  - tauto.
Qed.

Lemma low_budget_of_type (month : string) (remaining income : Q)
    (a : Alert.t) :
  In a (low_budget_of month remaining income) -> Alert.type a = "low_budget".
Proof.
  unfold low_budget_of, low_budget_step.
  destruct (QMicromega.Qlt_bool 0 income);
    [destruct (Qle_bool (remaining / income) (1 # 10)) | ]; cbn;
    try tauto.
  intros [<- | []]. reflexivity.
Qed.

Lemma due_soon_of_type (month : string) (today : Datetime.date)
    (y m n : Z) (p : PlannedExpense.t) (a : Alert.t) :
  In a (due_soon_of month today y m n p) -> Alert.type a = "due_soon".
Proof.
  unfold due_soon_of, due_soon_step.
  destruct (PlannedExpense.due_day p) as [d | ]; [ | cbn; tauto].
  destruct (d =? 0); [cbn; tauto | ].
  destruct (Datetime.new_date y m (Z.min (Z.max d 1) n)); cbn [bind];
    [ | cbn; tauto].
  match goal with |- context [if ?c then _ else _] => destruct c end; cbn.
  - intros [<- | []]. reflexivity.
  - tauto.
Qed.

Lemma in_concat_map {A B : Type} (f : A -> list B) (xs : list A) (b : B) :
  In b (List.concat (map f xs)) <-> exists x, In x xs /\ In b (f x).
Proof.
  rewrite in_concat. split.
  - intros (l & Hl & Hb). apply in_map_iff in Hl.
    destruct Hl as (x & <- & Hx). eauto.
  - intros (x & Hx & Hb). exists (f x). split; [ | exact Hb].
    apply in_map. exact Hx.
Qed.



Lemma filter_nothing {A : Type} (f : A -> bool) (l : list A) :
  (forall a, In a l -> f a = false) -> filter f l = [].
Proof.
  induction l as [ | x l IH]; cbn; intros H.
  - reflexivity.
  - rewrite (H x) by auto. apply IH. auto.
Qed.

Lemma filter_length_le {A : Type} (f : A -> bool) (l : list A) :
  (List.length (filter f l) <= List.length l)%nat.
Proof.
  induction l as [ | x l IH]; cbn; [lia | ].
  destruct (f x); cbn; lia.
Qed.

(** The outcomes of the due-soon rule for one planned expense. *)
Lemma due_soon_of_skips (month : string) (today : Datetime.date)
    (y m n : Z) (p : PlannedExpense.t) :
  PlannedExpense.due_day p = None \/ PlannedExpense.due_day p = Some 0 ->
  due_soon_of month today y m n p = [].
Proof.
  unfold due_soon_of, due_soon_step. intros [-> | ->]; reflexivity.
Qed.

Lemma due_soon_of_cases (month : string) (today : Datetime.date)
    (y m d : Z) (p : PlannedExpense.t) :
  1 <= y <= 9999 -> 1 <= m <= 12 ->
  PlannedExpense.due_day p = Some d -> d <> 0 ->
  let due_day := Z.min (Z.max d 1) (ndays y m) in
  let days_until := Datetime.sub_days (Datetime.mkdate y m due_day) today in
  (0 <= days_until <= 5 ->
   exists a,
     due_soon_of month today y m (ndays y m) p = [a]
     /\ Alert.type a = "due_soon"
     /\ Alert.level a = if 3 <=? days_until then "info" else "warning")
  /\ (~ 0 <= days_until <= 5 ->
      due_soon_of month today y m (ndays y m) p = []).
Proof.
  intros Hy Hm Hd Hnz due_day days_until.
  pose proof (ndays_bounds y m Hm) as Hn.
  unfold due_soon_of, due_soon_step. rewrite Hd.
  replace (d =? 0) with false by (symmetry; apply Z.eqb_neq; exact Hnz).
  fold due_day. rewrite (new_date_ok y m due_day) by (unfold due_day; lia).
  cbn [bind]. fold days_until. split.
  - intros [H0 H5].
    replace (0 <=? days_until) with true by (symmetry; apply Z.leb_le; lia).
    replace (days_until <=? 5) with true by (symmetry; apply Z.leb_le; lia).
    cbn [andb app]. eexists. split; [reflexivity | ]. cbn. auto.
  - intros Hout.
    destruct ((0 <=? days_until) && (days_until <=? 5)) eqn:E;
      [ | reflexivity].
    apply andb_true_iff in E. destruct E as [E1 E2].
    apply Z.leb_le in E1. apply Z.leb_le in E2. lia.
Qed.

Lemma due_soon_of_length (month : string) (today : Datetime.date)
    (y m n : Z) (p : PlannedExpense.t) :
  (List.length (due_soon_of month today y m n p) <= 1)%nat.
Proof.
  unfold due_soon_of, due_soon_step.
  destruct (PlannedExpense.due_day p) as [d | ]; [ | cbn; lia].
  destruct (d =? 0); [cbn; lia | ].
  destruct (Datetime.new_date y m (Z.min (Z.max d 1) n)); cbn [bind];
    [ | cbn; lia].
  match goal with |- context [if ?c then _ else _] => destruct c end;
    cbn; lia.
Qed.

(** C2. A planned expense whose [due_day] is null or zero adds no alert.
    Otherwise, with the due day clamped into [1, last day of the month]
    and [days_until] the days from the reference date to the due date, the
    expense adds one due-soon alert when [0 <= days_until <= 5], of level
    "info" when [days_until >= 3] and "warning" otherwise, and nothing when
    [days_until] is outside that range. Each expense adds at most one
    alert, and the output holds no other due-soon alert. *)
Theorem due_soon_rule (db : Storage.Database)
    (today_budget today : Datetime.date) (month : string)
    (doc : Storage.PlanDoc) (y m : Z) :
  Storage.find_one (Storage.budgetmonth db) month = Some doc ->
  month_reads month y m ->
  exists alerts rest w n,
    get_alerts (Some db) today_budget today month = Ok alerts
    /\ Calendar.monthrange y m = Ok (w, n)
    /\ alerts
       = rest
         ++ List.concat
              (map (due_soon_of month today y m n)
                 (BudgetMonth.planned_expenses (Storage.plan_body doc)))
    /\ (forall a, In a rest -> Alert.type a <> "due_soon")
    /\ forall p,
         In p (BudgetMonth.planned_expenses (Storage.plan_body doc)) ->
         (List.length (due_soon_of month today y m n p) <= 1)%nat
         /\ (PlannedExpense.due_day p = None
             \/ PlannedExpense.due_day p = Some 0 ->
             due_soon_of month today y m n p = [])
         /\ forall d,
              PlannedExpense.due_day p = Some d -> d <> 0 ->
              let due_day := Z.min (Z.max d 1) n in
              let days_until :=
                Datetime.sub_days (Datetime.mkdate y m due_day) today in
              1 <= due_day <= n
              /\ (0 <= days_until <= 5 ->
                  exists a,
                    due_soon_of month today y m n p = [a]
                    /\ In a alerts
                    /\ Alert.type a = "due_soon"
                    /\ (3 <= days_until -> Alert.level a = "info")
                    /\ (days_until < 3 -> Alert.level a = "warning"))
              /\ (~ 0 <= days_until <= 5 ->
                  due_soon_of month today y m n p = []).
Proof.
  intros Hfind Hreads.
  destruct (get_alerts_ok db today_budget today month doc y m Hfind Hreads)
    as (b & Hb & Ha).
  destruct Hreads as (Hym & Hy & Hm).
  pose proof (ndays_bounds y m Hm) as Hn.
  eexists _, _, (Calendar.weekday y m 1), (ndays y m).
  split; [rewrite Ha, app_assoc; reflexivity | ].
  split; [apply monthrange_ok; exact Hm | ].
  split; [reflexivity | ]. split.
  { intros a Hin Hty. apply in_app_or in Hin. destruct Hin as [Hin | Hin].
    - apply in_concat_map in Hin. destruct Hin as (it & _ & Hin).
      apply overspend_of_type in Hin. congruence.
    - apply low_budget_of_type in Hin. congruence. }
  intros p Hp. split; [apply due_soon_of_length | ].
  split; [apply due_soon_of_skips | ].
  intros d Hd Hnz due_day days_until. split; [unfold due_day; lia | ].
  destruct (due_soon_of_cases month today y m d p Hy Hm Hd Hnz)
    as [Hemit Hsilent].
  fold due_day in Hemit, Hsilent. fold days_until in Hemit, Hsilent.
  split; [ | exact Hsilent].
  intros Hrange. destruct (Hemit Hrange) as (a & Hof & Hty & Hlv).
  exists a. split; [exact Hof | ]. split.
  { apply in_or_app. right. apply in_concat_map. exists p.
    split; [exact Hp | ]. rewrite Hof. left. reflexivity. }
  split; [exact Hty | ]. rewrite Hlv. split.
  - intros H3. replace (3 <=? days_until) with true
      by (symmetry; apply Z.leb_le; lia). reflexivity.
  - intros H3. replace (3 <=? days_until) with false
      by (symmetry; apply Z.leb_gt; lia). reflexivity.
Qed.

Lemma due_soon_rule_witness :
  Storage.find_one (Storage.budgetmonth db_feb) "2024-02" = Some doc_feb
  /\ month_reads "2024-02" 2024 2
  /\ exists alerts rest w n,
       get_alerts (Some db_feb) feb_1 feb_1 "2024-02" = Ok alerts
       /\ Calendar.monthrange 2024 2 = Ok (w, n)
       /\ alerts
          = rest
            ++ List.concat
                 (map (due_soon_of "2024-02" feb_1 2024 2 n)
                    (BudgetMonth.planned_expenses
                       (Storage.plan_body doc_feb)))
       /\ (forall a, In a rest -> Alert.type a <> "due_soon")
       /\ forall p,
            In p (BudgetMonth.planned_expenses (Storage.plan_body doc_feb)) ->
            (List.length (due_soon_of "2024-02" feb_1 2024 2 n p) <= 1)%nat
            /\ (PlannedExpense.due_day p = None
                \/ PlannedExpense.due_day p = Some 0 ->
                due_soon_of "2024-02" feb_1 2024 2 n p = [])
            /\ forall d,
                 PlannedExpense.due_day p = Some d -> d <> 0 ->
                 let due_day := Z.min (Z.max d 1) n in
                 let days_until :=
                   Datetime.sub_days (Datetime.mkdate 2024 2 due_day) feb_1 in
                 1 <= due_day <= n
                 /\ (0 <= days_until <= 5 ->
                     exists a,
                       due_soon_of "2024-02" feb_1 2024 2 n p = [a]
                       /\ In a alerts
                       /\ Alert.type a = "due_soon"
                       /\ (3 <= days_until -> Alert.level a = "info")
                       /\ (days_until < 3 -> Alert.level a = "warning"))
                 /\ (~ 0 <= days_until <= 5 ->
                     due_soon_of "2024-02" feb_1 2024 2 n p = []).
Proof.
  split; [reflexivity | ]. split; [reads_month | ].
  apply (due_soon_rule db_feb feb_1 feb_1 "2024-02" doc_feb 2024 2).
  - reflexivity.
  - reads_month.
Defined.

Lemma precedes_app (l1 l2 : list Alert.t) (ty1 ty2 : string) :
  (forall a, In a l1 -> Alert.type a <> ty2) ->
  (forall b, In b l2 -> Alert.type b <> ty1) ->
  precedes (l1 ++ l2) ty1 ty2.
Proof.
  intros H1 H2 i j a b Hi Hj Ha Hb.
  destruct (Nat.lt_ge_cases i (List.length l1)) as [Hil | Hil].
  - destruct (Nat.lt_ge_cases j (List.length l1)) as [Hjl | Hjl]; [ | lia].
    rewrite nth_error_app1 in Hj by exact Hjl.
    apply nth_error_In in Hj. exfalso. exact (H1 b Hj Hb).
  - rewrite nth_error_app2 in Hi by exact Hil.
    apply nth_error_In in Hi. exfalso. exact (H2 a Hi Ha).
Qed.

(** C9. In the returned alerts, every overspend alert comes before every
    low-budget alert and every due-soon alert, and every low-budget alert
    comes before every due-soon alert; the output holds alerts of these
    three types only. *)
Theorem alert_order (db : Storage.Database)
    (today_budget today : Datetime.date) (month : string)
    (doc : Storage.PlanDoc) (y m : Z) :
  Storage.find_one (Storage.budgetmonth db) month = Some doc ->
  month_reads month y m ->
  exists alerts,
    get_alerts (Some db) today_budget today month = Ok alerts
    /\ precedes alerts "overspend" "low_budget"
    /\ precedes alerts "low_budget" "due_soon"
    /\ precedes alerts "overspend" "due_soon"
    /\ forall a, In a alerts ->
                 Alert.type a = "overspend" \/ Alert.type a = "low_budget"
                 \/ Alert.type a = "due_soon".
Proof.
  intros Hfind Hreads.
  destruct (get_alerts_ok db today_budget today month doc y m Hfind Hreads)
    as (b & _ & Ha).
  eexists. split; [exact Ha | ].
  set (O := List.concat (map _ (Dict.items _))).
  set (L := low_budget_of month _ _).
  set (D := List.concat (map _ (BudgetMonth.planned_expenses _))).
  assert (HO : forall a, In a O -> Alert.type a = "overspend").
  { intros a Hin. apply in_concat_map in Hin. destruct Hin as (it & _ & Hin).
    eapply overspend_of_type; exact Hin. }
  assert (HL : forall a, In a L -> Alert.type a = "low_budget").
  { intros a Hin. eapply low_budget_of_type; exact Hin. }
  assert (HD : forall a, In a D -> Alert.type a = "due_soon").
  { intros a Hin. apply in_concat_map in Hin. destruct Hin as (p & _ & Hin).
    eapply due_soon_of_type; exact Hin. }
  split; [ | split; [ | split]].
  - apply precedes_app.
    + intros a Hin. rewrite (HO a Hin). discriminate.
    + intros a Hin. apply in_app_or in Hin. destruct Hin as [Hin | Hin].
      * rewrite (HL a Hin). discriminate.
      * rewrite (HD a Hin). discriminate.
  - rewrite app_assoc. apply precedes_app.
    + intros a Hin. apply in_app_or in Hin. destruct Hin as [Hin | Hin].
      * rewrite (HO a Hin). discriminate.
      * rewrite (HL a Hin). discriminate.
    + intros a Hin. rewrite (HD a Hin). discriminate.
  - apply precedes_app.
    + intros a Hin. rewrite (HO a Hin). discriminate.
    + intros a Hin. apply in_app_or in Hin. destruct Hin as [Hin | Hin].
      * rewrite (HL a Hin). discriminate.
      * rewrite (HD a Hin). discriminate.
  - intros a Hin. apply in_app_or in Hin. destruct Hin as [Hin | Hin];
      [left; exact (HO a Hin) | ].
    apply in_app_or in Hin. destruct Hin as [Hin | Hin];
      [right; left; exact (HL a Hin) | right; right; exact (HD a Hin)].
Qed.

Lemma alert_order_witness :
  Storage.find_one (Storage.budgetmonth db_feb) "2024-02" = Some doc_feb
  /\ month_reads "2024-02" 2024 2
  /\ exists alerts,
       get_alerts (Some db_feb) feb_1 feb_1 "2024-02" = Ok alerts
       /\ precedes alerts "overspend" "low_budget"
       /\ precedes alerts "low_budget" "due_soon"
       /\ precedes alerts "overspend" "due_soon"
       /\ forall a, In a alerts ->
                    Alert.type a = "overspend" \/ Alert.type a = "low_budget"
                    \/ Alert.type a = "due_soon".
Proof.
  split; [reflexivity | ]. split; [reads_month | ].
  apply (alert_order db_feb feb_1 feb_1 "2024-02" doc_feb 2024 2).
  - reflexivity.
  - reads_month.
Defined.

End AlertProps.

(** ** The scenarios of the specification, evaluated *)

Module Scenarios.
Import Py Main Notions.

Example scenario_a_metrics :
  exists b,
    get_budget (Some db_a) feb_1 "2024-02" = Ok b
    /\ remaining_planned (metrics b) = 0%Q
    /\ remaining_actual (metrics b) = 1000%Q
    /\ days_left (metrics b) = 29.
Proof. eexists. split; [vm_compute; reflexivity | ]. repeat split. Qed.

Example scenario_a_alerts :
  get_alerts (Some db_a) feb_1 feb_1 "2024-02"
  = Ok [Alert.mk "2024-02" "due_soon" "Rent is due in 4 day(s)." "info"].
Proof. vm_compute. reflexivity. Qed.

Example scenario_b_alerts :
  get_alerts (Some db_b) feb_1 feb_1 "2024-02"
  = Ok [Alert.mk "2024-02" "overspend"
          "Spending in rent is over plan (planned 1200.00, actual 1300.00)."
          "warning";
        Alert.mk "2024-02" "low_budget"
          "Remaining monthly budget is below 10% of income." "danger";
        Alert.mk "2024-02" "due_soon" "Rent is due in 4 day(s)." "info"].
Proof. vm_compute. reflexivity. Qed.

Example scenario_b_categories :
  exists b,
    get_budget (Some db_b) feb_1 "2024-02" = Ok b
    /\ actual_by_category (metrics b) = [("rent", 1300%Q)]
    /\ planned_by_category (metrics b) = [("rent", 1200%Q)].
Proof. eexists. split; [vm_compute; reflexivity | ]. repeat split. Qed.

(** The sample store is the one [add_transaction] leaves. *)
Example add_transaction_sample :
  add_transaction (Some db_feb_before) (Storage.Oid "65c0b2")
    (Storage.tx_body tx_food)
  = Ok db_feb.
Proof. vm_compute. reflexivity. Qed.

(** A due day of 31 in February is clamped to the 29th. *)
Example due_day_clamped :
  due_soon_of "2024-02" (Datetime.mkdate 2024 2 27) 2024 2 29
    (PlannedExpense.mk "Card" "debt" 50 (Some 31) true)
  = [Alert.mk "2024-02" "due_soon" "Card is due in 2 day(s)." "warning"].
Proof. vm_compute. reflexivity. Qed.

(** The year 0 passes the schema's pattern but [date] refuses it. *)
Example year_zero_raises :
  BudgetMonth.valid (BudgetMonth.mk "0000-01" 1000 None []) = true
  /\ get_budget
       (Some (Storage.mkDatabase
                [Storage.mkPlanDoc (Storage.Oid "65c0a3")
                   (BudgetMonth.mk "0000-01" 1000 None [])] []))
       feb_1 "0000-01"
     = Raise ValueError.
Proof. split; vm_compute; reflexivity. Qed.

End Scenarios.

(** ** ISO date strings are ordered as the dates *)

Module IsoOrder.
Import Py Notions CalendarFacts IsoFacts.

Ltac digit_cases a :=
  let H := fresh "Hd" in
  assert (H : a = 0 \/ a = 1 \/ a = 2 \/ a = 3 \/ a = 4 \/ a = 5 \/ a = 6
              \/ a = 7 \/ a = 8 \/ a = 9) by lia;
  repeat (destruct H as [H | H]; [subst a | ]); [.. | subst a].

Lemma digit_compare (a b : Z) :
  0 <= a <= 9 -> 0 <= b <= 9 ->
  Ascii.compare (ascii_of_nat (Z.to_nat (48 + a)))
    (ascii_of_nat (Z.to_nat (48 + b)))
  = (a ?= b).
Proof.
  intros Ha Hb. digit_cases a; digit_cases b; reflexivity.
Qed.

Lemma compare_app_same_length (p1 p2 s1 s2 : string) :
  String.length p1 = String.length p2 ->
  String.compare (p1 ++ s1) (p2 ++ s2)
  = match String.compare p1 p2 with
    | Eq => String.compare s1 s2
    | c => c
    end.
Proof.
  revert p2. induction p1 as [ | c1 p1 IH]; intros [ | c2 p2] Hlen;
    cbn in Hlen; try discriminate.
  - reflexivity.
  - cbn. destruct (Ascii.compare c1 c2); auto.
Qed.

Lemma zfill_length (w : nat) (n : Z) :
  String.length (zfill w n "") = w.
Proof.
  revert n. induction w as [ | w IH]; intros n; cbn [zfill].
  - reflexivity.
  - rewrite zfill_app.
    assert (Hlen : forall a b : string,
               String.length (a ++ b) = (String.length a + String.length b)%nat).
    { induction a as [ | x a IHa]; intros b; cbn; auto. }
    rewrite Hlen, IH. cbn. lia.
Qed.

Lemma compare_by_digits (a b : Z) :
  0 <= a -> 0 <= b ->
  match a / 10 ?= b / 10 with
  | Eq => a mod 10 ?= b mod 10
  | c => c
  end = (a ?= b).
Proof.
  intros Ha Hb.
  pose proof (Z.div_mod a 10 ltac:(lia)) as Ea.
  pose proof (Z.div_mod b 10 ltac:(lia)) as Eb.
  pose proof (Z.mod_pos_bound a 10 ltac:(lia)) as Ma.
  pose proof (Z.mod_pos_bound b 10 ltac:(lia)) as Mb.
  destruct (Z.compare_spec (a / 10) (b / 10)) as [E | E | E].
  - destruct (Z.compare_spec (a mod 10) (b mod 10)) as [F | F | F];
      symmetry; [apply Z.compare_eq_iff | apply Z.compare_lt_iff
                | apply Z.compare_gt_iff]; lia.
  - symmetry. apply Z.compare_lt_iff. lia.
  - symmetry. apply Z.compare_gt_iff. lia.
Qed.

(** Fixed-width decimal strings compare as the numbers they render. *)
Lemma compare_zfill (w : nat) (a b : Z) :
  0 <= a < 10 ^ Z.of_nat w -> 0 <= b < 10 ^ Z.of_nat w ->
  String.compare (zfill w a "") (zfill w b "") = (a ?= b).
Proof.
  revert a b. induction w as [ | w IH]; intros a b Ha Hb.
  - cbn in Ha, Hb. assert (a = 0) by lia. assert (b = 0) by lia.
    subst. reflexivity.
  - rewrite Nat2Z.inj_succ, Z.pow_succ_r in Ha, Hb by lia.
    cbn [zfill]. rewrite (zfill_app w (a / 10)), (zfill_app w (b / 10)).
    rewrite compare_app_same_length by (rewrite !zfill_length; reflexivity).
    rewrite IH.
    2:{ split; [apply Z.div_pos; lia | apply Z.div_lt_upper_bound; lia]. }
    2:{ split; [apply Z.div_pos; lia | apply Z.div_lt_upper_bound; lia]. }
    rewrite <- (compare_by_digits a b) by lia.
    destruct (a / 10 ?= b / 10); try reflexivity.
    cbn [String.compare].
    rewrite digit_compare
      by (pose proof (Z.mod_pos_bound a 10); pose proof (Z.mod_pos_bound b 10);
          lia).
    destruct (a mod 10 ?= b mod 10); reflexivity.
Qed.

Lemma compare_isoformat (a b : Datetime.date) :
  0 <= Datetime.year a < 10000 -> 0 <= Datetime.month a < 100 ->
  0 <= Datetime.day a < 100 ->
  0 <= Datetime.year b < 10000 -> 0 <= Datetime.month b < 100 ->
  0 <= Datetime.day b < 100 ->
  String.compare (Datetime.isoformat a) (Datetime.isoformat b)
  = match Datetime.year a ?= Datetime.year b with
    | Eq => match Datetime.month a ?= Datetime.month b with
            | Eq => Datetime.day a ?= Datetime.day b
            | c => c
            end
    | c => c
    end.
Proof.
  intros Hya Hma Hda Hyb Hmb Hdb. unfold Datetime.isoformat.
  rewrite (zfill_app 4 (Datetime.year a)), (zfill_app 4 (Datetime.year b)).
  rewrite compare_app_same_length by (rewrite !zfill_length; reflexivity).
  rewrite (compare_zfill 4) by (cbn; lia).
  destruct (Datetime.year a ?= Datetime.year b); try reflexivity.
  cbn [append String.compare]. rewrite ascii_compare_refl.
  rewrite (zfill_app 2 (Datetime.month a)), (zfill_app 2 (Datetime.month b)).
  rewrite compare_app_same_length by (rewrite !zfill_length; reflexivity).
  rewrite (compare_zfill 2) by (cbn; lia).
  destruct (Datetime.month a ?= Datetime.month b); try reflexivity.
  cbn [append String.compare]. rewrite ascii_compare_refl.
  apply (compare_zfill 2); cbn; lia.
Qed.

Lemma valid_date_ranges (d : Datetime.date) :
  valid_date d ->
  0 <= Datetime.year d < 10000 /\ 0 <= Datetime.month d < 100
  /\ 0 <= Datetime.day d < 100.
Proof.
  intros (Hy & Hm & Hd).
  pose proof (ndays_bounds (Datetime.year d) (Datetime.month d) Hm). lia.
Qed.

Lemma isoformat_leb_dates (a b : Datetime.date) :
  valid_date a -> valid_date b ->
  String.leb (Datetime.isoformat a) (Datetime.isoformat b) = true
  <-> ~ date_lt b a.
Proof.
  intros Va Vb.
  destruct (valid_date_ranges a Va) as (Hya & Hma & Hda).
  destruct (valid_date_ranges b Vb) as (Hyb & Hmb & Hdb).
  unfold String.leb, date_lt.
  rewrite (compare_isoformat a b Hya Hma Hda Hyb Hmb Hdb), date_ltb_spec.
  destruct (Z.compare_spec (Datetime.year a) (Datetime.year b));
    destruct (Z.compare_spec (Datetime.month a) (Datetime.month b));
    destruct (Z.compare_spec (Datetime.day a) (Datetime.day b));
    split; intros; try discriminate; try reflexivity; lia.
Qed.

Lemma string_compare_refl (s : string) : String.compare s s = Eq.
Proof.
  induction s as [ | c s IH]; cbn; [reflexivity | ].
  rewrite ascii_compare_refl. exact IH.
Qed.

(** X2. The ISO strings of two dates are ordered as the dates are, and equal
    only for equal dates: this is what lets the handlers query and sort
    dates as strings. *)
Theorem isoformat_order (a b : Datetime.date) :
  valid_date a -> valid_date b ->
  (String.leb (Datetime.isoformat a) (Datetime.isoformat b) = true
   <-> ~ date_lt b a)
  /\ (Datetime.isoformat a = Datetime.isoformat b <-> a = b).
Proof.
  intros Va Vb. split; [apply isoformat_leb_dates; assumption | ].
  split; [ | intros ->; reflexivity].
  intros Heq.
  destruct (valid_date_ranges a Va) as (Hya & Hma & Hda).
  destruct (valid_date_ranges b Vb) as (Hyb & Hmb & Hdb).
  pose proof (compare_isoformat a b Hya Hma Hda Hyb Hmb Hdb) as Hc.
  rewrite Heq, string_compare_refl in Hc.
  destruct a as [ya ma da], b as [yb mb db]. cbn in Hc.
  destruct (Z.compare_spec ya yb); try discriminate.
  destruct (Z.compare_spec ma mb); try discriminate.
  destruct (Z.compare_spec da db); try discriminate.
  subst. reflexivity.
Qed.

Lemma isoformat_order_witness :
  valid_date (Datetime.mkdate 2024 2 29)
  /\ valid_date (Datetime.mkdate 2024 3 1)
  /\ (String.leb (Datetime.isoformat (Datetime.mkdate 2024 2 29))
        (Datetime.isoformat (Datetime.mkdate 2024 3 1)) = true
      <-> ~ date_lt (Datetime.mkdate 2024 3 1) (Datetime.mkdate 2024 2 29))
  /\ (Datetime.isoformat (Datetime.mkdate 2024 2 29)
      = Datetime.isoformat (Datetime.mkdate 2024 3 1)
      <-> Datetime.mkdate 2024 2 29 = Datetime.mkdate 2024 3 1).
Proof.
  assert (V1 : valid_date (Datetime.mkdate 2024 2 29))
    by (unfold valid_date; vm_compute; intuition discriminate).
  assert (V2 : valid_date (Datetime.mkdate 2024 3 1))
    by (unfold valid_date; vm_compute; intuition discriminate).
  split; [exact V1 | ]. split; [exact V2 | ].
  exact (isoformat_order (Datetime.mkdate 2024 2 29)
           (Datetime.mkdate 2024 3 1) V1 V2).
Defined.

(** The range the handlers query selects the dates of the month. *)
Lemma month_range_selects (y m : Z) (d : Datetime.date) :
  1 <= y <= 9999 -> 1 <= m <= 12 -> valid_date d ->
  String.leb (Datetime.isoformat (first_date y m)) (Datetime.isoformat d)
  && String.leb (Datetime.isoformat d) (Datetime.isoformat (last_date y m))
  = in_month y m d.
Proof.
  intros Hy Hm Vd. pose proof (ndays_bounds y m Hm) as Hn.
  assert (Vf : valid_date (first_date y m))
    by (unfold valid_date, first_date; cbn; lia).
  assert (Vl : valid_date (last_date y m))
    by (unfold valid_date, last_date; cbn; lia).
  pose proof (isoformat_leb_dates (first_date y m) d Vf Vd) as H1.
  pose proof (isoformat_leb_dates d (last_date y m) Vd Vl) as H2.
  unfold date_lt in H1, H2. rewrite date_ltb_spec in H1, H2.
  unfold first_date, last_date in H1, H2. cbn in H1, H2.
  destruct Vd as (Hyd & Hmd & Hdd).
  unfold in_month.
  destruct (Z.eqb_spec (Datetime.year d) y) as [Ey | Ey];
    [destruct (Z.eqb_spec (Datetime.month d) m) as [Em | Em] | ]; cbn [andb].
  - subst. apply andb_true_iff. split; [apply H1 | apply H2]; lia.
  - apply andb_false_iff.
    destruct (Z.lt_ge_cases (Datetime.month d) m).
    + left. apply not_true_iff_false. rewrite H1. lia.
    + right. apply not_true_iff_false. rewrite H2. lia.
  - apply andb_false_iff.
    destruct (Z.lt_ge_cases (Datetime.year d) y).
    + left. apply not_true_iff_false. rewrite H1. lia.
    + right. apply not_true_iff_false. rewrite H2. lia.
Qed.

End IsoOrder.

(** ** The month's query and transactions of other months *)

Module MonthQueryProps.
Import Py Main Notions CalendarFacts BudgetFacts IsoFacts IsoOrder.
Local Open Scope list_scope.

Lemma well_dated_filter (y m : Z) (t : Storage.TxDoc) :
  1 <= y <= 9999 -> 1 <= m <= 12 -> well_dated t ->
  String.leb (Datetime.isoformat (first_date y m)) (Storage.date t)
  && String.leb (Storage.date t) (Datetime.isoformat (last_date y m))
  = tx_in_month y m t.
Proof.
  intros Hy Hm [Hv Hd]. rewrite Hd. unfold tx_in_month.
  apply month_range_selects; assumption.
Qed.

(** X3. When every stored transaction carries the ISO form of its date, the
    query of [get_budget] returns the transactions dated in the month, all
    of them and no other, in stored order. *)
Theorem month_query_exact (db : Storage.Database) (y m : Z) :
  1 <= y <= 9999 -> 1 <= m <= 12 ->
  Forall well_dated (Storage.transaction db) ->
  month_txs db y m = filter (tx_in_month y m) (Storage.transaction db).
Proof.
  intros Hy Hm Hall. unfold month_txs, Storage.find.
  induction Hall as [ | t l Ht Hl IH]; cbn [filter].
  - reflexivity.
  - rewrite (well_dated_filter y m t Hy Hm Ht), IH. reflexivity.
Qed.

Lemma month_query_exact_witness :
  1 <= 2024 <= 9999 /\ 1 <= 2 <= 12
  /\ Forall well_dated (Storage.transaction db_feb)
  /\ month_txs db_feb 2024 2
     = filter (tx_in_month 2024 2) (Storage.transaction db_feb).
Proof.
  assert (Hall : Forall well_dated (Storage.transaction db_feb)).
  { repeat constructor; vm_compute; intuition discriminate. }
  split; [lia | ]. split; [lia | ]. split; [exact Hall | ].
  apply (month_query_exact db_feb 2024 2); [lia | lia | exact Hall].
Defined.

Lemma get_budget_same_query (db db' : Storage.Database)
    (today : Datetime.date) (month : string) (y m : Z) :
  Storage.budgetmonth db' = Storage.budgetmonth db ->
  month_reads month y m ->
  month_txs db' y m = month_txs db y m ->
  get_budget (Some db') today month = get_budget (Some db) today month.
Proof.
  intros Hsame Hreads Htx. unfold get_budget. rewrite Hsame.
  destruct (Storage.find_one (Storage.budgetmonth db) month) as [doc | ];
    [ | reflexivity].
  rewrite (start_end_ok month y m Hreads). cbn [bind Datetime.dt_date].
  change (Storage.find (Storage.transaction db')
            (Datetime.isoformat (first_date y m))
            (Datetime.isoformat (last_date y m))) with (month_txs db' y m).
  change (Storage.find (Storage.transaction db)
            (Datetime.isoformat (first_date y m))
            (Datetime.isoformat (last_date y m))) with (month_txs db y m).
  rewrite Htx. reflexivity.
Qed.

(** X4. A transaction dated in another month changes nothing in what
    [get_budget] returns for this month. *)
Theorem other_month_ignored (db db' : Storage.Database) (t : Storage.TxDoc)
    (today : Datetime.date) (month : string) (y m : Z) :
  month_reads month y m ->
  adds_transaction db t db' ->
  well_dated t ->
  tx_in_month y m t = false ->
  get_budget (Some db') today month = get_budget (Some db) today month.
Proof.
  intros Hreads (Hsame & l1 & l2 & Hdb & Hdb') Hwd Hout.
  apply (get_budget_same_query db db' today month y m Hsame Hreads).
  destruct Hreads as (_ & Hy & Hm).
  unfold month_txs, Storage.find. rewrite Hdb, Hdb', !filter_app.
  cbn [filter]. rewrite (well_dated_filter y m t Hy Hm Hwd), Hout.
  reflexivity.
Qed.

Lemma other_month_ignored_witness :
  month_reads "2024-02" 2024 2
  /\ adds_transaction (Storage.mkDatabase [doc_feb] [tx_rent; tx_food])
       tx_march db_feb
  /\ well_dated tx_march
  /\ tx_in_month 2024 2 tx_march = false
  /\ get_budget (Some db_feb) feb_1 "2024-02"
     = get_budget (Some (Storage.mkDatabase [doc_feb] [tx_rent; tx_food]))
         feb_1 "2024-02".
Proof.
  assert (H1 : month_reads "2024-02" 2024 2) by reads_month.
  assert (H2 : adds_transaction
                 (Storage.mkDatabase [doc_feb] [tx_rent; tx_food])
                 tx_march db_feb).
  { split; [reflexivity | ]. exists [tx_rent], [tx_food].
    split; reflexivity. }
  assert (H3 : well_dated tx_march)
    by (vm_compute; intuition discriminate).
  assert (H4 : tx_in_month 2024 2 tx_march = false) by reflexivity.
  repeat (split; [assumption | ]).
  exact (other_month_ignored _ db_feb tx_march feb_1 "2024-02" 2024 2
           H1 H2 H3 H4).
Defined.

End MonthQueryProps.

(** ** Upserting plans *)

Module UpsertProps.
Import Py Main Notions CalendarFacts BudgetFacts StoreProps.
Local Open Scope list_scope.

Lemma update_first_months (coll coll' : list Storage.PlanDoc)
    (fields : BudgetMonth.t) :
  Storage.update_first coll (BudgetMonth.month fields) fields = Some coll' ->
  months_of coll' = months_of coll.
Proof.
  revert coll'. induction coll as [ | d coll IH]; intros coll';
    cbn [Storage.update_first].
  - discriminate.
  - destruct (Storage.month_is (BudgetMonth.month fields) d) eqn:E.
    + intros H. inversion H; subst coll'. unfold months_of.
      cbn [map Storage.set_fields Storage.plan_body].
      unfold Storage.month_is in E. apply String.eqb_eq in E.
      rewrite E. reflexivity.
    + destruct (Storage.update_first coll (BudgetMonth.month fields) fields)
        as [c | ]; cbn [option_map]; [ | discriminate].
      intros H. inversion H; subst coll'. unfold months_of in *.
      cbn [map]. rewrite (IH c eq_refl). reflexivity.
Qed.

Lemma update_first_other (coll coll' : list Storage.PlanDoc)
    (fields : BudgetMonth.t) (month' : string) :
  month' <> BudgetMonth.month fields ->
  Storage.update_first coll (BudgetMonth.month fields) fields = Some coll' ->
  Storage.find_one coll' month' = Storage.find_one coll month'.
Proof.
  intros Hne. unfold Storage.find_one. revert coll'.
  induction coll as [ | d coll IH]; intros coll'; cbn [Storage.update_first].
  - discriminate.
  - destruct (Storage.month_is (BudgetMonth.month fields) d) eqn:E.
    + intros H. inversion H; subst coll'. cbn [find].
      unfold Storage.month_is in *. cbn [Storage.set_fields Storage.plan_body].
      apply String.eqb_eq in E. rewrite E.
      replace (String.eqb (BudgetMonth.month fields) month') with false
        by (symmetry; apply String.eqb_neq; congruence).
      reflexivity.
    + destruct (Storage.update_first coll (BudgetMonth.month fields) fields)
        as [c | ]; cbn [option_map]; [ | discriminate].
      intros H. inversion H; subst coll'. cbn [find].
      rewrite (IH c eq_refl). reflexivity.
Qed.

Lemma find_one_app_other (coll : list Storage.PlanDoc) (d : Storage.PlanDoc)
    (month' : string) :
  Storage.month_is month' d = false ->
  Storage.find_one (coll ++ [d]) month' = Storage.find_one coll month'.
Proof.
  intros Hd. unfold Storage.find_one.
  induction coll as [ | x coll IH]; cbn [find app].
  - rewrite Hd. reflexivity.
  - destruct (Storage.month_is month' x); auto.
Qed.

Lemma find_one_none_months (coll : list Storage.PlanDoc) (month : string) :
  Storage.find_one coll month = None -> ~ In month (months_of coll).
Proof.
  unfold Storage.find_one, months_of.
  induction coll as [ | d coll IH]; cbn.
  - tauto.
  - destruct (Storage.month_is month d) eqn:E; [discriminate | ].
    unfold Storage.month_is in E. apply String.eqb_neq in E.
    intros H [Heq | Hin]; [congruence | exact (IH H Hin)].
Qed.

(** X6. An upsert leaves the plans of every other month as they were, and the
    transactions too. *)
Theorem upsert_keeps_other_months (db db' : Storage.Database)
    (fresh : Storage.ObjectId) (month month' : string)
    (payload : BudgetMonth.t) (reply : option PlanJson) :
  upsert_budget (Some db) fresh month payload = Ok (reply, db') ->
  month' <> month ->
  Storage.find_one (Storage.budgetmonth db') month'
  = Storage.find_one (Storage.budgetmonth db) month'
  /\ Storage.transaction db' = Storage.transaction db.
Proof.
  unfold upsert_budget.
  destruct (String.eqb (BudgetMonth.month payload) month) eqn:E;
    cbn [negb]; [ | discriminate].
  apply String.eqb_eq in E. subst month.
  intros H Hne. inversion H; subst db'. clear H.
  cbn [Storage.budgetmonth Storage.transaction]. split; [ | reflexivity].
  unfold Storage.update_one. rewrite model_dump_id.
  destruct (Storage.update_first (Storage.budgetmonth db)
              (BudgetMonth.month payload) payload) as [coll' | ] eqn:Hu.
  - exact (update_first_other _ _ payload month' Hne Hu).
  - apply find_one_app_other. unfold Storage.month_is.
    cbn [Storage.plan_body]. apply String.eqb_neq. congruence.
Qed.

Lemma upsert_keeps_other_months_witness :
  upsert_budget (Some db_feb) (Storage.Oid "65c0ff") "2024-03"
    (BudgetMonth.mk "2024-03" 1800 None [food])
  = Ok (Some (mkPlanJson "65c0ff" (BudgetMonth.mk "2024-03" 1800 None [food])),
        Storage.mkDatabase
          [doc_feb;
           Storage.mkPlanDoc (Storage.Oid "65c0ff")
             (BudgetMonth.mk "2024-03" 1800 None [food])]
          (Storage.transaction db_feb))
  /\ "2024-02" <> "2024-03"
  /\ Storage.find_one
       [doc_feb;
        Storage.mkPlanDoc (Storage.Oid "65c0ff")
          (BudgetMonth.mk "2024-03" 1800 None [food])] "2024-02"
     = Storage.find_one (Storage.budgetmonth db_feb) "2024-02"
  /\ Storage.transaction db_feb = Storage.transaction db_feb.
Proof.
  assert (H1 : upsert_budget (Some db_feb) (Storage.Oid "65c0ff") "2024-03"
                 (BudgetMonth.mk "2024-03" 1800 None [food])
               = Ok (Some (mkPlanJson "65c0ff"
                             (BudgetMonth.mk "2024-03" 1800 None [food])),
                     Storage.mkDatabase
                       [doc_feb;
                        Storage.mkPlanDoc (Storage.Oid "65c0ff")
                          (BudgetMonth.mk "2024-03" 1800 None [food])]
                       (Storage.transaction db_feb))) by reflexivity.
  assert (H2 : "2024-02" <> "2024-03") by discriminate.
  split; [exact H1 | ]. split; [exact H2 | ].
  exact (upsert_keeps_other_months db_feb _ _ "2024-03" "2024-02" _ _ H1 H2).
Defined.

(** X7. An upsert keeps the store at one plan per month at most. *)
Theorem upsert_keeps_months_unique (db db' : Storage.Database)
    (fresh : Storage.ObjectId) (month : string) (payload : BudgetMonth.t)
    (reply : option PlanJson) :
  unique_months (Storage.budgetmonth db) ->
  upsert_budget (Some db) fresh month payload = Ok (reply, db') ->
  unique_months (Storage.budgetmonth db').
Proof.
  unfold unique_months, upsert_budget. intros Hu.
  destruct (String.eqb (BudgetMonth.month payload) month) eqn:E;
    cbn [negb]; [ | discriminate].
  apply String.eqb_eq in E. subst month.
  intros H. inversion H; subst db'. clear H. cbn [Storage.budgetmonth].
  unfold Storage.update_one. rewrite model_dump_id.
  destruct (Storage.update_first (Storage.budgetmonth db)
              (BudgetMonth.month payload) payload) as [coll' | ] eqn:Hf.
  - rewrite (update_first_months _ _ payload Hf). exact Hu.
  - unfold months_of in *. rewrite map_app. cbn [map Storage.plan_body].
    apply NoDup_app; [exact Hu | repeat constructor; cbn; tauto | ].
    intros x Hx [Heq | []]. subst x.
    destruct (Storage.find_one (Storage.budgetmonth db)
                (BudgetMonth.month payload)) as [old | ] eqn:Hold.
    + destruct (update_first_found _ payload old Hold) as (c & Hc & _).
      congruence.
    + exact (find_one_none_months _ _ Hold Hx).
Qed.

Lemma upsert_keeps_months_unique_witness :
  unique_months (Storage.budgetmonth db_feb)
  /\ upsert_budget (Some db_feb) (Storage.Oid "65c0ff") "2024-02" plan_revised
     = Ok (Some (mkPlanJson "65c0a1" plan_revised),
           Storage.mkDatabase
             [Storage.mkPlanDoc (Storage.Oid "65c0a1") plan_revised]
             (Storage.transaction db_feb))
  /\ unique_months
       [Storage.mkPlanDoc (Storage.Oid "65c0a1") plan_revised].
Proof.
  assert (H1 : unique_months (Storage.budgetmonth db_feb))
    by (repeat constructor; cbn; tauto).
  assert (H2 : upsert_budget (Some db_feb) (Storage.Oid "65c0ff") "2024-02"
                 plan_revised
               = Ok (Some (mkPlanJson "65c0a1" plan_revised),
                     Storage.mkDatabase
                       [Storage.mkPlanDoc (Storage.Oid "65c0a1") plan_revised]
                       (Storage.transaction db_feb))) by reflexivity.
  split; [exact H1 | ]. split; [exact H2 | ].
  exact (upsert_keeps_months_unique db_feb _ _ "2024-02" plan_revised _ H1 H2).
Defined.

Lemma update_first_again (coll coll' : list Storage.PlanDoc)
    (fields : BudgetMonth.t) :
  Storage.update_first coll (BudgetMonth.month fields) fields = Some coll' ->
  Storage.update_first coll' (BudgetMonth.month fields) fields = Some coll'.
Proof.
  revert coll'. induction coll as [ | d coll IH]; intros coll';
    cbn [Storage.update_first].
  - discriminate.
  - destruct (Storage.month_is (BudgetMonth.month fields) d) eqn:E.
    + intros H. inversion H; subst coll'. cbn [Storage.update_first].
      unfold Storage.month_is at 1.
      cbn [Storage.set_fields Storage.plan_body Storage.plan_id].
      rewrite String.eqb_refl. reflexivity.
    + destruct (Storage.update_first coll (BudgetMonth.month fields) fields)
        as [c | ]; cbn [option_map]; [ | discriminate].
      intros H. inversion H; subst coll'. cbn [Storage.update_first].
      rewrite E, (IH c eq_refl). reflexivity.
Qed.

Lemma update_first_app_new (coll : list Storage.PlanDoc)
    (fields : BudgetMonth.t) (fresh : Storage.ObjectId) :
  Storage.update_first coll (BudgetMonth.month fields) fields = None ->
  Storage.update_first (coll ++ [Storage.mkPlanDoc fresh fields])
    (BudgetMonth.month fields) fields
  = Some (coll ++ [Storage.mkPlanDoc fresh fields]).
Proof.
  induction coll as [ | d coll IH]; cbn [Storage.update_first app].
  - intros _. unfold Storage.month_is. cbn [Storage.plan_body].
    rewrite String.eqb_refl. reflexivity.
  - destruct (Storage.month_is (BudgetMonth.month fields) d);
      [discriminate | ].
    destruct (Storage.update_first coll (BudgetMonth.month fields) fields);
      [discriminate | ].
    intros _. rewrite (IH eq_refl). reflexivity.
Qed.

(** X8. Upserting the same plan a second time changes nothing: the store and
    the reply are those of the first call, whatever identifier the store
    would have given to a new document. *)
Theorem upsert_twice (db db' : Storage.Database)
    (fresh fresh' : Storage.ObjectId) (month : string)
    (payload : BudgetMonth.t) (reply : option PlanJson) :
  upsert_budget (Some db) fresh month payload = Ok (reply, db') ->
  upsert_budget (Some db') fresh' month payload = Ok (reply, db').
Proof.
  unfold upsert_budget.
  destruct (String.eqb (BudgetMonth.month payload) month) eqn:E;
    cbn [negb]; [ | discriminate].
  apply String.eqb_eq in E. subst month.
  intros H. inversion H as [[Hr Hdb]]. clear H.
  cbn [Storage.budgetmonth Storage.transaction].
  assert (Hagain :
            Storage.update_one
              (Storage.update_one (Storage.budgetmonth db)
                 (BudgetMonth.month payload) (Storage.model_dump payload) fresh)
              (BudgetMonth.month payload) (Storage.model_dump payload) fresh'
            = Storage.update_one (Storage.budgetmonth db)
                (BudgetMonth.month payload) (Storage.model_dump payload) fresh).
  { unfold Storage.update_one. rewrite model_dump_id.
    destruct (Storage.update_first (Storage.budgetmonth db)
                (BudgetMonth.month payload) payload) as [coll' | ] eqn:Hf.
    - rewrite (update_first_again _ _ payload Hf). reflexivity.
    - rewrite (update_first_app_new _ payload fresh Hf). reflexivity. }
  rewrite Hagain. reflexivity.
Qed.

Lemma upsert_twice_witness :
  upsert_budget (Some db_a) (Storage.Oid "65c0ff") "2024-03"
    (BudgetMonth.mk "2024-03" 1800 None [food])
  = Ok (Some (mkPlanJson "65c0ff" (BudgetMonth.mk "2024-03" 1800 None [food])),
        Storage.mkDatabase
          (Storage.budgetmonth db_a
           ++ [Storage.mkPlanDoc (Storage.Oid "65c0ff")
                 (BudgetMonth.mk "2024-03" 1800 None [food])])
          [])
  /\ upsert_budget
       (Some (Storage.mkDatabase
                (Storage.budgetmonth db_a
                 ++ [Storage.mkPlanDoc (Storage.Oid "65c0ff")
                       (BudgetMonth.mk "2024-03" 1800 None [food])])
                []))
       (Storage.Oid "65c100") "2024-03"
       (BudgetMonth.mk "2024-03" 1800 None [food])
     = Ok (Some (mkPlanJson "65c0ff"
                   (BudgetMonth.mk "2024-03" 1800 None [food])),
           Storage.mkDatabase
             (Storage.budgetmonth db_a
              ++ [Storage.mkPlanDoc (Storage.Oid "65c0ff")
                    (BudgetMonth.mk "2024-03" 1800 None [food])])
             []).
Proof.
  assert (H1 : upsert_budget (Some db_a) (Storage.Oid "65c0ff") "2024-03"
                 (BudgetMonth.mk "2024-03" 1800 None [food])
               = Ok (Some (mkPlanJson "65c0ff"
                             (BudgetMonth.mk "2024-03" 1800 None [food])),
                     Storage.mkDatabase
                       (Storage.budgetmonth db_a
                        ++ [Storage.mkPlanDoc (Storage.Oid "65c0ff")
                              (BudgetMonth.mk "2024-03" 1800 None [food])])
                       [])) by reflexivity.
  split; [exact H1 | ].
  exact (upsert_twice db_a _ (Storage.Oid "65c0ff") (Storage.Oid "65c100")
           "2024-03" _ _ H1).
Defined.




End UpsertProps.

(** ** Day numbers follow the calendar *)

Module OrdinalProps.
Import Py Main Notions CalendarFacts BudgetFacts.
Local Open Scope list_scope.

Lemma days_before_year_step (y : Z) :
  Datetime._days_before_year (y + 1)
  = Datetime._days_before_year y
    + (if Datetime._is_leap y then 366 else 365).
Proof.
  unfold Datetime._days_before_year, Datetime._is_leap.
  replace (y + 1 - 1) with y by lia. cbv zeta.
  destruct (Z.eqb_spec (y mod 4) 0) as [E4 | E4];
    destruct (Z.eqb_spec (y mod 100) 0) as [E100 | E100];
    destruct (Z.eqb_spec (y mod 400) 0) as [E400 | E400];
    cbn [andb orb negb]; Z.div_mod_to_equations; lia.
Qed.

Lemma days_before_year_ahead (y : Z) (k : nat) :
  Datetime._days_before_year y + 365 * Z.of_nat k
  <= Datetime._days_before_year (y + Z.of_nat k).
Proof.
  induction k as [ | k IH].
  - replace (y + Z.of_nat 0) with y by lia. lia.
  - rewrite Nat2Z.inj_succ.
    replace (y + Z.succ (Z.of_nat k)) with (y + Z.of_nat k + 1) by lia.
    rewrite days_before_year_step.
    destruct (Datetime._is_leap (y + Z.of_nat k)); lia.
Qed.

Lemma days_before_year_mono (y1 y2 : Z) :
  y1 <= y2 ->
  Datetime._days_before_year y1 + 365 * (y2 - y1)
  <= Datetime._days_before_year y2.
Proof.
  intros Hle. pose proof (days_before_year_ahead y1 (Z.to_nat (y2 - y1))) as H.
  rewrite Z2Nat.id in H by lia.
  replace (y1 + (y2 - y1)) with y2 in H by lia. exact H.
Qed.

Lemma day_of_year_bounds (y m d : Z) :
  1 <= m <= 12 -> 1 <= d <= ndays y m ->
  1 <= Datetime._days_before_month y m + d
  <= (if Datetime._is_leap y then 366 else 365).
Proof.
  intros Hm. unfold ndays, Datetime._days_in_month,
    Datetime._days_before_month.
  month_cases m; destruct (Datetime._is_leap y);
    cbv [nth Z.to_nat Pos.to_nat Pos.iter_op Init.Nat.add Z.eqb Z.ltb
         Z.compare Pos.compare Pos.compare_cont Pos.eqb andb
         Datetime._DAYS_IN_MONTH Datetime._DAYS_BEFORE_MONTH]; lia.
Qed.

Lemma month_start_after (y m1 m2 : Z) :
  1 <= m1 -> m1 < m2 -> m2 <= 12 ->
  Datetime._days_before_month y m1 + ndays y m1
  <= Datetime._days_before_month y m2.
Proof.
  intros H1 H12 H2. unfold ndays, Datetime._days_in_month,
    Datetime._days_before_month.
  assert (Hm1 : 1 <= m1 <= 12) by lia. assert (Hm2 : 1 <= m2 <= 12) by lia.
  clear H1 H2. revert H12.
  month_cases m1; month_cases m2; intros H12; try lia;
    destruct (Datetime._is_leap y);
    cbv [nth Z.to_nat Pos.to_nat Pos.iter_op Init.Nat.add Z.eqb Z.ltb
         Z.compare Pos.compare Pos.compare_cont Pos.eqb andb
         Datetime._DAYS_IN_MONTH Datetime._DAYS_BEFORE_MONTH]; lia.
Qed.

Lemma toordinal_lt (a b : Datetime.date) :
  valid_date a -> valid_date b ->
  date_lt a b -> Datetime.toordinal a < Datetime.toordinal b.
Proof.
  intros (Hya & Hma & Hda) (Hyb & Hmb & Hdb) Hlt.
  unfold date_lt in Hlt. rewrite date_ltb_spec in Hlt.
  unfold Datetime.toordinal, Datetime._ymd2ord.
  destruct a as [ya ma da], b as [yb mb db]. cbn in *.
  pose proof (day_of_year_bounds ya ma da Hma Hda) as Ba.
  pose proof (day_of_year_bounds yb mb db Hmb Hdb) as Bb.
  destruct Hlt as [Hy | [Hy [Hm | [Hm Hd]]]].
  - pose proof (days_before_year_step ya) as Hs.
    pose proof (days_before_year_mono (ya + 1) yb ltac:(lia)) as Hmono.
    destruct (Datetime._is_leap ya); lia.
  - subst yb. pose proof (month_start_after ya ma mb) as Hms. lia.
  - subst yb mb. lia.
Qed.

(** X10. For dates the constructor accepts, [a < b] holds exactly when
    [(b - a).days] is positive, and the difference is 0 only for equal
    dates: the comparison used for [days_left] and the subtraction used
    for [days_until] agree. *)
Theorem date_order_is_day_difference (a b : Datetime.date) :
  valid_date a -> valid_date b ->
  (date_lt a b <-> 0 < Datetime.sub_days b a)
  /\ (Datetime.sub_days b a = 0 <-> a = b).
Proof.
  intros Va Vb. unfold Datetime.sub_days.
  assert (Htri : date_lt a b \/ a = b \/ date_lt b a).
  { unfold date_lt. rewrite !date_ltb_spec.
    destruct a as [ya ma da], b as [yb mb db]. cbn.
    destruct (Z.lt_trichotomy ya yb) as [H | [H | H]]; [lia | | lia].
    destruct (Z.lt_trichotomy ma mb) as [H' | [H' | H']]; [lia | | lia].
    destruct (Z.lt_trichotomy da db) as [H'' | [H'' | H'']]; [lia | | lia].
    right. left. subst. reflexivity. }
  split; split.
  - intros Hlt. pose proof (toordinal_lt a b Va Vb Hlt). lia.
  - intros Hpos. destruct Htri as [H | [H | H]]; [exact H | | ].
    + subst b. lia.
    + pose proof (toordinal_lt b a Vb Va H). lia.
  - intros Hz. destruct Htri as [H | [H | H]]; [ | exact H | ].
    + pose proof (toordinal_lt a b Va Vb H). lia.
    + pose proof (toordinal_lt b a Vb Va H). lia.
  - intros ->. lia.
Qed.

Lemma date_order_is_day_difference_witness :
  valid_date (Datetime.mkdate 2023 12 31)
  /\ valid_date (Datetime.mkdate 2024 3 1)
  /\ (date_lt (Datetime.mkdate 2023 12 31) (Datetime.mkdate 2024 3 1)
      <-> 0 < Datetime.sub_days (Datetime.mkdate 2024 3 1)
                (Datetime.mkdate 2023 12 31))
  /\ (Datetime.sub_days (Datetime.mkdate 2024 3 1)
        (Datetime.mkdate 2023 12 31) = 0
      <-> Datetime.mkdate 2023 12 31 = Datetime.mkdate 2024 3 1).
Proof.
  assert (V1 : valid_date (Datetime.mkdate 2023 12 31))
    by (unfold valid_date; vm_compute; intuition discriminate).
  assert (V2 : valid_date (Datetime.mkdate 2024 3 1))
    by (unfold valid_date; vm_compute; intuition discriminate).
  split; [exact V1 | ]. split; [exact V2 | ].
  exact (date_order_is_day_difference _ _ V1 V2).
Defined.

(** X11. [days_left] lies between 0 and the length of the month whatever the
    reference date; it is 0 only once the month is over; and when the
    reference date is neither before nor after the month it is a day of
    that month and [days_left] counts the days from it to the last,
    both included. *)
Theorem days_left_range (db : Storage.Database) (today : Datetime.date)
    (month : string) (doc : Storage.PlanDoc) (y m : Z) :
  Storage.find_one (Storage.budgetmonth db) month = Some doc ->
  month_reads month y m ->
  exists b w n,
    get_budget (Some db) today month = Ok b
    /\ Calendar.monthrange y m = Ok (w, n)
    /\ 0 <= days_left (metrics b) <= n
    /\ (days_left (metrics b) = 0 <-> date_lt (Datetime.mkdate y m n) today)
    /\ (~ date_lt today (Datetime.mkdate y m 1) ->
        ~ date_lt (Datetime.mkdate y m n) today ->
        Datetime.year today = y /\ Datetime.month today = m
        /\ 1 <= Datetime.day today <= n
        /\ days_left (metrics b) = n - Datetime.day today + 1).
Proof.
  intros Hfind Hreads.
  destruct (get_budget_ok db today month doc y m Hfind Hreads)
    as (b & Hb & _ & _ & _ & _ & _ & _ & Hdl & _).
  destruct Hreads as (_ & _ & Hm).
  pose proof (ndays_bounds y m Hm) as Hn.
  exists b, (Calendar.weekday y m 1), (ndays y m).
  split; [exact Hb | ]. split; [apply monthrange_ok; exact Hm | ].
  rewrite Hdl. unfold days_left_of, date_lt, first_date, last_date.
  rewrite sub_days_same_month.
  destruct (Datetime.date_ltb today (Datetime.mkdate y m 1)) eqn:Hbefore;
    destruct (Datetime.date_ltb (Datetime.mkdate y m (ndays y m)) today)
      eqn:Hafter.
  - exfalso. rewrite date_ltb_spec in Hbefore, Hafter. cbn in *. lia.
  - split; [lia | ]. split; [split; [lia | discriminate] | ].
    intros H. exfalso. apply H. reflexivity.
  - split; [lia | ]. split; [split; reflexivity | ].
    intros _ H. exfalso. apply H. reflexivity.
  - assert (Hin : Datetime.year today = y /\ Datetime.month today = m
                  /\ 1 <= Datetime.day today <= ndays y m).
    { apply date_ltb_false in Hbefore. apply date_ltb_false in Hafter.
      unfold date_lt in Hbefore, Hafter.
      rewrite date_ltb_spec in Hbefore, Hafter. cbn in *. lia. }
    destruct Hin as (Ey & Em & Hd).
    assert (Hsub : Datetime.sub_days (Datetime.mkdate y m (ndays y m)) today
                   = ndays y m - Datetime.day today).
    { destruct today as [ty tm td]. cbn in Ey, Em. subst ty tm.
      apply sub_days_same_month. }
    rewrite Hsub. split; [lia | ]. split; [split; [lia | discriminate] | ].
    intros _ _. repeat split; lia.
Qed.

Lemma days_left_range_witness :
  Storage.find_one (Storage.budgetmonth db_feb) "2024-02" = Some doc_feb
  /\ month_reads "2024-02" 2024 2
  /\ exists b w n,
       get_budget (Some db_feb) feb_1 "2024-02" = Ok b
       /\ Calendar.monthrange 2024 2 = Ok (w, n)
       /\ 0 <= days_left (metrics b) <= n
       /\ (days_left (metrics b) = 0
           <-> date_lt (Datetime.mkdate 2024 2 n) feb_1)
       /\ (~ date_lt feb_1 (Datetime.mkdate 2024 2 1) ->
           ~ date_lt (Datetime.mkdate 2024 2 n) feb_1 ->
           Datetime.year feb_1 = 2024 /\ Datetime.month feb_1 = 2
           /\ 1 <= Datetime.day feb_1 <= n
           /\ days_left (metrics b) = n - Datetime.day feb_1 + 1).
Proof.
  split; [reflexivity | ]. split; [reads_month | ].
  apply (days_left_range db_feb feb_1 "2024-02" doc_feb 2024 2).
  - reflexivity.
  - reads_month.
Defined.

End OrdinalProps.

(** ** Alerts: failures, clocks and shape of the output *)

Module AlertExtras.
Import Py Main Notions CalendarFacts BudgetFacts SumFacts AlertFacts.
Import AlertProps OrdinalProps.
Local Open Scope list_scope.

Lemma get_alerts_after_budget (db : Storage.Database)
    (today_budget today : Datetime.date) (month : string) (b : Budget) :
  get_budget (Some db) today_budget month = Ok b ->
  exists doc y m,
    Storage.find_one (Storage.budgetmonth db) month = Some doc
    /\ month_reads month y m
    /\ get_alerts (Some db) today_budget today month
       = Ok (List.concat
               (map (overspend_of month (actual_by_category (metrics b)))
                  (Dict.items (planned_by_category (metrics b))))
             ++ low_budget_of month (remaining_actual (metrics b))
                  (income (metrics b))
             ++ List.concat
                  (map (due_soon_of month today y m (ndays y m))
                     (BudgetMonth.planned_expenses (Storage.plan_body doc)))).
Proof.
  intros Hb.
  destruct (get_budget_inv _ _ _ _ Hb) as (db' & doc & y & m & Hdb & Hf & Hr).
  inversion Hdb; subst db'.
  destruct (get_alerts_ok db today_budget today month doc y m Hf Hr)
    as (b' & Hb' & Ha).
  assert (b' = b) by congruence. subst b'.
  exists doc, y, m. auto.
Qed.

(** X12. [get_alerts] fails only where [get_budget] fails, with the same
    exception, and never with the 404 of a missing plan; nothing in the
    alert rules themselves raises. *)
Theorem get_alerts_failures (db : option Storage.Database)
    (today_budget today : Datetime.date) (month : string) (e : exn) :
  get_alerts db today_budget today month = Raise e
  <-> get_budget db today_budget month = Raise e
      /\ forall detail, e <> HTTPException 404 detail.
Proof.
  destruct db as [db | ].
  - destruct (get_budget (Some db) today_budget month) as [b | e'] eqn:Hb.
    + destruct (get_alerts_after_budget db today_budget today month b Hb)
        as (doc & y & m & _ & _ & Ha).
      rewrite Ha. split; [discriminate | intros [H _]; discriminate].
    + unfold get_alerts. rewrite Hb.
      destruct e' as [sc d | ].
      * destruct (Z.eqb_spec sc 404) as [E | E].
        -- subst sc. split; [discriminate | ].
           intros [H Hn]. inversion H; subst e. exfalso. exact (Hn d eq_refl).
        -- split.
           ++ intros H. inversion H; subst e. split; [reflexivity | ].
              intros d' Heq. inversion Heq. contradiction.
           ++ intros [H _]. inversion H; subst e. reflexivity.
      * split.
        -- intros H. inversion H; subst e. split; [reflexivity | discriminate].
        -- intros [H _]. inversion H; subst e. reflexivity.
  - cbn. split.
    + intros H. inversion H; subst e. split; [reflexivity | ].
      intros d Heq. inversion Heq.
    + intros [H _]. inversion H; subst e. reflexivity.
Qed.

(** X13. The date read inside [get_budget] has no effect on the alerts. *)
Theorem get_alerts_ignores_budget_clock (db : option Storage.Database)
    (today1 today2 today : Datetime.date) (month : string) :
  get_alerts db today1 today month = get_alerts db today2 today month.
Proof.
  destruct db as [db | ]; [ | reflexivity].
  unfold get_alerts, get_budget.
  destruct (Storage.find_one (Storage.budgetmonth db) month) as [doc | ];
    [ | reflexivity].
  destruct (start_end_for_month month) as [[s e] | ex]; [ | reflexivity].
  cbn [bind].
  destruct (year_month month) as [[y m] | ex]; [ | reflexivity].
  cbn [bind].
  destruct (Calendar.monthrange y m) as [[w n] | ex]; [ | reflexivity].
  cbn [bind].
  destruct (Datetime.new_date y m n) as [ld | ex]; [ | reflexivity].
  cbn [bind].
  destruct (Datetime.new_date y m 1) as [fd | ex]; [ | reflexivity].
  cbn [bind]. reflexivity.
Qed.

Lemma overspend_of_shape (month : string) (ab : Dict.t) (item : string * Q)
    (a : Alert.t) :
  In a (overspend_of month ab item) ->
  Alert.month a = month
  /\ (Alert.level a = "warning" \/ Alert.level a = "danger").
Proof.
  unfold overspend_of, overspend_step. destruct item as [cat planned].
  destruct (QMicromega.Qlt_bool planned (Dict.get ab cat 0)
            && QMicromega.Qlt_bool 0 planned); cbn [app In]; [ | tauto].
  intros [<- | []]. cbn [Alert.month Alert.level]. split; [reflexivity | ].
  destruct (Qle_bool (Dict.get ab cat 0) (planned * (125 # 100))); auto.
Qed.

Lemma low_budget_of_shape (month : string) (remaining income : Q)
    (a : Alert.t) :
  In a (low_budget_of month remaining income) ->
  Alert.month a = month
  /\ (Alert.level a = "warning" \/ Alert.level a = "danger").
Proof.
  unfold low_budget_of, low_budget_step.
  destruct (QMicromega.Qlt_bool 0 income);
    [destruct (Qle_bool (remaining / income) (1 # 10)) | ];
    cbn [app In]; try tauto.
  intros [<- | []]. cbn [Alert.month Alert.level]. split; [reflexivity | ].
  destruct (QMicromega.Qlt_bool 0 remaining); auto.
Qed.

Lemma due_soon_of_shape (month : string) (today : Datetime.date)
    (y m n : Z) (p : PlannedExpense.t) (a : Alert.t) :
  In a (due_soon_of month today y m n p) ->
  Alert.month a = month
  /\ (Alert.level a = "info" \/ Alert.level a = "warning").
Proof.
  unfold due_soon_of, due_soon_step.
  destruct (PlannedExpense.due_day p) as [d | ]; [ | cbn; tauto].
  destruct (d =? 0); [cbn; tauto | ].
  destruct (Datetime.new_date y m (Z.min (Z.max d 1) n)) as [dd | ];
    cbn [bind]; [ | cbn; tauto].
  match goal with |- context [if ?c then _ else _] => destruct c end;
    cbn [app In]; [ | tauto].
  intros [<- | []]. cbn [Alert.month Alert.level]. split; [reflexivity | ].
  match goal with |- context [if ?c then _ else _] => destruct c end; auto.
Qed.

Lemma concat_length_le {A B : Type} (f : A -> list B) (xs : list A) :
  (forall x, List.length (f x) <= 1)%nat ->
  (List.length (List.concat (map f xs)) <= List.length xs)%nat.
Proof.
  intros Hf. induction xs as [ | x xs IH]; cbn [map List.concat List.length].
  - lia.
  - rewrite length_app. specialize (Hf x). lia.
Qed.

Lemma set_length (d : Dict.t) (k : string) (v : Q) :
  (List.length (Dict.set d k v) <= S (List.length d))%nat.
Proof.
  induction d as [ | [k' v'] d IH]; cbn [Dict.set List.length]; [lia | ].
  destruct (String.eqb k k'); cbn [List.length]; lia.
Qed.

Lemma planned_loop_length (ps : list PlannedExpense.t) (d : Dict.t) :
  (List.length (fold_left planned_step ps d)
   <= List.length d + List.length ps)%nat.
Proof.
  revert d. induction ps as [ | p ps IH]; intros d; cbn [fold_left List.length].
  - lia.
  - pose proof (IH (planned_step d p)) as H1.
    assert (H2 : (List.length (planned_step d p) <= S (List.length d))%nat)
      by (unfold planned_step; apply set_length).
    lia.
Qed.

(** X14. Every returned alert carries the requested month; overspend and
    low-budget alerts are "warning" or "danger", due-soon alerts "info" or
    "warning"; and a plan with [k] planned expenses yields at most
    [2 * k + 1] alerts. *)
Theorem alerts_are_well_formed (db : Storage.Database)
    (today_budget today : Datetime.date) (month : string)
    (alerts : list Alert.t) :
  get_alerts (Some db) today_budget today month = Ok alerts ->
  (forall a, In a alerts ->
     Alert.month a = month
     /\ ((Alert.type a = "overspend"
          /\ (Alert.level a = "warning" \/ Alert.level a = "danger"))
         \/ (Alert.type a = "low_budget"
             /\ (Alert.level a = "warning" \/ Alert.level a = "danger"))
         \/ (Alert.type a = "due_soon"
             /\ (Alert.level a = "info" \/ Alert.level a = "warning"))))
  /\ (forall doc,
        Storage.find_one (Storage.budgetmonth db) month = Some doc ->
        (List.length alerts
         <= 2 * List.length
                  (BudgetMonth.planned_expenses (Storage.plan_body doc))
            + 1)%nat).
Proof.
  intros Ha.
  destruct (get_budget (Some db) today_budget month) as [b | e] eqn:Hb.
  - destruct (get_alerts_after_budget db today_budget today month b Hb)
      as (doc & y & m & Hf & Hr & Ha').
    rewrite Ha' in Ha. inversion Ha as [Halerts]. clear Ha. split.
    + intros a Hin. apply in_app_or in Hin. destruct Hin as [Hin | Hin].
      { apply in_concat_map in Hin. destruct Hin as (it & _ & Hin).
        pose proof (overspend_of_type _ _ _ _ Hin).
        pose proof (overspend_of_shape _ _ _ _ Hin). tauto. }
      apply in_app_or in Hin. destruct Hin as [Hin | Hin].
      { pose proof (low_budget_of_type _ _ _ _ Hin).
        pose proof (low_budget_of_shape _ _ _ _ Hin). tauto. }
      apply in_concat_map in Hin. destruct Hin as (p & _ & Hin).
      pose proof (due_soon_of_type _ _ _ _ _ _ _ Hin).
      pose proof (due_soon_of_shape _ _ _ _ _ _ _ Hin). tauto.
    + intros doc' Hf'. assert (doc' = doc) by congruence. subst doc'.
      destruct (get_budget_ok db today_budget month doc y m Hf Hr)
        as (b' & Hb' & _ & _ & _ & _ & _ & _ & _ & _ & _ & Hpc & _).
      assert (b' = b) by congruence. subst b'.
      rewrite !length_app.
      pose proof (concat_length_le
                    (overspend_of month (actual_by_category (metrics b)))
                    (Dict.items (planned_by_category (metrics b)))) as H1.
      pose proof (concat_length_le
                    (due_soon_of month today y m (ndays y m))
                    (BudgetMonth.planned_expenses (Storage.plan_body doc))
                    (due_soon_of_length month today y m (ndays y m))) as H3.
      assert (H2 : (List.length
                      (low_budget_of month (remaining_actual (metrics b))
                         (income (metrics b))) <= 1)%nat).
      { unfold low_budget_of, low_budget_step.
        destruct (QMicromega.Qlt_bool 0 (income (metrics b)));
          [destruct (Qle_bool _ _) | ]; cbn; lia. }
      assert (H0 : (List.length (Dict.items (planned_by_category (metrics b)))
                    <= List.length
                         (BudgetMonth.planned_expenses
                            (Storage.plan_body doc)))%nat).
      { rewrite Hpc. unfold Dict.items.
        pose proof (planned_loop_length
                      (BudgetMonth.planned_expenses (Storage.plan_body doc))
                      []) as Hl. cbn [List.length] in Hl. lia. }
      assert (Hone : forall x, (List.length
                                  (overspend_of month
                                     (actual_by_category (metrics b)) x)
                                <= 1)%nat).
      { intros [cat planned]. unfold overspend_of, overspend_step.
        destruct (_ && _); cbn; lia. }
      specialize (H1 Hone). lia.
  - unfold get_alerts in Ha. rewrite Hb in Ha.
    destruct e as [sc d | ]; [ | discriminate].
    destruct (sc =? 404); [ | discriminate].
    inversion Ha; subst alerts. split.
    + intros a [].
    + intros doc _. cbn. lia.
Qed.

Lemma alerts_are_well_formed_witness :
  get_alerts (Some db_b) feb_1 feb_1 "2024-02"
  = Ok [Alert.mk "2024-02" "overspend"
          "Spending in rent is over plan (planned 1200.00, actual 1300.00)."
          "warning";
        Alert.mk "2024-02" "low_budget"
          "Remaining monthly budget is below 10% of income." "danger";
        Alert.mk "2024-02" "due_soon" "Rent is due in 4 day(s)." "info"]
  /\ (List.length
        [Alert.mk "2024-02" "overspend"
           "Spending in rent is over plan (planned 1200.00, actual 1300.00)."
           "warning";
         Alert.mk "2024-02" "low_budget"
           "Remaining monthly budget is below 10% of income." "danger";
         Alert.mk "2024-02" "due_soon" "Rent is due in 4 day(s)." "info"]
      <= 2 * List.length (BudgetMonth.planned_expenses plan_a) + 1)%nat.
Proof.
  assert (H : get_alerts (Some db_b) feb_1 feb_1 "2024-02"
              = Ok [Alert.mk "2024-02" "overspend"
                      "Spending in rent is over plan (planned 1200.00, actual 1300.00)."
                      "warning";
                    Alert.mk "2024-02" "low_budget"
                      "Remaining monthly budget is below 10% of income."
                      "danger";
                    Alert.mk "2024-02" "due_soon" "Rent is due in 4 day(s)."
                      "info"]) by (vm_compute; reflexivity).
  split; [exact H | ].
  destruct (alerts_are_well_formed db_b feb_1 feb_1 "2024-02" _ H) as [_ Hn].
  exact (Hn (Storage.mkPlanDoc (Storage.Oid "65c0a2") plan_a) eq_refl).
Defined.

(** X15. Once the reference date is past the end of the month, no due-soon
    alert is returned, whatever the due days of the plan. *)
Theorem no_due_soon_after_month (db : Storage.Database)
    (today_budget today : Datetime.date) (month : string)
    (doc : Storage.PlanDoc) (y m : Z) :
  Storage.find_one (Storage.budgetmonth db) month = Some doc ->
  month_reads month y m ->
  valid_date today ->
  date_lt (last_date y m) today ->
  exists alerts,
    get_alerts (Some db) today_budget today month = Ok alerts
    /\ forall a, In a alerts -> Alert.type a <> "due_soon".
Proof.
  intros Hfind Hreads Vt Hafter.
  destruct (get_alerts_ok db today_budget today month doc y m Hfind Hreads)
    as (b & _ & Ha).
  destruct Hreads as (_ & Hy & Hm).
  pose proof (ndays_bounds y m Hm) as Hn.
  eexists. split; [exact Ha | ].
  intros a Hin Hty. apply in_app_or in Hin. destruct Hin as [Hin | Hin].
  { apply in_concat_map in Hin. destruct Hin as (it & _ & Hin).
    apply overspend_of_type in Hin. congruence. }
  apply in_app_or in Hin. destruct Hin as [Hin | Hin].
  { apply low_budget_of_type in Hin. congruence. }
  apply in_concat_map in Hin. destruct Hin as (p & _ & Hin).
  destruct (PlannedExpense.due_day p) as [d | ] eqn:Hd.
  - destruct (Z.eq_dec d 0) as [-> | Hnz].
    + rewrite (due_soon_of_skips month today y m (ndays y m) p) in Hin
        by auto. exact Hin.
    + destruct (due_soon_of_cases month today y m d p Hy Hm Hd Hnz)
        as [_ Hsilent].
      rewrite Hsilent in Hin; [exact Hin | ].
      set (dd := Z.min (Z.max d 1) (ndays y m)).
      assert (Vd : valid_date (Datetime.mkdate y m dd))
        by (unfold valid_date, dd; cbn; lia).
      assert (Hlt : date_lt (Datetime.mkdate y m dd) today).
      { unfold date_lt, last_date in *. rewrite date_ltb_spec in *.
        cbn in *. unfold dd. lia. }
      pose proof (toordinal_lt _ _ Vd Vt Hlt) as Hord.
      unfold Datetime.sub_days. lia.
  - rewrite (due_soon_of_skips month today y m (ndays y m) p) in Hin by auto.
    exact Hin.
Qed.

Lemma no_due_soon_after_month_witness :
  Storage.find_one (Storage.budgetmonth db_feb) "2024-02" = Some doc_feb
  /\ month_reads "2024-02" 2024 2
  /\ valid_date (Datetime.mkdate 2024 3 1)
  /\ date_lt (last_date 2024 2) (Datetime.mkdate 2024 3 1)
  /\ exists alerts,
       get_alerts (Some db_feb) feb_1 (Datetime.mkdate 2024 3 1) "2024-02"
       = Ok alerts
       /\ forall a, In a alerts -> Alert.type a <> "due_soon".
Proof.
  assert (V : valid_date (Datetime.mkdate 2024 3 1))
    by (unfold valid_date; vm_compute; intuition discriminate).
  split; [reflexivity | ]. split; [reads_month | ]. split; [exact V | ].
  split; [reflexivity | ].
  apply (no_due_soon_after_month db_feb feb_1 (Datetime.mkdate 2024 3 1)
           "2024-02" doc_feb 2024 2).
  - reflexivity.
  - reads_month.
  - exact V.
  - reflexivity.
Defined.





End AlertExtras.

(** ** Per-category totals and signs *)

Module MetricsExtras.
Import Py Main Notions CalendarFacts BudgetFacts SumFacts.
Local Open Scope list_scope.










End MetricsExtras.

(** ** The bounds of a month and the listing of transactions *)

Module ListingProps.
Import Py Main Notions CalendarFacts BudgetFacts IsoFacts IsoOrder.
Local Open Scope list_scope.

(** X1. For a month string that reads as a year in 1..9999 and a month in
    1..12, [start_end_for_month] returns midnight of the first day and
    23:59:59.999 of the last day of that month, the number of days being
    the one [monthrange] reports; the ISO strings of the two dates, which
    the handlers use as the bounds of their queries, are in order. *)
Theorem month_bounds (month : string) (y m : Z) :
  month_reads month y m ->
  exists w n s e,
    Calendar.monthrange y m = Ok (w, n)
    /\ 28 <= n <= 31
    /\ start_end_for_month month = Ok (s, e)
    /\ s = Datetime.mkdatetime (Datetime.mkdate y m 1) 0 0 0 0
    /\ e = Datetime.mkdatetime (Datetime.mkdate y m n) 23 59 59 999000
    /\ String.leb (Datetime.isoformat (Datetime.dt_date s))
         (Datetime.isoformat (Datetime.dt_date e)) = true.
Proof.
  intros Hreads. pose proof (start_end_ok month y m Hreads) as Hse.
  destruct Hreads as (_ & _ & Hm).
  pose proof (ndays_bounds y m Hm) as Hn.
  eexists (Calendar.weekday y m 1), (ndays y m), _, _.
  split; [apply monthrange_ok; exact Hm | ]. split; [exact Hn | ].
  split; [exact Hse | ]. split; [reflexivity | ]. split; [reflexivity | ].
  cbn [Datetime.dt_date].
  assert (Hd : 1 <= ndays y m <= ndays y m) by lia.
  pose proof (in_month_passes y m (ndays y m) Hm Hd) as Hp.
  apply andb_true_iff in Hp. exact (proj1 Hp).
Qed.

Lemma month_bounds_witness :
  month_reads "2024-02" 2024 2
  /\ exists w n s e,
       Calendar.monthrange 2024 2 = Ok (w, n)
       /\ 28 <= n <= 31
       /\ start_end_for_month "2024-02" = Ok (s, e)
       /\ s = Datetime.mkdatetime (Datetime.mkdate 2024 2 1) 0 0 0 0
       /\ e = Datetime.mkdatetime (Datetime.mkdate 2024 2 n) 23 59 59 999000
       /\ String.leb (Datetime.isoformat (Datetime.dt_date s))
            (Datetime.isoformat (Datetime.dt_date e)) = true.
Proof.
  split; [reads_month | ].
  apply (month_bounds "2024-02" 2024 2). reads_month.
Defined.

Lemma leb_refl (a : string) : String.leb a a = true.
Proof. unfold String.leb. rewrite string_compare_refl. reflexivity. Qed.

Lemma leb_trans (a b c : string) :
  String.leb a b = true -> String.leb b c = true -> String.leb a c = true.
Proof.
  unfold String.leb. revert b c.
  induction a as [ | x a IH]; intros [ | y b] [ | z c]; cbn;
    try discriminate; try reflexivity.
  unfold Ascii.compare.
  destruct (N.compare_spec (N_of_ascii x) (N_of_ascii y)) as [Exy | Lxy | Gxy];
    try discriminate;
    destruct (N.compare_spec (N_of_ascii y) (N_of_ascii z)) as [Eyz | Lyz | Gyz];
    try discriminate; intros H1 H2.
  - replace (N_of_ascii x ?= N_of_ascii z)%N with Eq
      by (symmetry; apply N.compare_eq_iff; congruence).
    exact (IH b c H1 H2).
  - replace (N_of_ascii x ?= N_of_ascii z)%N with Lt
      by (symmetry; apply N.compare_lt_iff; lia).
    reflexivity.
  - replace (N_of_ascii x ?= N_of_ascii z)%N with Lt
      by (symmetry; apply N.compare_lt_iff; lia).
    reflexivity.
  - replace (N_of_ascii x ?= N_of_ascii z)%N with Lt
      by (symmetry; apply N.compare_lt_iff; lia).
    reflexivity.
Qed.

Lemma insert_by_date_perm (t : Storage.TxDoc) (l : list Storage.TxDoc) :
  Permutation (Storage.insert_by_date t l) (t :: l).
Proof.
  induction l as [ | u l IH]; cbn [Storage.insert_by_date].
  - apply Permutation_refl.
  - destruct (String.leb (Storage.date t) (Storage.date u)).
    + apply Permutation_refl.
    + eapply perm_trans; [apply perm_skip; exact IH | apply perm_swap].
Qed.

Lemma sort_by_date_perm (l : list Storage.TxDoc) :
  Permutation (Storage.sort_by_date l) l.
Proof.
  unfold Storage.sort_by_date.
  induction l as [ | t l IH]; cbn [fold_right].
  - apply Permutation_refl.
  - eapply perm_trans; [apply insert_by_date_perm | ].
    apply perm_skip. exact IH.
Qed.

Lemma insert_by_date_sorted (t : Storage.TxDoc) (l : list Storage.TxDoc) :
  StronglySorted
    (fun a b => String.leb (Storage.date a) (Storage.date b) = true) l ->
  StronglySorted
    (fun a b => String.leb (Storage.date a) (Storage.date b) = true)
    (Storage.insert_by_date t l).
Proof.
  induction 1 as [ | u l Hl IH Hu]; cbn [Storage.insert_by_date].
  - repeat constructor.
  - destruct (String.leb (Storage.date t) (Storage.date u)) eqn:E.
    + constructor; [constructor; assumption | ].
      constructor; [exact E | ].
      eapply Forall_impl; [ | exact Hu].
      intros a Ha. cbv beta in *. eapply leb_trans; eassumption.
    + constructor; [exact IH | ].
      assert (Hut : String.leb (Storage.date u) (Storage.date t) = true).
      { destruct (String.leb_total (Storage.date t) (Storage.date u));
          congruence. }
      apply Forall_forall. intros a Ha.
      apply (Permutation_in _ (insert_by_date_perm t l)) in Ha.
      destruct Ha as [<- | Ha]; [exact Hut | ].
      rewrite Forall_forall in Hu. exact (Hu a Ha).
Qed.

Lemma sort_by_date_sorted (l : list Storage.TxDoc) :
  StronglySorted
    (fun a b => String.leb (Storage.date a) (Storage.date b) = true)
    (Storage.sort_by_date l).
Proof.
  unfold Storage.sort_by_date.
  induction l as [ | t l IH]; cbn [fold_right].
  - constructor.
  - apply insert_by_date_sorted. exact IH.
Qed.

Lemma strongly_sorted_nth (l : list Storage.TxDoc) :
  StronglySorted
    (fun a b => String.leb (Storage.date a) (Storage.date b) = true) l ->
  forall (i j : nat) (a b : Storage.TxDoc),
    (i <= j)%nat -> nth_error l i = Some a -> nth_error l j = Some b ->
    String.leb (Storage.date a) (Storage.date b) = true.
Proof.
  induction 1 as [ | u l Hl IH Hu]; intros i j a b Hij Hi Hj.
  - destruct i; discriminate.
  - destruct i as [ | i], j as [ | j]; cbn [nth_error] in Hi, Hj.
    + inversion Hi; inversion Hj; subst. apply leb_refl.
    + inversion Hi; subst a. rewrite Forall_forall in Hu.
      apply Hu. eapply nth_error_In. exact Hj.
    + lia.
    + apply (IH i j); [lia | assumption | assumption].
Qed.

Lemma listing_shape (db : Storage.Database) (month : option string)
    (docs : list TxJson) :
  list_transactions (Some db) month = Ok docs ->
  exists query,
    docs = map oid_str_tx
             (Storage.sort_by_date
                (Storage.find_query (Storage.transaction db) query))
    /\ (month = None \/ month = Some EmptyString -> query = None)
    /\ (forall mo y m, month = Some mo -> month_reads mo y m ->
          Storage.find_query (Storage.transaction db) query
          = month_txs db y m).
Proof.
  unfold list_transactions.
  destruct month as [[ | c mo] | ]; cbn [bind].
  - intros H. inversion H. exists None. split; [reflexivity | ].
    split; [reflexivity | ].
    intros mo y m Hmo (Hym & _). inversion Hmo; subst mo.
    vm_compute in Hym. discriminate.
  - destruct (start_end_for_month (String c mo)) as [[s e] | ex] eqn:Hse;
      cbn [bind]; [ | discriminate].
    intros H. inversion H.
    exists (Some (Datetime.isoformat (Datetime.dt_date s),
                  Datetime.isoformat (Datetime.dt_date e))).
    split; [reflexivity | ].
    split; [intros [Hn | Hn]; discriminate | ].
    intros mo' y m Hmo Hr. inversion Hmo; subst mo'.
    rewrite (start_end_ok _ y m Hr) in Hse. inversion Hse; subst s e.
    reflexivity.
  - intros H. inversion H. exists None. split; [reflexivity | ].
    split; [reflexivity | ]. intros mo y m Hmo. discriminate.
Qed.

(** X22. [list_transactions] returns the stored transactions, each once, in
    ascending order of their [date] string: all of them when no month (or
    an empty one) is given, and those of the month's query otherwise. *)
Theorem listing_sorted_and_complete (db : Storage.Database)
    (month : option string) (docs : list TxJson) :
  list_transactions (Some db) month = Ok docs ->
  dates_ascending docs
  /\ (month = None \/ month = Some EmptyString ->
      Permutation docs (map oid_str_tx (Storage.transaction db)))
  /\ (forall mo y m, month = Some mo -> month_reads mo y m ->
        Permutation docs (map oid_str_tx (month_txs db y m))).
Proof.
  intros H. destruct (listing_shape db month docs H) as (q & -> & Hq1 & Hq2).
  split; [ | split].
  - intros i j a b Hij Hi Hj.
    rewrite nth_error_map in Hi, Hj.
    destruct (nth_error _ i) as [ta | ] eqn:Ei; [ | discriminate].
    destruct (nth_error _ j) as [tb | ] eqn:Ej; [ | discriminate].
    cbn in Hi, Hj. inversion Hi; inversion Hj; subst a b.
    pose proof (strongly_sorted_nth _ (sort_by_date_sorted _) i j ta tb
                  Hij Ei Ej) as Hle.
    unfold oid_str_tx. destruct (Storage.tx_id ta), (Storage.tx_id tb).
    exact Hle.
  - intros Hm. rewrite (Hq1 Hm). cbn [Storage.find_query].
    apply Permutation_map. apply sort_by_date_perm.
  - intros mo y m Hmo Hr. apply Permutation_map.
    rewrite <- (Hq2 mo y m Hmo Hr). apply sort_by_date_perm.
Qed.

Lemma listing_sorted_and_complete_witness :
  list_transactions (Some db_feb) (Some "2024-02")
  = Ok [oid_str_tx tx_rent; oid_str_tx tx_food]
  /\ dates_ascending [oid_str_tx tx_rent; oid_str_tx tx_food]
  /\ Permutation [oid_str_tx tx_rent; oid_str_tx tx_food]
       (map oid_str_tx (month_txs db_feb 2024 2)).
Proof.
  assert (H : list_transactions (Some db_feb) (Some "2024-02")
              = Ok [oid_str_tx tx_rent; oid_str_tx tx_food])
    by (vm_compute; reflexivity).
  split; [exact H | ].
  destruct (listing_sorted_and_complete db_feb (Some "2024-02") _ H)
    as (H1 & _ & H3).
  split; [exact H1 | ].
  apply (H3 "2024-02" 2024 2); [reflexivity | reads_month].
Defined.

Lemma listed_from_store (db : Storage.Database) (month : option string)
    (docs : list TxJson) (a : TxJson) :
  list_transactions (Some db) month = Ok docs -> In a docs ->
  exists t, In t (Storage.transaction db) /\ a = oid_str_tx t.
Proof.
  intros H Ha. destruct (listing_shape db month docs H) as (q & -> & _ & _).
  apply in_map_iff in Ha. destruct Ha as (t & <- & Ht).
  apply (Permutation_in _ (sort_by_date_perm _)) in Ht.
  exists t. split; [ | reflexivity].
  destruct q as [[lo hi] | ]; cbn [Storage.find_query] in Ht; [ | exact Ht].
  unfold Storage.find in Ht. apply filter_In in Ht. tauto.
Qed.

(** X23. When every stored transaction carries the ISO form of its date, the
    listing is chronological: no listed transaction is dated before one
    listed earlier. *)
Theorem listing_is_chronological (db : Storage.Database)
    (month : option string) (docs : list TxJson) :
  Forall well_dated (Storage.transaction db) ->
  list_transactions (Some db) month = Ok docs ->
  forall (i j : nat) (a b : TxJson),
    (i <= j)%nat -> nth_error docs i = Some a -> nth_error docs j = Some b ->
    ~ date_lt (Transaction.tx_date (tx_json_body b))
        (Transaction.tx_date (tx_json_body a)).
Proof.
  intros Hwd H i j a b Hij Hi Hj.
  assert (Hsorted : dates_ascending docs).
  { destruct (listing_shape db month docs H) as (q & -> & _ & _).
    intros i' j' a' b' Hij' Hi' Hj'.
    rewrite nth_error_map in Hi', Hj'.
    destruct (nth_error _ i') as [ta | ] eqn:Ei; [ | discriminate].
    destruct (nth_error _ j') as [tb | ] eqn:Ej; [ | discriminate].
    cbn in Hi', Hj'. inversion Hi'; inversion Hj'; subst a' b'.
    pose proof (strongly_sorted_nth _ (sort_by_date_sorted _) i' j' ta tb
                  Hij' Ei Ej) as Hle.
    unfold oid_str_tx. destruct (Storage.tx_id ta), (Storage.tx_id tb).
    exact Hle. }
  pose proof (Hsorted i j a b Hij Hi Hj) as Hle.
  assert (Hfrom : forall x, In x docs ->
            valid_date (Transaction.tx_date (tx_json_body x))
            /\ tx_json_date x
               = Datetime.isoformat (Transaction.tx_date (tx_json_body x))).
  { intros x Hx. destruct (listed_from_store db month docs x H Hx)
      as (t & Ht & ->).
    rewrite Forall_forall in Hwd. destruct (Hwd t Ht) as [Hv Hd].
    unfold oid_str_tx. destruct (Storage.tx_id t). cbn. auto. }
  destruct (Hfrom a (nth_error_In _ _ Hi)) as [Va Da].
  destruct (Hfrom b (nth_error_In _ _ Hj)) as [Vb Db].
  rewrite Da, Db in Hle.
  apply (isoformat_leb_dates _ _ Va Vb). exact Hle.
Qed.

Lemma listing_is_chronological_witness :
  Forall well_dated (Storage.transaction db_feb)
  /\ list_transactions (Some db_feb) None
     = Ok [oid_str_tx tx_rent; oid_str_tx tx_food; oid_str_tx tx_march]
  /\ forall (i j : nat) (a b : TxJson),
       (i <= j)%nat ->
       nth_error [oid_str_tx tx_rent; oid_str_tx tx_food; oid_str_tx tx_march]
         i = Some a ->
       nth_error [oid_str_tx tx_rent; oid_str_tx tx_food; oid_str_tx tx_march]
         j = Some b ->
       ~ date_lt (Transaction.tx_date (tx_json_body b))
           (Transaction.tx_date (tx_json_body a)).
Proof.
  assert (Hall : Forall well_dated (Storage.transaction db_feb)).
  { repeat constructor; vm_compute; intuition discriminate. }
  assert (H : list_transactions (Some db_feb) None
              = Ok [oid_str_tx tx_rent; oid_str_tx tx_food;
                    oid_str_tx tx_march]) by (vm_compute; reflexivity).
  split; [exact Hall | ]. split; [exact H | ].
  exact (listing_is_chronological db_feb None _ Hall H).
Defined.

End ListingProps.

(** * The handlers over binary64: properties *)

(** ** What [get_budget] and [get_alerts] compute *)

Module Binary64Facts.
Import Py Notions CalendarFacts BudgetFacts IsoFacts.
Import Binary64 Binary64.Main.
Local Open Scope list_scope.

Lemma budget_metrics (db : Storage.Database) (today : Datetime.date)
    (month : string) (doc : Storage.PlanDoc) (y m : Z) :
  Storage.find_one (Storage.budgetmonth db) month = Some doc ->
  month_reads month y m ->
  exists b,
    get_budget (Some db) today month = Ok b
    /\ plan b = oid_str doc
    /\ income (metrics b) = BudgetMonth.income (Storage.plan_body doc)
    /\ planned_total (metrics b)
       = sum (map PlannedExpense.amount
                (BudgetMonth.planned_expenses (Storage.plan_body doc)))
    /\ remaining_planned (metrics b)
       = max (income (metrics b) - planned_total (metrics b))%float 0%float
    /\ actual_spent (metrics b) = sum (map tx_amount (month_txs db y m))
    /\ remaining_actual (metrics b)
       = (income (metrics b) - actual_spent (metrics b))%float
    /\ days_left (metrics b) = days_left_of today y m
    /\ daily_limit (metrics b)
       = (if 0 <? days_left (metrics b)
          then (remaining_actual (metrics b)
                / of_int (days_left (metrics b)))%float
          else 0%float)
    /\ weekly_limit (metrics b) = (daily_limit (metrics b) * 7)%float
    /\ planned_by_category (metrics b)
       = fold_left planned_step
           (BudgetMonth.planned_expenses (Storage.plan_body doc)) []
    /\ actual_by_category (metrics b)
       = fold_left actual_step (month_txs db y m) [].
Proof.
  intros Hfind Hreads.
  pose proof (start_end_ok month y m Hreads) as Hse.
  destruct Hreads as (Hym & Hy & Hm).
  pose proof (ndays_bounds y m Hm) as Hn.
  unfold get_budget. rewrite Hfind, Hse. cbn [bind].
  rewrite Hym. cbn [bind].
  rewrite (monthrange_ok y m Hm). cbn [bind].
  rewrite (new_date_ok y m (ndays y m)) by lia. cbn [bind].
  rewrite (new_date_ok y m 1) by lia. cbn [bind].
  eexists. split; [reflexivity | ].
  cbn [plan metrics income planned_total remaining_planned actual_spent
       remaining_actual days_left daily_limit weekly_limit
       planned_by_category actual_by_category Datetime.dt_date].
  repeat split; reflexivity.
Qed.

(** *** Dictionaries *)

Lemma dict_get_set_same (d : Dict.t) (k : string) (v default : float) :
  Dict.get (Dict.set d k v) k default = v.
Proof.
  induction d as [ | [k' v'] d IH]; cbn.
  - rewrite String.eqb_refl. reflexivity.
  - destruct (String.eqb k k') eqn:E; cbn; rewrite E; auto.
Qed.

Lemma dict_get_set_other (d : Dict.t) (k k0 : string) (v default : float) :
  k0 <> k -> Dict.get (Dict.set d k v) k0 default = Dict.get d k0 default.
Proof.
  intros Hne. induction d as [ | [k' v'] d IH]; cbn.
  - apply String.eqb_neq in Hne. rewrite Hne. reflexivity.
  - destruct (String.eqb k k') eqn:E; cbn.
    + apply String.eqb_eq in E. subst k'.
      apply String.eqb_neq in Hne. rewrite Hne. reflexivity.
    + destruct (String.eqb k0 k'); auto.
Qed.

(** Writing under a key keeps the keys, or adds the key at the end. *)
Lemma dict_keys_set (d : Dict.t) (k : string) (v : float) :
  (In k (Dict.keys d) /\ Dict.keys (Dict.set d k v) = Dict.keys d)
  \/ (~ In k (Dict.keys d) /\ Dict.keys (Dict.set d k v) = Dict.keys d ++ [k]).
Proof.
  induction d as [ | [k' v'] d IH]; cbn.
  - right. split; [tauto | reflexivity].
  - destruct (String.eqb k k') eqn:E; cbn.
    + apply String.eqb_eq in E. left. split; [auto | reflexivity].
    + apply String.eqb_neq in E. unfold Dict.keys in IH.
      destruct IH as [[Hin Hk] | [Hout Hk]]; rewrite Hk.
      * left. split; [auto | reflexivity].
      * right. split; [ | reflexivity]. intros [Heq | Hin]; congruence.
Qed.

(** *** The two loops that total amounts by category

    Both loops of [get_budget] are of one shape: each item adds its amount
    to the entry of its category, the entry starting at [0.0]. *)

Section Accumulate.
Variables (A : Type) (key : A -> string) (val : A -> float).
Variable step : Dict.t -> A -> Dict.t.
Hypothesis step_adds :
  forall d x,
    step d x = Dict.set d (key x) (Dict.get d (key x) 0 + val x)%float.

(** An entry is its former value with the amounts of its category added
    one by one, in the order of the items. *)
Lemma accumulate_get (xs : list A) (d : Dict.t) (cat : string) :
  Dict.get (fold_left step xs d) cat 0%float
  = fold_left PrimFloat.add
      (map val (filter (fun x => String.eqb (key x) cat) xs))
      (Dict.get d cat 0%float).
Proof.
  revert d. induction xs as [ | x xs IH]; intros d; cbn [fold_left filter].
  - reflexivity.
  - rewrite IH, step_adds.
    destruct (String.eqb (key x) cat) eqn:E.
    + apply String.eqb_eq in E. subst cat.
      rewrite dict_get_set_same. reflexivity.
    + apply String.eqb_neq in E.
      rewrite dict_get_set_other by congruence. reflexivity.
Qed.

Lemma accumulate_keys (xs : list A) (d : Dict.t) (cat : string) :
  In cat (Dict.keys (fold_left step xs d))
  <-> In cat (Dict.keys d) \/ exists x, In x xs /\ key x = cat.
Proof.
  revert d. induction xs as [ | x xs IH]; intros d; cbn [fold_left].
  - split; [auto | ]. intros [H | (x & [] & _)]. exact H.
  - rewrite IH, step_adds.
    destruct (dict_keys_set d (key x) (Dict.get d (key x) 0 + val x)%float)
      as [[Hin ->] | [Hout ->]].
    + split.
      * intros [H | (x' & Hx' & E)]; [auto | ]. right. exists x'. cbn. auto.
      * intros [H | (x' & [<- | Hx'] & E)]; [auto | subst cat; auto | ].
        right. eauto.
    + rewrite in_app_iff. cbn [In]. split.
      * intros [[H | [<- | []]] | (x' & Hx' & E)]; [auto | | ].
        -- right. exists x. cbn. auto.
        -- right. exists x'. cbn. auto.
      * intros [H | (x' & [<- | Hx'] & E)]; [auto | auto | ].
        right. eauto.
Qed.

Lemma accumulate_nodup (xs : list A) (d : Dict.t) :
  NoDup (Dict.keys d) -> NoDup (Dict.keys (fold_left step xs d)).
Proof.
  revert d. induction xs as [ | x xs IH]; intros d Hd; cbn [fold_left].
  - exact Hd.
  - apply IH. rewrite step_adds.
    destruct (dict_keys_set d (key x) (Dict.get d (key x) 0 + val x)%float)
      as [[_ ->] | [Hout ->]]; [exact Hd | ].
    apply NoDup_app; [exact Hd | repeat constructor; cbn; tauto | ].
    intros k Hk [Heq | []]. subst k. exact (Hout Hk).
Qed.


End Accumulate.

Lemma planned_step_adds (d : Dict.t) (p : PlannedExpense.t) :
  planned_step d p
  = Dict.set d (PlannedExpense.category p)
      (Dict.get d (PlannedExpense.category p) 0 + PlannedExpense.amount p)%float.
Proof. reflexivity. Qed.



(** *** Comparisons with zero *)

Lemma Prim2SF_zero : Prim2SF 0%float = S754_zero false.
Proof. reflexivity. Qed.

(** A float equal to zero, [0.0] or [-0.0], is not above zero. *)
Lemma zero_not_positive (x : float) :
  (x =? 0)%float = true -> (0 <? x)%float = false.
Proof.
  rewrite FloatAxioms.eqb_spec, FloatAxioms.ltb_spec, Prim2SF_zero.
  destruct (Prim2SF x) as [s | s | | s mx ex]; try destruct s;
    cbn; congruence.
Qed.

(** *** The three blocks of [get_alerts] *)

Lemma overspend_step_adds (month : string) (ab : Dict.t)
    (alerts : list Alert.t) (item : string * float) :
  overspend_step month ab alerts item
  = alerts ++ overspend_of month ab item.
Proof.
  unfold overspend_of, overspend_step. destruct item as [cat planned].
  destruct ((planned <? Dict.get ab cat 0)%float && (0 <? planned)%float).
  - reflexivity.
  - rewrite app_nil_r. reflexivity.
Qed.

Lemma overspend_block (month : string) (ab : Dict.t)
    (items : list (string * float)) (alerts : list Alert.t) :
  fold_left (overspend_step month ab) items alerts
  = alerts ++ List.concat (map (overspend_of month ab) items).
Proof.
  revert alerts. induction items as [ | it items IH]; intros alerts;
    cbn [fold_left map List.concat].
  - rewrite app_nil_r. reflexivity.
  - rewrite IH, overspend_step_adds, app_assoc. reflexivity.
Qed.

Lemma low_budget_step_adds (month : string) (remaining income : float)
    (alerts : list Alert.t) :
  low_budget_step month remaining income alerts
  = alerts ++ low_budget_of month remaining income.
Proof.
  unfold low_budget_of, low_budget_step.
  destruct (0 <? income)%float;
    [destruct (remaining / income <=? tenth)%float | ];
    try reflexivity; rewrite app_nil_r; reflexivity.
Qed.

(** In a month that [date] accepts, the clamped due day is a day of the
    month, so the step does not raise. *)
Lemma due_soon_step_adds (month : string) (today : Datetime.date)
    (y m : Z) (alerts : list Alert.t) (p : PlannedExpense.t) :
  1 <= y <= 9999 -> 1 <= m <= 12 ->
  due_soon_step month today y m (ndays y m) alerts p
  = Ok (alerts ++ due_soon_of month today y m (ndays y m) p).
Proof.
  intros Hy Hm. pose proof (ndays_bounds y m Hm) as Hn.
  unfold due_soon_of, due_soon_step.
  destruct (PlannedExpense.due_day p) as [d | ].
  - destruct (d =? 0).
    + rewrite app_nil_r. reflexivity.
    + rewrite (new_date_ok y m (Z.min (Z.max d 1) (ndays y m))) by lia.
      cbn [bind].
      match goal with |- context [if ?c then _ else _] => destruct c end.
      * reflexivity.
      * rewrite app_nil_r. reflexivity.
  - rewrite app_nil_r. reflexivity.
Qed.

Lemma due_soon_block (month : string) (today : Datetime.date)
    (y m : Z) (ps : list PlannedExpense.t) (alerts : list Alert.t) :
  1 <= y <= 9999 -> 1 <= m <= 12 ->
  due_soon_loop month today y m (ndays y m) ps alerts
  = Ok (alerts
        ++ List.concat (map (due_soon_of month today y m (ndays y m)) ps)).
Proof.
  intros Hy Hm. revert alerts.
  induction ps as [ | p ps IH]; intros alerts;
    cbn [due_soon_loop map List.concat].
  - rewrite app_nil_r. reflexivity.
  - rewrite (due_soon_step_adds month today y m alerts p Hy Hm).
    cbn [bind]. rewrite IH, app_assoc. reflexivity.
Qed.

(** The alerts of a stored plan, block by block. *)
Lemma alerts_by_block (db : Storage.Database)
    (today_budget today : Datetime.date) (month : string)
    (doc : Storage.PlanDoc) (y m : Z) :
  Storage.find_one (Storage.budgetmonth db) month = Some doc ->
  month_reads month y m ->
  exists b,
    get_budget (Some db) today_budget month = Ok b
    /\ get_alerts (Some db) today_budget today month
       = Ok (List.concat
               (map (overspend_of month (actual_by_category (metrics b)))
                  (Dict.items (planned_by_category (metrics b))))
             ++ low_budget_of month (remaining_actual (metrics b))
                  (income (metrics b))
             ++ List.concat (map (due_soon_of month today y m (ndays y m))
                          (BudgetMonth.planned_expenses
                             (Storage.plan_body doc)))).
Proof.
  intros Hfind Hreads.
  destruct (budget_metrics db today_budget month doc y m Hfind Hreads)
    as (b & Hb & Hplan & _).
  destruct Hreads as (Hym & Hy & Hm).
  exists b. split; [exact Hb | ].
  unfold get_alerts. rewrite Hb.
  rewrite overspend_block, low_budget_step_adds. cbn [app].
  rewrite Hplan.
  replace (body (oid_str doc)) with (Storage.plan_body doc)
    by (unfold oid_str; destruct (Storage.plan_id doc); reflexivity).
  destruct (BudgetMonth.planned_expenses (Storage.plan_body doc))
    as [ | p ps] eqn:Hps.
  - cbn [map List.concat]. rewrite app_nil_r. reflexivity.
  - rewrite Hym. cbn [bind]. rewrite (monthrange_ok y m Hm). cbn [bind].
    rewrite (due_soon_block month today y m (p :: ps) _ Hy Hm).
    rewrite app_assoc. reflexivity.
Qed.

Lemma overspend_block_type (month : string) (ab : Dict.t)
    (item : string * float) (a : Alert.t) :
  In a (overspend_of month ab item) -> Alert.type a = "overspend".
Proof.
  unfold overspend_of, overspend_step. destruct item as [cat planned].
  destruct ((planned <? Dict.get ab cat 0)%float && (0 <? planned)%float);
    cbn.
  - intros [<- | []]. reflexivity.
  - tauto.
Qed.

Lemma low_budget_block_type (month : string) (remaining income : float)
    (a : Alert.t) :
  In a (low_budget_of month remaining income) -> Alert.type a = "low_budget".
Proof.
  unfold low_budget_of, low_budget_step.
  destruct (0 <? income)%float;
    [destruct (remaining / income <=? tenth)%float | ]; cbn;
    try tauto.
  intros [<- | []]. reflexivity.
Qed.

Lemma due_soon_block_type (month : string) (today : Datetime.date)
    (y m n : Z) (p : PlannedExpense.t) (a : Alert.t) :
  In a (due_soon_of month today y m n p) -> Alert.type a = "due_soon".
Proof.
  unfold due_soon_of, due_soon_step.
  destruct (PlannedExpense.due_day p) as [d | ]; [ | cbn; tauto].
  destruct (d =? 0); [cbn; tauto | ].
  destruct (Datetime.new_date y m (Z.min (Z.max d 1) n)); cbn [bind];
    [ | cbn; tauto].
  match goal with |- context [if ?c then _ else _] => destruct c end; cbn.
  - intros [<- | []]. reflexivity.
  - tauto.
Qed.

(** The two outcomes of the overspend rule for one category. *)
Lemma overspend_emits (month : string) (ab : Dict.t) (cat : string)
    (planned : float) :
  (planned <? Dict.get ab cat 0)%float = true -> (0 <? planned)%float = true ->
  exists a,
    overspend_of month ab (cat, planned) = [a]
    /\ Alert.type a = "overspend" /\ Alert.month a = month
    /\ Alert.level a
       = if (Dict.get ab cat 0 <=? planned * 1.25)%float
         then "warning" else "danger".
Proof.
  intros H1 H2. unfold overspend_of, overspend_step.
  rewrite H1, H2. cbn [andb app]. eexists. split; [reflexivity | ].
  cbn. auto.
Qed.

Lemma overspend_silent (month : string) (ab : Dict.t) (cat : string)
    (planned : float) :
  ~ ((planned <? Dict.get ab cat 0)%float = true
     /\ (0 <? planned)%float = true) ->
  overspend_of month ab (cat, planned) = [].
Proof.
  intros Hn. unfold overspend_of, overspend_step.
  destruct (planned <? Dict.get ab cat 0)%float; [ | reflexivity].
  destruct (0 <? planned)%float; [ | reflexivity].
  exfalso. apply Hn. split; reflexivity.
Qed.

(** The outcomes of the low-budget rule. *)
Lemma low_budget_cases (month : string) (remaining income : float) :
  ((0 <? income)%float = true
   /\ (remaining / income <=? tenth)%float = true
   /\ exists a,
        low_budget_of month remaining income = [a]
        /\ Alert.type a = "low_budget"
        /\ Alert.level a
           = if (0 <? remaining)%float then "warning" else "danger")
  \/ (~ ((0 <? income)%float = true
         /\ (remaining / income <=? tenth)%float = true)
      /\ low_budget_of month remaining income = []).
Proof.
  unfold low_budget_of, low_budget_step.
  destruct (0 <? income)%float.
  - destruct (remaining / income <=? tenth)%float.
    + left. split; [reflexivity | ]. split; [reflexivity | ].
      eexists. split; [reflexivity | ]. cbn. auto.
    + right. split; [intros [_ H]; discriminate | reflexivity].
  - right. split; [intros [H _]; discriminate | reflexivity].
Qed.

End Binary64Facts.

(** ** Alert thresholds *)

Module Binary64Alerts.
Import Py Notions CalendarFacts BudgetFacts AlertProps.
Import Binary64 Binary64.Main Binary64Facts.
Local Open Scope list_scope.

(** C1. For every category of [planned_by_category], with [actual] its
    entry in [actual_by_category] (0.0 when absent): the category adds one
    overspend alert to the output when [actual > planned] and
    [planned > 0], of level "warning" when [actual <= planned * 1.25] and
    "danger" otherwise, and adds nothing when the condition fails. The
    output holds no other overspend alert. The comparisons and the product
    are those of binary64, as in the source. *)
Theorem overspend_threshold (db : Storage.Database)
    (today_budget today : Datetime.date) (month : string)
    (doc : Storage.PlanDoc) (y m : Z) :
  Storage.find_one (Storage.budgetmonth db) month = Some doc ->
  month_reads month y m ->
  exists b alerts rest,
    get_budget (Some db) today_budget month = Ok b
    /\ get_alerts (Some db) today_budget today month = Ok alerts
    /\ alerts
       = List.concat
           (map (overspend_of month (actual_by_category (metrics b)))
              (Dict.items (planned_by_category (metrics b))))
         ++ rest
    /\ (forall a, In a rest -> Alert.type a <> "overspend")
    /\ NoDup (Dict.keys (planned_by_category (metrics b)))
    /\ forall cat planned,
         In (cat, planned) (Dict.items (planned_by_category (metrics b))) ->
         let actual := Dict.get (actual_by_category (metrics b)) cat 0 in
         ((planned <? actual)%float = true /\ (0 <? planned)%float = true ->
          exists a,
            overspend_of month (actual_by_category (metrics b)) (cat, planned)
            = [a]
            /\ In a alerts
            /\ Alert.type a = "overspend"
            /\ ((actual <=? planned * 1.25)%float = true ->
                Alert.level a = "warning")
            /\ ((actual <=? planned * 1.25)%float = false ->
                Alert.level a = "danger"))
         /\ (~ ((planned <? actual)%float = true
                /\ (0 <? planned)%float = true) ->
             overspend_of month (actual_by_category (metrics b))
               (cat, planned) = []).
Proof.
  intros Hfind Hreads.
  destruct (alerts_by_block db today_budget today month doc y m Hfind Hreads)
    as (b & Hb & Ha).
  destruct (budget_metrics db today_budget month doc y m Hfind Hreads)
    as (b0 & Hb0 & _ & _ & _ & _ & _ & _ & _ & _ & _ & Hpc & _).
  assert (b0 = b) by congruence. subst b0.
  eexists b, _, _. split; [exact Hb | ]. split; [exact Ha | ].
  split; [reflexivity | ]. split.
  { intros a Hin Hty. apply in_app_or in Hin. destruct Hin as [Hin | Hin].
    - apply low_budget_block_type in Hin. congruence.
    - apply in_concat_map in Hin. destruct Hin as (p & _ & Hin).
      apply due_soon_block_type in Hin. congruence. }
  split.
  { rewrite Hpc.
    apply (accumulate_nodup _ _ _ _ planned_step_adds). constructor. }
  intros cat planned Hin actual. split.
  - intros [H1 H2].
    destruct (overspend_emits month (actual_by_category (metrics b))
                cat planned H1 H2) as (a & Hof & Hty & _ & Hlv).
    exists a. split; [exact Hof | ]. split.
    { apply in_or_app. left. apply in_concat_map.
      exists (cat, planned). split; [exact Hin | ].
      rewrite Hof. left. reflexivity. }
    split; [exact Hty | ]. rewrite Hlv. fold actual.
    split; intros ->; reflexivity.
  - apply overspend_silent.
Qed.

Lemma overspend_threshold_witness :
  Storage.find_one (Storage.budgetmonth db_coffee) "2024-02"
  = Some (plan_of 1000 [coffee])
  /\ month_reads "2024-02" 2024 2
  /\ exists b alerts rest,
       get_budget (Some db_coffee) feb_1 "2024-02" = Ok b
       /\ get_alerts (Some db_coffee) feb_1 feb_1 "2024-02" = Ok alerts
       /\ alerts
          = List.concat
              (map (overspend_of "2024-02" (actual_by_category (metrics b)))
                 (Dict.items (planned_by_category (metrics b))))
            ++ rest
       /\ (forall a, In a rest -> Alert.type a <> "overspend")
       /\ NoDup (Dict.keys (planned_by_category (metrics b)))
       /\ forall cat planned,
            In (cat, planned) (Dict.items (planned_by_category (metrics b))) ->
            let actual := Dict.get (actual_by_category (metrics b)) cat 0 in
            ((planned <? actual)%float = true /\ (0 <? planned)%float = true ->
             exists a,
               overspend_of "2024-02" (actual_by_category (metrics b))
                 (cat, planned) = [a]
               /\ In a alerts
               /\ Alert.type a = "overspend"
               /\ ((actual <=? planned * 1.25)%float = true ->
                   Alert.level a = "warning")
               /\ ((actual <=? planned * 1.25)%float = false ->
                   Alert.level a = "danger"))
            /\ (~ ((planned <? actual)%float = true
                   /\ (0 <? planned)%float = true) ->
                overspend_of "2024-02" (actual_by_category (metrics b))
                  (cat, planned) = []).
Proof.
  split; [reflexivity | ]. split; [reads_month | ].
  apply (overspend_threshold db_coffee feb_1 feb_1 "2024-02"
           (plan_of 1000 [coffee]) 2024 2).
  - reflexivity.
  - reads_month.
Defined.

(** C3. A low-budget alert is in the output exactly when [income > 0] and
    [remaining_actual / income <= 0.1]; there is at most one; its level is
    "warning" when [remaining_actual > 0] and "danger" otherwise; with
    [income = 0] there is none. The quotient and the comparisons are those
    of binary64, as in the source, [0.1] being the float nearest to one
    tenth. *)
Theorem low_budget_threshold (db : Storage.Database)
    (today_budget today : Datetime.date) (month : string)
    (doc : Storage.PlanDoc) (y m : Z) :
  Storage.find_one (Storage.budgetmonth db) month = Some doc ->
  month_reads month y m ->
  exists b alerts,
    get_budget (Some db) today_budget month = Ok b
    /\ get_alerts (Some db) today_budget today month = Ok alerts
    /\ ((exists a, In a alerts /\ Alert.type a = "low_budget")
        <-> (0 <? income (metrics b))%float = true
            /\ (remaining_actual (metrics b) / income (metrics b)
                <=? tenth)%float = true)
    /\ (List.length (filter (has_type "low_budget") alerts) <= 1)%nat
    /\ (forall a, In a alerts -> Alert.type a = "low_budget" ->
        ((0 <? remaining_actual (metrics b))%float = true ->
         Alert.level a = "warning")
        /\ ((0 <? remaining_actual (metrics b))%float = false ->
            Alert.level a = "danger"))
    /\ ((income (metrics b) =? 0)%float = true ->
        forall a, In a alerts -> Alert.type a <> "low_budget").
Proof.
  intros Hfind Hreads.
  destruct (alerts_by_block db today_budget today month doc y m Hfind Hreads)
    as (b & Hb & Ha).
  eexists b, _. split; [exact Hb | ]. split; [exact Ha | ].
  set (O := List.concat (map _ (Dict.items _))).
  set (L := low_budget_of month _ _).
  set (D := List.concat (map _ (BudgetMonth.planned_expenses _))).
  assert (HO : forall a, In a O -> Alert.type a = "overspend").
  { intros a Hin. apply in_concat_map in Hin. destruct Hin as (it & _ & Hin).
    eapply overspend_block_type; exact Hin. }
  assert (HD : forall a, In a D -> Alert.type a = "due_soon").
  { intros a Hin. apply in_concat_map in Hin. destruct Hin as (p & _ & Hin).
    eapply due_soon_block_type; exact Hin. }
  assert (Hlow : forall a, In a (O ++ L ++ D) ->
                           Alert.type a = "low_budget" -> In a L).
  { intros a Hin Hty. apply in_app_or in Hin. destruct Hin as [Hin | Hin].
    - apply HO in Hin. congruence.
    - apply in_app_or in Hin. destruct Hin as [Hin | Hin]; [exact Hin | ].
      apply HD in Hin. congruence. }
  pose proof (low_budget_cases month (remaining_actual (metrics b))
                (income (metrics b))) as Hcases.
  fold L in Hcases.
  split; [ | split; [ | split]].
  - split.
    + intros (a & Hin & Hty). specialize (Hlow a Hin Hty).
      destruct Hcases as [(H1 & H2 & _) | (_ & HL)]; [tauto | ].
      rewrite HL in Hlow. destruct Hlow.
    + intros Hc. destruct Hcases as [(_ & _ & a & HL & Hty & _) | (Hn & _)];
        [ | contradiction].
      exists a. split; [ | exact Hty].
      apply in_or_app. right. apply in_or_app. left. rewrite HL. left.
      reflexivity.
  - rewrite !filter_app.
    rewrite (filter_nothing _ O), (filter_nothing _ D); cycle 1.
    { intros a Hin. unfold has_type. rewrite (HD a Hin). reflexivity. }
    { intros a Hin. unfold has_type. rewrite (HO a Hin). reflexivity. }
    rewrite app_nil_r. cbn [app].
    etransitivity; [apply filter_length_le | ].
    destruct Hcases as [(_ & _ & a & HL & _) | (_ & HL)]; rewrite HL; cbn; lia.
  - intros a Hin Hty. specialize (Hlow a Hin Hty).
    destruct Hcases as [(_ & _ & a' & HL & _ & Hlv) | (_ & HL)];
      rewrite HL in Hlow; [ | destruct Hlow].
    destruct Hlow as [<- | []]. rewrite Hlv.
    split; intros ->; reflexivity.
  - intros Hzero a Hin Hty. specialize (Hlow a Hin Hty).
    apply zero_not_positive in Hzero.
    destruct Hcases as [(Hpos & _) | (_ & HL)].
    + congruence.
    + rewrite HL in Hlow. destruct Hlow.
Qed.

Lemma low_budget_threshold_witness :
  Storage.find_one (Storage.budgetmonth db_tight) "2024-02"
  = Some (plan_of 0x1.dcccccccccccdp+3 [])
  /\ month_reads "2024-02" 2024 2
  /\ exists b alerts,
       get_budget (Some db_tight) feb_1 "2024-02" = Ok b
       /\ get_alerts (Some db_tight) feb_1 feb_1 "2024-02" = Ok alerts
       /\ ((exists a, In a alerts /\ Alert.type a = "low_budget")
           <-> (0 <? income (metrics b))%float = true
               /\ (remaining_actual (metrics b) / income (metrics b)
                   <=? tenth)%float = true)
       /\ (List.length (filter (has_type "low_budget") alerts) <= 1)%nat
       /\ (forall a, In a alerts -> Alert.type a = "low_budget" ->
           ((0 <? remaining_actual (metrics b))%float = true ->
            Alert.level a = "warning")
           /\ ((0 <? remaining_actual (metrics b))%float = false ->
               Alert.level a = "danger"))
       /\ ((income (metrics b) =? 0)%float = true ->
           forall a, In a alerts -> Alert.type a <> "low_budget").
Proof.
  split; [reflexivity | ]. split; [reads_month | ].
  apply (low_budget_threshold db_tight feb_1 feb_1 "2024-02"
           (plan_of 0x1.dcccccccccccdp+3 []) 2024 2).
  - reflexivity.
  - reads_month.
Defined.

(** The rules at their thresholds. Coffee planned at 50.4 with 63.0 spent:
    the product [50.4 * 1.25] rounds to 63.0, so the level is "warning". *)
Example coffee_is_warning :
  get_alerts (Some db_coffee) feb_1 feb_1 "2024-02"
  = Ok [{| Alert.month := "2024-02";
           Alert.type := "overspend";
           Alert.message :=
             "Spending in coffee is over plan (planned 50.40, actual 63.00).";
           Alert.level := "warning" |}].
Proof. vm_compute. reflexivity. Qed.

(** Coffee planned at 0.36 with 0.45 spent: the product [0.36 * 1.25] rounds
    below the float 0.45, so the level is "danger". *)
Example espresso_is_danger :
  get_alerts (Some db_espresso) feb_1 feb_1 "2024-02"
  = Ok [{| Alert.month := "2024-02";
           Alert.type := "overspend";
           Alert.message :=
             "Spending in coffee is over plan (planned 0.36, actual 0.45).";
           Alert.level := "danger" |}].
Proof. vm_compute. reflexivity. Qed.

(** Income 14.9 with 13.41 spent: the quotient of what remains by the
    income rounds to the float 0.1, so the low-budget alert is given. *)
Example tight_budget_alert :
  get_alerts (Some db_tight) feb_1 feb_1 "2024-02"
  = Ok [{| Alert.month := "2024-02";
           Alert.type := "low_budget";
           Alert.message :=
             "Remaining monthly budget is below 10% of income.";
           Alert.level := "warning" |}].
Proof. vm_compute. reflexivity. Qed.

(** Rent over plan by less than a quarter, two planned expenses on food
    totalled under one key, and the transaction of March left out. *)
Example home_budget :
  exists b,
    get_budget (Some db_home) feb_1 "2024-02" = Ok b
    /\ planned_by_category (metrics b)
       = [("rent", 1200%float); ("food", 345.5%float)]
    /\ actual_by_category (metrics b)
       = [("rent", 1300%float); ("food", 125.5%float)]
    /\ planned_total (metrics b) = 1545.5%float
    /\ actual_spent (metrics b) = 1425.5%float
    /\ remaining_actual (metrics b) = 574.5%float
    /\ remaining_planned (metrics b) = 454.5%float
    /\ days_left (metrics b) = 29.
Proof. eexists. split; [vm_compute; reflexivity | ]. repeat split. Qed.

End Binary64Alerts.

(** ** Totals by category and one more transaction *)

Module Binary64Totals.
Import Py Notions CalendarFacts BudgetFacts IsoFacts.
Import Binary64 Binary64.Main Binary64Facts.
Local Open Scope list_scope.








(** An everyday case. With income 1000 and 0.01 spent on food, one more
    transaction of 0.06 on food, dated in the month: the new
    [remaining_actual], 999.93, is not the old one less 0.06, which rounds
    to 999.9300000000001; and as real numbers none of [actual_spent], the
    entry of food and [remaining_actual] changes by the amount of the
    transaction. *)
Example cents_do_not_add_up :
  exists b b',
    get_budget (Some db_cents) feb_1 "2024-02" = Ok b
    /\ get_budget (Some db_cents_after) feb_1 "2024-02" = Ok b'
    /\ appends_transaction db_cents tx_six_cents db_cents_after
    /\ Storage.date tx_six_cents = "2024-02-12"
    /\ remaining_actual (metrics b') = 0x1.f3f70a3d70a3dp+9%float
    /\ (remaining_actual (metrics b) - tx_amount tx_six_cents)%float
       = 0x1.f3f70a3d70a3ep+9%float
    /\ ~ (exact (remaining_actual (metrics b'))
          == exact (remaining_actual (metrics b))
             - exact (tx_amount tx_six_cents))%Q
    /\ ~ (exact (actual_spent (metrics b'))
          == exact (actual_spent (metrics b))
             + exact (tx_amount tx_six_cents))%Q
    /\ ~ (exact (Dict.get (actual_by_category (metrics b')) "food" 0)
          == exact (Dict.get (actual_by_category (metrics b)) "food" 0)
             + exact (tx_amount tx_six_cents))%Q.
Proof.
  eexists _, _.
  split; [vm_compute; reflexivity | ]. split; [vm_compute; reflexivity | ].
  split; [split; reflexivity | ].
  do 3 (split; [vm_compute; reflexivity | ]).
  split; [ | split]; intros H; vm_compute in H; discriminate H.
Qed.

(** X18. Each entry of [planned_by_category] is the binary64 sum of the
    planned amounts of its category, added one by one in the plan's order
    from 0.0; its keys are the categories of the planned expenses, each
    once. *)
Theorem planned_by_category_entries (db : Storage.Database)
    (today : Datetime.date) (month : string) (doc : Storage.PlanDoc)
    (y m : Z) :
  Storage.find_one (Storage.budgetmonth db) month = Some doc ->
  month_reads month y m ->
  exists b,
    get_budget (Some db) today month = Ok b
    /\ NoDup (Dict.keys (planned_by_category (metrics b)))
    /\ (forall cat,
          In cat (Dict.keys (planned_by_category (metrics b)))
          <-> exists p,
                In p (BudgetMonth.planned_expenses (Storage.plan_body doc))
                /\ PlannedExpense.category p = cat)
    /\ (forall cat,
          Dict.get (planned_by_category (metrics b)) cat 0
          = sum (planned_amounts cat
                   (BudgetMonth.planned_expenses (Storage.plan_body doc)))).
Proof.
  intros Hfind Hreads.
  destruct (budget_metrics db today month doc y m Hfind Hreads)
    as (b & Hb & _ & _ & _ & _ & _ & _ & _ & _ & _ & Hpc & _).
  exists b. split; [exact Hb | ]. rewrite Hpc. split; [ | split].
  - apply (accumulate_nodup _ _ _ _ planned_step_adds). constructor.
  - intros cat.
    rewrite (accumulate_keys _ _ _ _ planned_step_adds). cbn [Dict.keys map In].
    tauto.
  - intros cat. rewrite (accumulate_get _ _ _ _ planned_step_adds).
    reflexivity.
Qed.

Lemma planned_by_category_entries_witness :
  Storage.find_one (Storage.budgetmonth db_home) "2024-02" = Some doc_home
  /\ month_reads "2024-02" 2024 2
  /\ exists b,
       get_budget (Some db_home) feb_1 "2024-02" = Ok b
       /\ NoDup (Dict.keys (planned_by_category (metrics b)))
       /\ (forall cat,
             In cat (Dict.keys (planned_by_category (metrics b)))
             <-> exists p,
                   In p (BudgetMonth.planned_expenses
                           (Storage.plan_body doc_home))
                   /\ PlannedExpense.category p = cat)
       /\ (forall cat,
             Dict.get (planned_by_category (metrics b)) cat 0
             = sum (planned_amounts cat
                      (BudgetMonth.planned_expenses
                         (Storage.plan_body doc_home)))).
Proof.
  split; [reflexivity | ]. split; [reads_month | ].
  apply (planned_by_category_entries db_home feb_1 "2024-02" doc_home 2024 2).
  - reflexivity.
  - reads_month.
Defined.

End Binary64Totals.

(** ** The clamp and the limits *)

Module Binary64Metrics.
Import Py Notions CalendarFacts BudgetFacts.
Import Binary64 Binary64.Main Binary64Facts.



(** X25. In binary64, [remaining_actual] is the rounded difference
    [income - actual_spent]; [daily_limit] is the rounded quotient of
    [remaining_actual] by the number of days left while days are left, and
    0 once the month is over; [weekly_limit] is the rounded product
    [daily_limit * 7], 0 once the month is over. *)
Theorem limits_binary64 (db : Storage.Database)
    (today : Datetime.date) (month : string) (doc : Storage.PlanDoc)
    (y m : Z) :
  Storage.find_one (Storage.budgetmonth db) month = Some doc ->
  month_reads month y m ->
  exists b,
    get_budget (Some db) today month = Ok b
    /\ remaining_actual (metrics b)
       = (income (metrics b) - actual_spent (metrics b))%float
    /\ (0 < days_left (metrics b) ->
        daily_limit (metrics b)
        = (remaining_actual (metrics b)
           / of_int (days_left (metrics b)))%float)
    /\ (date_lt (last_date y m) today ->
        days_left (metrics b) = 0
        /\ daily_limit (metrics b) = 0%float
        /\ weekly_limit (metrics b) = 0%float)
    /\ weekly_limit (metrics b) = (daily_limit (metrics b) * 7)%float.
Proof.
  intros Hfind Hreads.
  destruct (budget_metrics db today month doc y m Hfind Hreads)
    as (b & Hb & _ & _ & _ & _ & _ & Hra & Hdl & Hlim & Hw & _).
  destruct Hreads as (_ & _ & Hm).
  pose proof (ndays_bounds y m Hm) as Hn.
  exists b. split; [exact Hb | ]. split; [exact Hra | ].
  split; [ | split; [ | exact Hw]].
  - intros Hpos. rewrite Hlim at 1.
    apply Z.ltb_lt in Hpos. rewrite Hpos. reflexivity.
  - intros Hafter.
    assert (Hfl : ~ date_lt (last_date y m) (first_date y m)).
    { unfold date_lt. rewrite date_ltb_spec. cbn. lia. }
    assert (Hzero : days_left (metrics b) = 0).
    { rewrite Hdl. unfold days_left_of.
      destruct (Datetime.date_ltb today (first_date y m)) eqn:Hbefore.
      - exfalso. apply Hfl.
        eapply date_lt_trans; [exact Hafter | exact Hbefore].
      - unfold date_lt in Hafter. rewrite Hafter. reflexivity. }
    assert (Hdaily : daily_limit (metrics b) = 0%float).
    { rewrite Hlim, Hzero. reflexivity. }
    split; [exact Hzero | ]. split; [exact Hdaily | ].
    rewrite Hw, Hdaily. reflexivity.
Qed.

Lemma limits_binary64_witness :
  Storage.find_one (Storage.budgetmonth db_home) "2024-02" = Some doc_home
  /\ month_reads "2024-02" 2024 2
  /\ exists b,
       get_budget (Some db_home) feb_1 "2024-02" = Ok b
       /\ remaining_actual (metrics b)
          = (income (metrics b) - actual_spent (metrics b))%float
       /\ (0 < days_left (metrics b) ->
           daily_limit (metrics b)
           = (remaining_actual (metrics b)
              / of_int (days_left (metrics b)))%float)
       /\ (date_lt (last_date 2024 2) feb_1 ->
           days_left (metrics b) = 0
           /\ daily_limit (metrics b) = 0%float
           /\ weekly_limit (metrics b) = 0%float)
       /\ weekly_limit (metrics b) = (daily_limit (metrics b) * 7)%float.
Proof.
  split; [reflexivity | ]. split; [reads_month | ].
  apply (limits_binary64 db_home feb_1 "2024-02" doc_home 2024 2).
  - reflexivity.
  - reads_month.
Defined.

End Binary64Metrics.
